(** * Two-pass flight sampling (process_flight_data.py)

    A shallow embedding of [find_target_flight_ids], [collect_flight_data]
    and [process_flight_csvs], and the properties of the specification that
    are decided by them.  The last part adds the summary of the orchestrator,
    the flight plan of the generator of test data (generate_test_data.py) and
    the first analysis of the examples (example_usage.py), with properties
    read off the code.

    Conventions of the embedding.
    - A cell of the columns [flight_id] and [type] is an [option string]:
      [None] is the null (NaN) cell pandas produces for a missing field.
      Every file has the two columns in its header (section 6 of the
      specification), except in the part on files with other headers; the
      remaining columns travel in [telemetry].
    - [pd.read_csv(path, chunksize=...)] is a library capability.  A file is
      what its reader delivers at the configured chunk size: a sequence of
      chunks, then either the end of the stream or an exception.  The rows of
      a file are the rows of the chunks it delivers.
    - A Python [set] has no iteration order of its own.  The order in which a
      process iterates one is a parameter ([SetOrder]); it is the only source
      of variation between two runs.
    - [print] is kept as an event log: which file is handed to the reader,
      and which file is reported as failed. *)

From Stdlib Require Import ZArith Ascii String OrderedTypeEx DecimalString DecimalNat.
From stdpp Require Import base gmap sets list strings sorting.

Local Open Scope Z_scope.

(** ** Data model *)

(** A cell of a string column; [None] is null. *)
Abbreviation cell := (option string).

Record row := Row {
  flight_id : cell;
  type : cell;
  telemetry : string;
}.

#[global] Instance row_eq_dec : EqDecision row.
Proof. solve_decision. Defined.

Abbreviation chunk := (list row).

(** The behaviour of [pd.read_csv(path, chunksize=chunk_size)] on one file:
    the chunks it yields, and the exception (if any) that ends the stream.
    A file that cannot be opened yields no chunk and raises. *)
Record csv_file := CsvFile {
  path : string;
  chunks : list chunk;
  raises : option string;
}.

#[global] Instance csv_file_eq_dec : EqDecision csv_file.
Proof. solve_decision. Defined.

Definition rows_of (f : csv_file) : list row := concat (chunks f).

(** What the functions print, reduced to the two facts the properties need. *)
Inductive event :=
  | Reading (p : string)          (* the file is handed to pd.read_csv *)
  | ErrorReading (p msg : string) (* "Error reading {csv_file}: {e}" *).

#[global] Instance event_eq_dec : EqDecision event.
Proof. solve_decision. Defined.

(** What reading one file prints: the file is handed to the reader, and the
    [except] clause reports the exception that ended its stream. *)
Definition file_log (f : csv_file) : list event :=
  Reading (path f) ::
    match raises f with
    | Some e => [ErrorReading (path f) e]
    | None => []
    end.

(** Iteration order of the sets of one process. *)
Record SetOrder := {
  iter_ids : gset cell → list cell;
  iter_ids_perm : ∀ s, iter_ids s ≡ₚ elements s;
  iter_types : gset string → list string;
  iter_types_perm : ∀ s, iter_types s ≡ₚ elements s;
}.

(** ** Python primitives *)

(** [l[:n]] for a Python int [n]: a negative bound counts from the end. *)
Definition py_slice_to {A} (l : list A) (n : Z) : list A :=
  if 0 <=? n then take (Z.to_nat n) l
  else take (Z.to_nat (Z.of_nat (length l) + n)) l.

(** [series.isin(values)] on one cell, for a set of strings: null is never
    a member. *)
Definition isin_types (c : cell) (s : gset string) : bool :=
  match c with
  | Some t => bool_decide (t ∈ s)
  | None => false
  end.

(** [series == value] on one cell. *)
Definition cell_is (c : cell) (t : string) : bool :=
  bool_decide (c = Some t).

(** [series.isin(values)] for a set of cells collected by [unique()]:
    pandas matches null with null. *)
Definition isin_ids (c : cell) (s : gset cell) : bool :=
  bool_decide (c ∈ s).

(** ** Pass 1: find_target_flight_ids *)

Record scan_state := ScanState {
  found_flights : gmap string (gset cell);
  types_needed : gset string;
}.

Section discovery.
Context (ord : SetOrder).
Variable flights_per_type : Z.

(** Body of [for aircraft_type in types_needed.copy()]. *)
Definition scan_type (filtered_chunk : chunk) (st : scan_state)
    (aircraft_type : string) : scan_state :=
  let type_rows := filter (λ r, cell_is (type r) aircraft_type = true) filtered_chunk in
  match type_rows with
  | [] => st
  | _ :: _ =>
    let new_flight_ids : gset cell := list_to_set (flight_id <$> type_rows) in
    let updated := found_flights st !!! aircraft_type ∪ new_flight_ids in
    if flights_per_type <=? Z.of_nat (size updated) then
      {| found_flights :=
           <[aircraft_type :=
               list_to_set (py_slice_to (iter_ids ord updated) flights_per_type)]>
             (found_flights st);
         types_needed := types_needed st ∖ {[aircraft_type]} |}
    else
      {| found_flights := <[aircraft_type := updated]> (found_flights st);
         types_needed := types_needed st |}
  end.

(** Body of the chunk loop. *)
Definition scan_chunk (st : scan_state) (c : chunk) : scan_state :=
  let filtered_chunk := filter (λ r, isin_types (type r) (types_needed st) = true) c in
  match filtered_chunk with
  | [] => st
  | _ :: _ => foldl (scan_type filtered_chunk) st (iter_types ord (types_needed st))
  end.

(** The [try] block of one file: every chunk the reader yields is
    processed; an exception of the reader leaves the state as the last
    processed chunk left it, and is reported. *)
Definition scan_file (st : scan_state) (f : csv_file) : scan_state * list event :=
  (foldl scan_chunk st (chunks f), file_log f).

(** The file loop, with its [break]. *)
Fixpoint scan_files (st : scan_state) (csv_files : list csv_file)
    : scan_state * list event :=
  match csv_files with
  | [] => (st, [])
  | f :: rest =>
    if decide (types_needed st = ∅) then (st, [])
    else
      let '(st1, log1) := scan_file st f in
      let '(st2, log2) := scan_files st1 rest in
      (st2, log1 ++ log2)
  end.

Definition initial_state (target_types : list string) : scan_state :=
  {| found_flights := ∅; types_needed := list_to_set target_types |}.

Definition find_target_flight_ids (csv_files : list csv_file)
    (target_types : list string) : gmap string (gset cell) * list event :=
  let '(st, log) := scan_files (initial_state target_types) csv_files in
  (found_flights st, log).
End discovery.

(** ** Pass 2: collect_flight_data *)

(** [all_target_ids]: the union of the values of the map. *)
Definition all_target_ids (target_flight_ids : gmap string (gset cell)) : gset cell :=
  ⋃ (map_to_list target_flight_ids).*2.

(** Order of one sort column, as [sort_values] uses it: strings in increasing order
    (code-point order, which is byte order on UTF-8), null last. *)
Definition cell_compare (a b : cell) : comparison :=
  match a, b with
  | Some x, Some y => String.compare x y
  | Some _, None => Lt
  | None, Some _ => Gt
  | None, None => Eq
  end.

(** [(type, flight_id)] compared lexicographically. *)
Definition row_compare (r1 r2 : row) : comparison :=
  match cell_compare (type r1) (type r2) with
  | Eq => cell_compare (flight_id r1) (flight_id r2)
  | c => c
  end.

Definition row_leb (r1 r2 : row) : bool :=
  match row_compare r1 r2 with Gt => false | _ => true end.

(** [sort_values(['type', 'flight_id'])]: with more than one key pandas sorts
    through a lexsort, which is stable; an insertion sort that places a row
    before the first row that is not smaller is the same function. *)
Fixpoint insert_row (r : row) (l : list row) : list row :=
  match l with
  | [] => [r]
  | y :: l' => if row_leb r y then r :: l else y :: insert_row r l'
  end.

Definition sort_values (l : list row) : list row := foldr insert_row [] l.

(** Body of the chunk loop: [collected_data.append(filtered_chunk)] when the
    filtered chunk is not empty. *)
Definition collect_chunk (ids : gset cell) (collected_data : list chunk) (c : chunk)
    : list chunk :=
  let filtered_chunk := filter (λ r, isin_ids (flight_id r) ids = true) c in
  match filtered_chunk with
  | [] => collected_data
  | _ :: _ => collected_data ++ [filtered_chunk]
  end.

Definition collect_file (ids : gset cell) (collected_data : list chunk) (f : csv_file)
    : list chunk * list event :=
  (foldl (collect_chunk ids) collected_data (chunks f), file_log f).

(** The file loop of pass 2: no [break]. *)
Fixpoint collect_files (ids : gset cell) (collected_data : list chunk)
    (csv_files : list csv_file) : list chunk * list event :=
  match csv_files with
  | [] => (collected_data, [])
  | f :: rest =>
    let '(acc1, log1) := collect_file ids collected_data f in
    let '(acc2, log2) := collect_files ids acc1 rest in
    (acc2, log1 ++ log2)
  end.

(** The accumulator [collected_data] of a call, empty when the call returns
    before the file loop. *)
Definition collected_batches (csv_files : list csv_file)
    (target_flight_ids : gmap string (gset cell)) : list chunk :=
  let ids := all_target_ids target_flight_ids in
  if decide (ids = ∅) then [] else (collect_files ids [] csv_files).1.

(** The empty DataFrame is the empty list of rows. *)
Definition collect_flight_data (csv_files : list csv_file)
    (target_flight_ids : gmap string (gset cell)) : list row * list event :=
  let ids := all_target_ids target_flight_ids in
  if decide (ids = ∅) then ([], [])
  else
    let '(collected_data, log) := collect_files ids [] csv_files in
    match collected_data with
    | [] => ([], log)
    | _ :: _ => (sort_values (concat collected_data), log)
    end.

(** ** Orchestrator: process_flight_csvs *)

(** Result of a run: the returned frame, the rows written to [output_file]
    (when it is written) and the log.  [csv_files] is the sorted result of
    the glob. *)
Record run := Run {
  result_df : list row;
  written : option (list row);
  run_log : list event;
}.

Definition process_flight_csvs (ord : SetOrder) (csv_files : list csv_file)
    (target_types : list string) (flights_per_type : Z) (output_file : string) : run :=
  match csv_files with
  | [] => {| result_df := []; written := None; run_log := [] |}
  | _ :: _ =>
    let '(target_flight_ids, log1) :=
      find_target_flight_ids ord flights_per_type csv_files target_types in
    let '(result, log2) := collect_flight_data csv_files target_flight_ids in
    {| result_df := result;
       written :=
         match result, output_file with
         | _ :: _, String _ _ => Some result
         | _, _ => None
         end;
       run_log := log1 ++ log2 |}
  end.

(** ** Two iteration orders

    The order of [elements], and its reverse. *)

Program Definition forward : SetOrder :=
  {| iter_ids := elements; iter_types := elements |}.
Solve Obligations with done.

Program Definition backward : SetOrder :=
  {| iter_ids := λ s, reverse (elements s); iter_types := λ s, reverse (elements s) |}.
Solve Obligations with (intros; apply reverse_Permutation).

(** ** Notions the properties are stated with *)

(** The chunks and rows the readers deliver, in file order. *)
Definition all_chunks (csv_files : list csv_file) : list chunk := csv_files ≫= chunks.
Definition all_rows (csv_files : list csv_file) : list row := csv_files ≫= rows_of.

(** The distinct [flight_id] cells of the rows of type [t] in a batch. *)
Definition chunk_ids (t : string) (c : chunk) : gset cell :=
  list_to_set (flight_id <$> filter (λ r, cell_is (type r) t = true) c).

(** The distinct flight identifiers of type [t] in the input files. *)
Definition available (t : string) (csv_files : list csv_file) : gset cell :=
  chunk_ids t (all_rows csv_files).

(** The files handed to the reader, in order. *)
Definition opened (log : list event) : list string :=
  omap (λ e, match e with Reading p => Some p | ErrorReading _ _ => None end) log.

(** State of pass 1 at the [n]-th chunk boundary of the stream. *)
Definition boundary (ord : SetOrder) (flights_per_type : Z)
    (csv_files : list csv_file) (target_types : list string) (n : nat) : scan_state :=
  foldl (scan_chunk ord flights_per_type) (initial_state target_types)
        (take n (all_chunks csv_files)).

(** The sort key of a row. *)
Definition sort_key (r : row) : cell * cell := (type r, flight_id r).

(** The same file, read to its end without an exception. *)
Definition without_failure (f : csv_file) : csv_file :=
  {| path := path f; chunks := chunks f; raises := None |}.

(** *** What pass 1 knows about one type

    The entry of the type in [found_flights], and whether the type is in
    [types_needed].  A chunk acts on each type separately. *)
Abbreviation view := (option (gset cell) * bool)%type.

Definition view_of (st : scan_state) (t : string) : view :=
  (found_flights st !! t, bool_decide (t ∈ types_needed st)).

Definition type_step (ord : SetOrder) (flights_per_type : Z) (c : chunk)
    (t : string) (v : view) : view :=
  match filter (λ r, cell_is (type r) t = true) c with
  | [] => v
  | _ :: _ =>
    let updated := default ∅ v.1 ∪ chunk_ids t c in
    if flights_per_type <=? Z.of_nat (size updated) then
      (Some (list_to_set (py_slice_to (iter_ids ord updated) flights_per_type)), false)
    else (Some updated, v.2)
  end.

Definition chunk_step (ord : SetOrder) (flights_per_type : Z) (t : string)
    (v : view) (c : chunk) : view :=
  if v.2 then type_step ord flights_per_type c t v else v.

(** *** Invariants of the view of one type

    [seen] is the set of identifiers of the type in the chunks processed so
    far. *)

(** Nothing is recorded that was not seen. *)
Definition sound (seen : gset cell) (v : view) : Prop :=
  ∀ s, v.1 = Some s → s ⊆ seen.

(** While the type is needed its entry is everything seen, and that is less
    than the quota; once it is not, its entry has the size of the quota. *)
Definition exact (flights_per_type : Z) (seen : gset cell) (v : view) : Prop :=
  if v.2 then
    (v.1 = None ∧ seen = ∅)
    ∨ (v.1 = Some seen ∧ seen ≠ ∅ ∧ Z.of_nat (size seen) < flights_per_type)
  else ∃ s, v.1 = Some s ∧ Z.of_nat (size s) = flights_per_type ∧ s ⊆ seen.

(** *** Orders

    What a three-way comparison has to satisfy to be a total order. *)
Class CompareSpec {A} (cmp : A → A → comparison) := {
  cmp_eq : ∀ a b, cmp a b = Eq ↔ a = b;
  cmp_antisym : ∀ a b, cmp a b = CompOpp (cmp b a);
  cmp_lt_trans : ∀ a b c, cmp a b = Lt → cmp b c = Lt → cmp a c = Lt;
}.

(** The comparison of two sort keys. *)
Definition key_compare (k1 k2 : cell * cell) : comparison :=
  match cell_compare k1.1 k2.1 with
  | Eq => cell_compare k1.2 k2.2
  | c => c
  end.

(** [r1] is not after [r2] in the order of the sort. *)
Definition row_le (r1 r2 : row) : Prop := row_leb r1 r2 = true.

(** A state in which no type still needed can outgrow the quota: what is
    recorded for it lies in a set [avail t] of at most [flights_per_type]
    identifiers. *)
Definition within (avail : string → gset cell) (flights_per_type : Z)
    (st : scan_state) : Prop :=
  ∀ t, t ∈ types_needed st →
    sound (avail t) (view_of st t) ∧ Z.of_nat (size (avail t)) ≤ flights_per_type.

(** ** Sample inputs *)

Definition track (id ty point : string) : row :=
  {| flight_id := Some id; type := Some ty; telemetry := point |}.

(** A flight with two track points. *)
Definition flight (id ty : string) : chunk := [track id ty "p1"; track id ty "p2"].

(** A file whose reader delivers one chunk and then fails on a bad line. *)
Definition interrupted_file : csv_file :=
  {| path := "flights_2024_01_02.csv";
     chunks := [flight "FL0001" "A"];
     raises := Some "Error tokenizing data" |}.

(** A file the reader cannot open. *)
Definition unreadable_file : csv_file :=
  {| path := "flights_2024_01_03.csv"; chunks := []; raises := Some "Permission denied" |}.

(** Two flights of one type in one chunk. *)
Definition two_flights_file : csv_file :=
  {| path := "flights_2024_01_01.csv";
     chunks := [flight "FL0001" "A" ++ flight "FL0002" "A"];
     raises := None |}.

(** A row whose [type] field is missing, among the rows of flight FL0001. *)
Definition untyped_row : row :=
  {| flight_id := Some "FL0001"; type := None; telemetry := "p3" |}.

Definition partial_schema_file : csv_file :=
  {| path := "flights_2024_01_01.csv";
     chunks := [flight "FL0001" "A" ++ [untyped_row]];
     raises := None |}.

(** *** The scenario of three daily files

    Each file holds five flights of type A and five of type B, and nothing
    else. *)
Definition scenario (csv_files : list csv_file) : Prop :=
  length csv_files = 3%nat
  ∧ Forall (λ f,
      size (chunk_ids "A" (rows_of f)) = 5%nat
      ∧ size (chunk_ids "B" (rows_of f)) = 5%nat
      ∧ Forall (λ r, type r = Some "A"%string ∨ type r = Some "B"%string) (rows_of f))
      csv_files.

(** Rows in flight-identifier order, null last. *)
Definition flight_id_le (r1 r2 : row) : Prop :=
  cell_compare (flight_id r1) (flight_id r2) ≠ Gt.

(** A daily file: the flights of type A in a first chunk, those of type B in
    a second. *)
Definition day_file (p : string) (a_ids b_ids : list string) : csv_file :=
  {| path := p;
     chunks := [a_ids ≫= (λ i, flight i "A"); b_ids ≫= (λ i, flight i "B")];
     raises := None |}.

(** Three days, every flight with an identifier of its own. *)
Definition day1 : csv_file :=
  day_file "flights_2024_01_01.csv"
    ["FL010001"; "FL010002"; "FL010003"; "FL010004"; "FL010005"]
    ["FL010006"; "FL010007"; "FL010008"; "FL010009"; "FL010010"]%string.

Definition day2 : csv_file :=
  day_file "flights_2024_01_02.csv"
    ["FL020001"; "FL020002"; "FL020003"; "FL020004"; "FL020005"]
    ["FL020006"; "FL020007"; "FL020008"; "FL020009"; "FL020010"]%string.

Definition day3 : csv_file :=
  day_file "flights_2024_01_03.csv"
    ["FL030001"; "FL030002"; "FL030003"; "FL030004"; "FL030005"]
    ["FL030006"; "FL030007"; "FL030008"; "FL030009"; "FL030010"]%string.

Definition three_days : list csv_file := [day1; day2; day3].

(** Three days on which identifiers are unique within a type only: the
    flights of type B of a day carry the identifiers of its flights of
    type A. *)
Definition three_days_shared_ids : list csv_file :=
  [ day_file "flights_2024_01_01.csv"
      ["FL0001"; "FL0002"; "FL0003"; "FL0004"; "FL0005"]
      ["FL0001"; "FL0002"; "FL0003"; "FL0004"; "FL0005"];
    day_file "flights_2024_01_02.csv"
      ["FL0001"; "FL0002"; "FL0003"; "FL0004"; "FL0005"]
      ["FL0001"; "FL0002"; "FL0003"; "FL0004"; "FL0005"];
    day_file "flights_2024_01_03.csv"
      ["FL0001"; "FL0002"; "FL0003"; "FL0004"; "FL0005"]
      ["FL0001"; "FL0002"; "FL0003"; "FL0004"; "FL0005"] ]%string.

(** ** Further notions: presence, the summary of the orchestrator *)

(** A type has an entry exactly when a row of it has been seen, and a type
    without an entry is still needed. *)
Definition present (seen : gset cell) (v : view) : Prop :=
  (v.1 = None ↔ seen = ∅) ∧ (v.1 = None → v.2 = true).

(** No flight identifier occurs with two types. *)
Definition single_typed (rows : list row) : Prop :=
  ∀ r1 r2, r1 ∈ rows → r2 ∈ rows → flight_id r1 = flight_id r2 → type r1 = type r2.

(** [series.nunique()]: the number of distinct cells, null not counted. *)
Definition nunique (cells : list cell) : nat :=
  size (list_to_set (C := gset cell) cells ∖ {[ None ]}).

(** The rows of [result_df[result_df['type'] == aircraft_type]]. *)
Definition type_data (result : list row) (aircraft_type : string) : list row :=
  filter (λ r, cell_is (type r) aircraft_type = true) result.

(** "Summary by type": a line per entry of [target_types], with the number
    of flights and of track points of the type in the frame. *)
Definition summary_by_type (target_types : list string) (result : list row)
    : list (string * nat * nat) :=
  (λ aircraft_type,
     (aircraft_type,
      nunique (flight_id <$> type_data result aircraft_type),
      length (type_data result aircraft_type))) <$> target_types.

(** What [process_flight_csvs] prints as summary: it is printed in the
    branch that writes the output file. *)
Definition printed_summary (ord : SetOrder) (csv_files : list csv_file)
    (target_types : list string) (flights_per_type : Z) (output_file : string)
    : option (list (string * nat * nat)) :=
  summary_by_type target_types
    <$> written (process_flight_csvs ord csv_files target_types flights_per_type output_file).

(** ** generate_test_data.py

    The random draws of the generator are a parameter: the telemetry text of
    the track points of each flight (their number is [n_points]) and the
    shuffle of the rows of a day.  The formatted date of a day,
    [date.strftime('%Y%m%d')], is taken as a string. *)

Fixpoint zeros (k : nat) : string :=
  match k with
  | O => ""
  | S k => String "0" (zeros k)
  end.

(** [f"{n:04d}"]: the decimal digits of [n], with zeros on the left up to
    four characters. *)
Definition format_04d (n : nat) : string :=
  let digits := NilEmpty.string_of_uint (Nat.to_uint n) in
  zeros (4 - String.length digits) +:+ digits.

(** [f"FL{date.strftime('%Y%m%d')}{flight_counter:04d}"] *)
Definition new_flight_id (ymd : string) (flight_counter : nat) : string :=
  "FL" +:+ ymd +:+ format_04d flight_counter.

Record Draws := {
  track_points : string → list string;
  shuffle : list row → list row;
  shuffle_perm : ∀ l, shuffle l ≡ₚ l;
}.

(** The rows of one flight: every track point carries the identifier and
    the type of the flight. *)
Definition generate_flight_track (id aircraft_type : string) (points : list string)
    : list row :=
  (λ p, {| flight_id := Some id; type := Some aircraft_type; telemetry := p |})
    <$> points.

(** The two nested loops of [generate_daily_csv]: the identifier and the
    type of each flight, in the order of the calls of
    [generate_flight_track].  [aircraft_types.items()] is the list of the
    entries of the dict; [range(count)] is empty for a count below one. *)
Fixpoint plan_flights (ymd : string) (aircraft_types : list (string * Z))
    (flight_counter : nat) : list (string * string) :=
  match aircraft_types with
  | [] => []
  | (aircraft_type, count) :: rest =>
    ((λ k, (new_flight_id ymd (flight_counter + k), aircraft_type))
       <$> seq 0 (Z.to_nat count))
    ++ plan_flights ymd rest (flight_counter + Z.to_nat count)
  end.

(** The rows written to the file of a day; [None] when the function raises:
    [pd.concat] refuses an empty list of flights, and
    [day_data['flight_id']] fails on a frame without rows, which has no
    columns. *)
Definition generate_daily_csv (d : Draws) (ymd : string)
    (aircraft_types : list (string * Z)) : option (list row) :=
  let all_flights :=
    (λ f, generate_flight_track f.1 f.2 (track_points d f.1))
      <$> plan_flights ymd aircraft_types 1 in
  match all_flights with
  | [] => None
  | _ :: _ =>
    match shuffle d (concat all_flights) with
    | [] => None
    | day_data => Some day_data
    end
  end.

(** [{**target_types, **other_types}] in [generate_test_dataset]. *)
Definition all_types (target_types_count other_types_count : Z) : list (string * Z) :=
  [("Type1", target_types_count); ("Type2", target_types_count);
   ("Type3", other_types_count / 4); ("Type4", other_types_count / 4);
   ("Type5", other_types_count / 4); ("Type6", other_types_count / 4)]%string.

(** The day loop of [generate_test_dataset]: the rows of the file of each
    day, [None] when a day raises.  [ymd_of_day day] is the formatted date
    of [start_date + timedelta(days=day)]. *)
Definition generate_test_dataset (d : Draws) (ymd_of_day : nat → string)
    (n_days target_types_count other_types_count : Z) : option (list (list row)) :=
  mapM (λ day, generate_daily_csv d (ymd_of_day day)
                 (all_types target_types_count other_types_count))
       (seq 0 (Z.to_nat n_days)).

(** ** example_usage.py: "Track Points per Flight" in example_with_analysis *)

(** [series.unique()]: the distinct cells in order of first appearance,
    null among them. *)
Fixpoint unique (cells : list cell) : list cell :=
  match cells with
  | [] => []
  | c :: rest => c :: filter (λ x, x ≠ c) (unique rest)
  end.

(** [series == value] on one cell, for a value taken from the column: null
    is equal to nothing, not even to null. *)
Definition cell_eq (c v : cell) : bool :=
  match c, v with
  | Some a, Some b => bool_decide (a = b)
  | _, _ => false
  end.

(** One round of the loop: the rows of the flight, the type of the first of
    them and their number.  [iloc[0]] raises on a frame without rows. *)
Definition flight_line (result : list row) (id : cell) : option (cell * cell * nat) :=
  let flight_data := filter (λ r, cell_eq (flight_id r) id = true) result in
  match flight_data with
  | [] => None
  | r :: _ => Some (id, type r, length flight_data)
  end.

(** The lines the loop prints, [None] when it raises. *)
Definition track_points_per_flight (result : list row) : option (list (cell * cell * nat)) :=
  mapM (flight_line result) (unique (flight_id <$> result)).

(** ** Sample draws and frames *)

(** Two track points for every flight, rows written in reverse order. *)
Program Definition sample_draws : Draws :=
  {| track_points := λ _, ["p1"; "p2"]%string; shuffle := reverse |}.
Next Obligation. intros l. apply reverse_Permutation. Qed.

Definition sample_ymd (day : nat) : string :=
  match day with
  | O => "20240101"
  | _ => "20240102"
  end.

Definition sample_day : list row :=
  default [] (generate_daily_csv sample_draws "20240101" (all_types 1 4)).

Definition sample_dataset : list (list row) :=
  default [] (generate_test_dataset sample_draws sample_ymd 2 1 4).

(** A chunk with null cells among the rows of flight FL0001, not in the
    order of the sort: two rows without type, two rows of type A without
    identifier. *)
Definition untyped_row2 : row :=
  {| flight_id := Some "FL0001"; type := None; telemetry := "p6" |}.

Definition anonymous_row (point : string) : row :=
  {| flight_id := None; type := Some "A"; telemetry := point |}.

Definition null_cells_file : csv_file :=
  {| path := "flights_2024_01_04.csv";
     chunks := [[untyped_row; anonymous_row "p4"; track "FL0001" "A" "p1";
                 anonymous_row "p5"; untyped_row2]];
     raises := None |}.

(** The three days in one file and one chunk. *)
Definition three_days_one_chunk : csv_file :=
  {| path := "flights_2024_01.csv"; chunks := [all_rows three_days]; raises := None |}.

(** The frame the pipeline returns on the three days with a quota of two. *)
Definition sample_frame : list row :=
  result_df (process_flight_csvs forward three_days ["A"%string] 2 "filtered_flights.csv").

(** ** Files with other headers

    So far every file has the columns [type] and [flight_id].  A table is a
    file with the columns its header has.  Reading a column a chunk does not
    have ([chunk['type']], [type_rows['flight_id']], [chunk['flight_id']],
    and [sort_values] on a frame without [type]) raises KeyError; inside the
    [try] of a pass the [except] clause catches it like an exception of the
    reader.  The functions below are the two passes and the orchestrator
    with these exceptions written out: a loop returns the state it has
    reached and the exception that stopped it, if any. *)

Record header := Header {
  has_type : bool;
  has_flight_id : bool;
}.

Record table := Table {
  columns : header;
  source : csv_file;
}.

Definition full (h : header) : bool := has_type h && has_flight_id h.

(** A row as the reader delivers it: a column the header lacks has no cell
    ([pd.concat] fills it with null). *)
Definition blank (h : header) (r : row) : row :=
  {| flight_id := if has_flight_id h then flight_id r else None;
     type := if has_type h then type r else None;
     telemetry := telemetry r |}.

Definition delivered (tb : table) : list chunk :=
  (λ c : chunk, blank (columns tb) <$> c) <$> chunks (source tb).

(** [str(e)] for the KeyError of a column. *)
Definition key_error_type : string := "'type'".
Definition key_error_flight_id : string := "'flight_id'".

Section discovery_with_headers.
Context (ord : SetOrder).
Variable flights_per_type : Z.

(** Body of the loop over the types: [type_rows['flight_id']] is read when
    the type has rows in the chunk. *)
Definition scan_type_h (h : header) (filtered_chunk : chunk) (st : scan_state)
    (aircraft_type : string) : scan_state * option string :=
  match filter (λ r, cell_is (type r) aircraft_type = true) filtered_chunk with
  | [] => (st, None)
  | _ :: _ =>
    if has_flight_id h
    then (scan_type ord flights_per_type filtered_chunk st aircraft_type, None)
    else (st, Some key_error_flight_id)
  end.

Fixpoint scan_types_h (h : header) (filtered_chunk : chunk) (st : scan_state)
    (types : list string) : scan_state * option string :=
  match types with
  | [] => (st, None)
  | t :: rest =>
    match scan_type_h h filtered_chunk st t with
    | (st1, None) => scan_types_h h filtered_chunk st1 rest
    | raised => raised
    end
  end.

(** Body of the chunk loop: [chunk['type']] is read first. *)
Definition scan_chunk_h (h : header) (st : scan_state) (c : chunk)
    : scan_state * option string :=
  if has_type h then
    let filtered_chunk := filter (λ r, isin_types (type r) (types_needed st) = true) c in
    match filtered_chunk with
    | [] => (st, None)
    | _ :: _ => scan_types_h h filtered_chunk st (iter_types ord (types_needed st))
    end
  else (st, Some key_error_type).

Fixpoint scan_chunks_h (h : header) (st : scan_state) (cs : list chunk)
    : scan_state * option string :=
  match cs with
  | [] => (st, None)
  | c :: rest =>
    match scan_chunk_h h st c with
    | (st1, None) => scan_chunks_h h st1 rest
    | raised => raised
    end
  end.

(** The [try] block of one file: a KeyError ends it like an exception of the
    reader. *)
Definition scan_table (st : scan_state) (tb : table) : scan_state * list event :=
  let '(st1, raised) := scan_chunks_h (columns tb) st (delivered tb) in
  (st1,
   match raised with
   | Some e => [Reading (path (source tb)); ErrorReading (path (source tb)) e]
   | None => file_log (source tb)
   end).

Fixpoint scan_tables (st : scan_state) (tables : list table)
    : scan_state * list event :=
  match tables with
  | [] => (st, [])
  | tb :: rest =>
    if decide (types_needed st = ∅) then (st, [])
    else
      let '(st1, log1) := scan_table st tb in
      let '(st2, log2) := scan_tables st1 rest in
      (st2, log1 ++ log2)
  end.

Definition find_target_flight_ids_h (tables : list table)
    (target_types : list string) : gmap string (gset cell) * list event :=
  let '(st, log) := scan_tables (initial_state target_types) tables in
  (found_flights st, log).
End discovery_with_headers.

(** A batch of pass 2 with the note whether it has the column [type]. *)
Definition collect_chunk_h (h : header) (ids : gset cell)
    (collected_data : list (bool * chunk)) (c : chunk)
    : list (bool * chunk) * option string :=
  if has_flight_id h then
    (match filter (λ r, isin_ids (flight_id r) ids = true) c with
     | [] => collected_data
     | _ :: _ =>
       collected_data
         ++ [(has_type h, filter (λ r, isin_ids (flight_id r) ids = true) c)]
     end, None)
  else (collected_data, Some key_error_flight_id).

Fixpoint collect_chunks_h (h : header) (ids : gset cell)
    (collected_data : list (bool * chunk)) (cs : list chunk)
    : list (bool * chunk) * option string :=
  match cs with
  | [] => (collected_data, None)
  | c :: rest =>
    match collect_chunk_h h ids collected_data c with
    | (acc1, None) => collect_chunks_h h ids acc1 rest
    | raised => raised
    end
  end.

Definition collect_table (ids : gset cell) (collected_data : list (bool * chunk))
    (tb : table) : list (bool * chunk) * list event :=
  let '(acc1, raised) := collect_chunks_h (columns tb) ids collected_data (delivered tb) in
  (acc1,
   match raised with
   | Some e => [Reading (path (source tb)); ErrorReading (path (source tb)) e]
   | None => file_log (source tb)
   end).

Fixpoint collect_tables (ids : gset cell) (collected_data : list (bool * chunk))
    (tables : list table) : list (bool * chunk) * list event :=
  match tables with
  | [] => (collected_data, [])
  | tb :: rest =>
    let '(acc1, log1) := collect_table ids collected_data tb in
    let '(acc2, log2) := collect_tables ids acc1 rest in
    (acc2, log1 ++ log2)
  end.

(** [None] is the KeyError of [sort_values] on a frame without the column
    [type]: it is raised after the file loop, outside every [try]. *)
Definition collect_flight_data_h (tables : list table)
    (target_flight_ids : gmap string (gset cell)) : option (list row) * list event :=
  let ids := all_target_ids target_flight_ids in
  if decide (ids = ∅) then (Some [], [])
  else
    let '(collected_data, log) := collect_tables ids [] tables in
    match collected_data with
    | [] => (Some [], log)
    | _ :: _ =>
      if existsb fst collected_data
      then (Some (sort_values (concat (snd <$> collected_data))), log)
      else (None, log)
    end.

(** [None]: the exception of pass 2 leaves [process_flight_csvs]. *)
Definition process_flight_csvs_h (ord : SetOrder) (tables : list table)
    (target_types : list string) (flights_per_type : Z) (output_file : string)
    : option run :=
  match tables with
  | [] => Some {| result_df := []; written := None; run_log := [] |}
  | _ :: _ =>
    let '(target_flight_ids, log1) :=
      find_target_flight_ids_h ord flights_per_type tables target_types in
    let '(returned, log2) := collect_flight_data_h tables target_flight_ids in
    match returned with
    | None => None
    | Some result =>
      Some {| result_df := result;
              written :=
                match result, output_file with
                | _ :: _, String _ _ => Some result
                | _, _ => None
                end;
              run_log := log1 ++ log2 |}
    end
  end.

(** What a pass can use of a table: pass 1 needs both columns, pass 2 the
    column [flight_id]; of a table without them nothing is used. *)
Definition seen_by_pass1 (tb : table) : csv_file :=
  {| path := path (source tb);
     chunks := if full (columns tb) then delivered tb else [];
     raises := raises (source tb) |}.

Definition seen_by_pass2 (tb : table) : csv_file :=
  {| path := path (source tb);
     chunks := if has_flight_id (columns tb) then delivered tb else [];
     raises := raises (source tb) |}.

(** The batches pass 2 takes from a table, each with the note of its
    header, and what pass 2 prints for the table: the KeyError of
    [chunk['flight_id']] is raised on the first chunk. *)
Definition batches_of (ids : gset cell) (tb : table) : list (bool * chunk) :=
  pair (has_type (columns tb))
    <$> foldl (collect_chunk ids) [] (chunks (seen_by_pass2 tb)).

Definition pass2_log (tb : table) : list event :=
  match has_flight_id (columns tb), chunks (source tb) with
  | false, _ :: _ =>
    [Reading (path (source tb)); ErrorReading (path (source tb)) key_error_flight_id]
  | _, _ => file_log (source tb)
  end.

(** Some chunk has a row whose type is one of [needed]. *)
Definition mentions (needed : gset string) (cs : list chunk) : bool :=
  existsb (existsb (λ r, isin_types (type r) needed)) cs.

(** The same table without the rows whose [type] is null. *)
Definition without_untyped_rows (tb : table) : table :=
  {| columns := columns tb;
     source := {| path := path (source tb);
                  chunks := filter (λ r, type r ≠ None) <$> chunks (source tb);
                  raises := raises (source tb) |} |}.

(** A file with every column, and the same rows in a file whose header has
    no [type]. *)
Definition with_all_columns (f : csv_file) : table :=
  {| columns := {| has_type := true; has_flight_id := true |}; source := f |}.

Definition without_type_column (f : csv_file) : table :=
  {| columns := {| has_type := false; has_flight_id := true |}; source := f |}.

Definition without_flight_id_column (f : csv_file) : table :=
  {| columns := {| has_type := true; has_flight_id := false |}; source := f |}.

(** A file whose header has no [type] column, with two rows of flight
    FL0001, and a file whose header has no [flight_id] column, with a row of
    type A. *)
Definition typeless_file : csv_file :=
  {| path := "flights_2024_01_05.csv";
     chunks := [[untyped_row; untyped_row2]];
     raises := None |}.

Definition unidentified_file : csv_file :=
  {| path := "flights_2024_01_06.csv";
     chunks := [[anonymous_row "p4"]];
     raises := None |}.

Definition mixed_headers : list table :=
  [with_all_columns partial_schema_file; without_type_column typeless_file;
   without_flight_id_column unidentified_file].

(** * Proofs *)

(** ** Pass 1, one type at a time *)

Section discovery_facts.
Context (ord : SetOrder) (q : Z).

Lemma lookup_total_default (m : gmap string (gset cell)) t :
  m !!! t = default ∅ (m !! t).
Proof. by rewrite lookup_total_alt. Qed.

Lemma scan_type_self fc st t :
  view_of (scan_type ord q fc st t) t = type_step ord q fc t (view_of st t).
Proof.
  unfold scan_type, type_step, view_of, chunk_ids; simpl.
  destruct (filter _ fc) as [|r rs] eqn:E; [done|].
  rewrite lookup_total_default.
  case_match; simpl.
  - rewrite lookup_insert_eq. f_equal.
    apply bool_decide_eq_false. set_solver.
  - by rewrite lookup_insert_eq.
Qed.

Lemma scan_type_other fc st t t' :
  t ≠ t' → view_of (scan_type ord q fc st t') t = view_of st t.
Proof.
  intros Hne. unfold scan_type, view_of.
  destruct (filter _ fc) as [|r rs]; [done|].
  case_match; simpl; rewrite lookup_insert_ne by done; f_equal.
  apply bool_decide_ext. set_solver.
Qed.

Lemma foldl_scan_type fc l : ∀ st t,
  NoDup l →
  view_of (foldl (scan_type ord q fc) st l) t =
    if bool_decide (t ∈ l) then type_step ord q fc t (view_of st t) else view_of st t.
Proof.
  induction l as [|x l IH]; intros st t Hnd; simpl; [done|].
  apply NoDup_cons in Hnd as [Hx Hnd].
  rewrite IH by done.
  destruct (decide (t = x)) as [->|Hne].
  - rewrite (bool_decide_eq_false_2 (x ∈ l)) by done.
    rewrite (bool_decide_eq_true_2 (x ∈ x :: l)) by set_solver.
    apply scan_type_self.
  - rewrite scan_type_other by done.
    apply (f_equal (λ b : bool, if b then _ else _)).
    apply bool_decide_ext. set_solver.
Qed.

Lemma filter_type_mask (s : gset string) t (c : chunk) :
  t ∈ s →
  filter (λ r, cell_is (type r) t = true)
         (filter (λ r, isin_types (type r) s = true) c)
  = filter (λ r, cell_is (type r) t = true) c.
Proof.
  intros Ht. induction c as [|r c IH]; [done|].
  rewrite (filter_cons (λ r, isin_types _ _ = true)).
  rewrite !(filter_cons (λ r, cell_is _ _ = true)).
  destruct (decide (isin_types (type r) s = true)) as [Hm|Hm].
  - rewrite filter_cons, IH. done.
  - rewrite IH. destruct (decide (cell_is (type r) t = true)) as [Hc|Hc]; [|done].
    exfalso. apply Hm. unfold cell_is in Hc.
    apply bool_decide_eq_true in Hc. rewrite Hc. simpl.
    by apply bool_decide_eq_true.
Qed.

Lemma type_step_mask (s : gset string) t (c : chunk) v :
  t ∈ s →
  type_step ord q (filter (λ r, isin_types (type r) s = true) c) t v
  = type_step ord q c t v.
Proof.
  intros Ht. unfold type_step, chunk_ids. by rewrite filter_type_mask.
Qed.

Lemma scan_chunk_view st c t :
  view_of (scan_chunk ord q st c) t = chunk_step ord q t (view_of st t) c.
Proof.
  unfold scan_chunk, chunk_step.
  destruct (filter (λ r, isin_types _ _ = true) c) as [|r0 fc] eqn:E.
  - simpl. case_bool_decide as Ht; [|done].
    rewrite <- (type_step_mask _ _ _ _ Ht), E. done.
  - rewrite foldl_scan_type.
    2:{ rewrite iter_types_perm. apply NoDup_elements. }
    simpl.
    rewrite (bool_decide_ext (t ∈ iter_types ord (types_needed st)) (t ∈ types_needed st)).
    2:{ rewrite iter_types_perm. apply elem_of_elements. }
    case_bool_decide as Ht; [|done].
    rewrite <- E. by apply type_step_mask.
Qed.

Lemma scan_state_ext st1 st2 :
  (∀ t, view_of st1 t = view_of st2 t) → st1 = st2.
Proof.
  intros H. destruct st1 as [f1 n1], st2 as [f2 n2]. f_equal.
  - apply map_eq. intros t. specialize (H t). by inversion H.
  - apply set_eq. intros t. specialize (H t). inversion H as [[H1 H2]].
    simpl in H2.
    split; intros Hin; apply (bool_decide_eq_true (t ∈ _));
      [rewrite <- H2 | rewrite H2]; by apply bool_decide_eq_true.
Qed.

Lemma foldl_scan_chunk_view cs : ∀ st t,
  view_of (foldl (scan_chunk ord q) st cs) t
  = foldl (chunk_step ord q t) (view_of st t) cs.
Proof.
  induction cs as [|c cs IH]; intros st t; simpl; [done|].
  by rewrite IH, scan_chunk_view.
Qed.

Lemma chunk_step_done t o cs : foldl (chunk_step ord q t) (o, false) cs = (o, false).
Proof. induction cs as [|c cs IH]; simpl; [done|]. apply IH. Qed.

Lemma scan_chunks_exhausted st cs :
  types_needed st = ∅ → foldl (scan_chunk ord q) st cs = st.
Proof.
  intros He. apply scan_state_ext. intros t.
  rewrite foldl_scan_chunk_view. unfold view_of at 1. rewrite He.
  rewrite bool_decide_eq_false_2 by set_solver.
  rewrite chunk_step_done. unfold view_of. rewrite He.
  by rewrite bool_decide_eq_false_2 by set_solver.
Qed.

(** The [break] changes the log, not the state: the final state is the
    chunk loop run over the whole stream. *)
Lemma scan_files_state files : ∀ st,
  (scan_files ord q st files).1 = foldl (scan_chunk ord q) st (all_chunks files).
Proof.
  induction files as [|f files IH]; intros st; simpl; [done|].
  unfold all_chunks. simpl. fold (all_chunks files).
  rewrite foldl_app.
  destruct (decide (types_needed st = ∅)) as [He|Hne].
  - simpl. rewrite (scan_chunks_exhausted st (chunks f)) by done.
    by rewrite scan_chunks_exhausted.
  - specialize (IH (foldl (scan_chunk ord q) st (chunks f))).
    destruct (scan_files ord q _ files) as [st2 log2]. simpl in *. done.
Qed.
End discovery_facts.

(** ** Slices and set iteration *)

Lemma py_slice_to_subseteq {A} (l : list A) n : py_slice_to l n ⊆ l.
Proof.
  unfold py_slice_to. case_match; apply subseteq_take.
Qed.

Lemma py_slice_to_NoDup {A} (l : list A) n : NoDup l → NoDup (py_slice_to l n).
Proof.
  unfold py_slice_to. intros H.
  case_match; eapply sublist_NoDup; eauto using sublist_take.
Qed.

Lemma py_slice_to_length {A} (l : list A) n :
  0 ≤ n ≤ Z.of_nat (length l) → length (py_slice_to l n) = Z.to_nat n.
Proof.
  intros [H0 Hn]. unfold py_slice_to.
  rewrite (proj2 (Z.leb_le 0 n)) by done.
  rewrite length_take. lia.
Qed.

Lemma py_slice_to_all {A} (l : list A) n :
  n = Z.of_nat (length l) → py_slice_to l n = l.
Proof.
  intros ->. unfold py_slice_to.
  rewrite (proj2 (Z.leb_le 0 _)) by lia.
  apply take_ge. lia.
Qed.

Section truncation.
Context (ord : SetOrder).

Lemma iter_ids_length s : length (iter_ids ord s) = size s.
Proof. by rewrite iter_ids_perm. Qed.

Lemma iter_ids_NoDup s : NoDup (iter_ids ord s).
Proof. rewrite iter_ids_perm. apply NoDup_elements. Qed.

Lemma elem_of_iter_ids x s : x ∈ iter_ids ord s ↔ x ∈ s.
Proof. rewrite iter_ids_perm. apply elem_of_elements. Qed.

(** [set(list(s)[:n])] *)
Lemma truncated_subseteq s n :
  list_to_set (C := gset cell) (py_slice_to (iter_ids ord s) n) ⊆ s.
Proof.
  intros x Hx. apply elem_of_list_to_set, py_slice_to_subseteq in Hx.
  by apply elem_of_iter_ids.
Qed.

Lemma truncated_size s n :
  0 ≤ n ≤ Z.of_nat (size s) →
  Z.of_nat (size (list_to_set (C := gset cell) (py_slice_to (iter_ids ord s) n))) = n.
Proof.
  intros Hn.
  rewrite size_list_to_set by (apply py_slice_to_NoDup, iter_ids_NoDup).
  rewrite py_slice_to_length by (by rewrite iter_ids_length).
  lia.
Qed.

Lemma truncated_all s n :
  n = Z.of_nat (size s) →
  list_to_set (C := gset cell) (py_slice_to (iter_ids ord s) n) = s.
Proof.
  intros Hn. rewrite py_slice_to_all by (by rewrite iter_ids_length).
  apply set_eq. intros x. by rewrite elem_of_list_to_set, elem_of_iter_ids.
Qed.
End truncation.

Lemma size_zero_empty (X : gset cell) : size X = 0%nat → X = ∅.
Proof. intros H. apply leibniz_equiv. by apply size_empty_inv. Qed.

(** ** Identifiers of a type in a batch *)

Lemma chunk_ids_app t (c1 c2 : chunk) :
  chunk_ids t (c1 ++ c2) = chunk_ids t c1 ∪ chunk_ids t c2.
Proof.
  unfold chunk_ids. by rewrite filter_app, fmap_app, list_to_set_app_L.
Qed.

Lemma elem_of_chunk_ids t (c : chunk) i :
  i ∈ chunk_ids t c ↔ ∃ r, r ∈ c ∧ type r = Some t ∧ flight_id r = i.
Proof.
  unfold chunk_ids. rewrite elem_of_list_to_set, list_elem_of_fmap.
  split.
  - intros (r & -> & Hr). apply list_elem_of_filter in Hr as [Ht Hr].
    exists r. repeat split; [done|]. by apply bool_decide_eq_true in Ht.
  - intros (r & Hr & Ht & <-). exists r. split; [done|].
    apply list_elem_of_filter. split; [|done]. by apply bool_decide_eq_true.
Qed.

Lemma chunk_ids_no_rows t (c : chunk) :
  filter (λ r, cell_is (type r) t = true) c = [] → chunk_ids t c = ∅.
Proof. unfold chunk_ids. by intros ->. Qed.

Lemma chunk_ids_some_rows t (c : chunk) r rs :
  filter (λ r, cell_is (type r) t = true) c = r :: rs → chunk_ids t c ≠ ∅.
Proof. unfold chunk_ids. intros ->. simpl. set_solver. Qed.

Lemma elem_of_concat {A} (x : A) (ls : list (list A)) :
  x ∈ concat ls ↔ ∃ l, l ∈ ls ∧ x ∈ l.
Proof.
  induction ls as [|l ls IH]; simpl.
  - split; [by intros ?%elem_of_nil|by intros (? & ?%elem_of_nil & _)].
  - rewrite elem_of_app, IH. split.
    + intros [H|(l' & H1 & H2)]; [exists l|exists l']; set_solver.
    + intros (l' & [->|H1]%elem_of_cons & H2); [by left|right; by exists l'].
Qed.

Lemma elem_of_all_rows files (r : row) :
  r ∈ all_rows files ↔ ∃ f c, f ∈ files ∧ c ∈ chunks f ∧ r ∈ c.
Proof.
  unfold all_rows, rows_of. rewrite list_elem_of_bind. split.
  - intros (f & (c & Hc & Hr)%elem_of_concat & Hf). by exists f, c.
  - intros (f & c & Hf & Hc & Hr). exists f. split; [|done].
    apply elem_of_concat. by exists c.
Qed.

Lemma all_rows_concat files : all_rows files = concat (all_chunks files).
Proof.
  unfold all_rows, all_chunks.
  induction files as [|f files IH]; [done|].
  by rewrite !bind_cons, concat_app, IH.
Qed.

(** ** Invariants of pass 1 *)

Section invariants.
Context (ord : SetOrder) (q : Z).

Lemma chunk_step_sound t seen v c :
  sound seen v → sound (seen ∪ chunk_ids t c) (chunk_step ord q t v c).
Proof.
  intros Hs. destruct v as [o b]. unfold chunk_step, type_step. simpl.
  assert (Hd : default ∅ o ⊆ seen).
  { destruct o as [s|]; simpl; [by apply Hs|set_solver]. }
  destruct b; [|intros s Ho; specialize (Hs s Ho); set_solver].
  destruct (filter _ c) as [|r rs]; [intros s Ho; specialize (Hs s Ho); set_solver|].
  case_match; intros s [= <-].
  - etrans; [apply truncated_subseteq|]. set_solver.
  - set_solver.
Qed.

Lemma foldl_chunk_step_sound t cs : ∀ seen v,
  sound seen v →
  sound (seen ∪ chunk_ids t (concat cs)) (foldl (chunk_step ord q t) v cs).
Proof.
  induction cs as [|c cs IH]; intros seen v Hs; simpl.
  - intros s Ho. specialize (Hs s Ho). set_solver.
  - rewrite chunk_ids_app, (assoc_L (∪)). by apply IH, chunk_step_sound.
Qed.

Lemma chunk_step_exact t seen v c :
  0 ≤ q → exact q seen v → exact q (seen ∪ chunk_ids t c) (chunk_step ord q t v c).
Proof.
  intros Hq He. destruct v as [o b]. unfold chunk_step, type_step, exact in *.
  simpl in *. destruct b.
  - assert (Hd : default ∅ o = seen) by (by destruct He as [[-> ->]|[-> _]]).
    destruct (filter _ c) as [|r rs] eqn:E.
    + rewrite (chunk_ids_no_rows _ _ E), (right_id_L ∅ (∪)). done.
    + apply chunk_ids_some_rows in E. rewrite Hd.
      destruct (Z.leb_spec q (Z.of_nat (size (seen ∪ chunk_ids t c)))) as [Hle|Hlt];
        simpl.
      * eexists. split; [done|]. split; [by apply truncated_size|].
        apply truncated_subseteq.
      * right. split; [done|]. split; [set_solver|done].
  - destruct He as (s & -> & Hsz & Hsub). exists s. split; [done|].
    split; [done|set_solver].
Qed.

Lemma foldl_chunk_step_exact t cs : ∀ seen v,
  0 ≤ q → exact q seen v →
  exact q (seen ∪ chunk_ids t (concat cs)) (foldl (chunk_step ord q t) v cs).
Proof.
  induction cs as [|c cs IH]; intros seen v Hq He; simpl.
  - unfold chunk_ids. simpl. by rewrite (right_id_L ∅ (∪)).
  - rewrite chunk_ids_app, (assoc_L (∪)). by apply IH, chunk_step_exact.
Qed.

(** The view of a type after any prefix of the stream. *)
Lemma view_after targets cs t :
  view_of (foldl (scan_chunk ord q) (initial_state targets) cs) t
  = foldl (chunk_step ord q t) (None, bool_decide (t ∈ targets)) cs.
Proof.
  rewrite foldl_scan_chunk_view. f_equal. unfold view_of, initial_state. simpl.
  rewrite lookup_empty. f_equal. apply bool_decide_ext. set_solver.
Qed.

Lemma sound_after targets cs t :
  sound (chunk_ids t (concat cs))
        (view_of (foldl (scan_chunk ord q) (initial_state targets) cs) t).
Proof.
  rewrite view_after, <- (left_id_L ∅ (∪) (chunk_ids t (concat cs))).
  apply foldl_chunk_step_sound. by intros s [=].
Qed.

Lemma exact_after targets cs t :
  0 ≤ q → t ∈ targets →
  exact q (chunk_ids t (concat cs))
        (view_of (foldl (scan_chunk ord q) (initial_state targets) cs) t).
Proof.
  intros Hq Ht.
  rewrite view_after, <- (left_id_L ∅ (∪) (chunk_ids t (concat cs))).
  apply foldl_chunk_step_exact; [done|].
  unfold exact. simpl. rewrite bool_decide_eq_true_2 by done. by left.
Qed.

Lemma untargeted_after targets cs t :
  t ∉ targets →
  view_of (foldl (scan_chunk ord q) (initial_state targets) cs) t = (None, false).
Proof.
  intros Ht. rewrite view_after, bool_decide_eq_false_2 by done.
  apply chunk_step_done.
Qed.

Lemma find_target_flight_ids_found files targets :
  (find_target_flight_ids ord q files targets).1
  = found_flights (foldl (scan_chunk ord q) (initial_state targets) (all_chunks files)).
Proof.
  unfold find_target_flight_ids.
  rewrite <- scan_files_state.
  by destruct (scan_files ord q _ files).
Qed.
End invariants.

(** ** Properties of find_target_flight_ids *)

Section discovery_properties.
Context (ord : SetOrder) (q : Z).

Lemma found_total_view st t :
  found_flights st !!! t = default ∅ (view_of st t).1.
Proof. apply lookup_total_default. Qed.

Lemma available_stream t files :
  chunk_ids t (concat (all_chunks files)) = available t files.
Proof. unfold available. by rewrite all_rows_concat. Qed.

Lemma boundary_split files targets n m :
  (n ≤ m)%nat →
  boundary ord q files targets m
  = foldl (scan_chunk ord q) (boundary ord q files targets n)
          (drop n (take m (all_chunks files))).
Proof.
  intros Hnm. unfold boundary. rewrite <- foldl_app.
  replace (take n (all_chunks files)) with (take n (take m (all_chunks files))).
  - by rewrite take_drop.
  - rewrite take_take. f_equal. lia.
Qed.

Lemma boundary_bounded files targets n t :
  0 ≤ q →
  Z.of_nat (size (found_flights (boundary ord q files targets n) !!! t)) ≤ q.
Proof.
  intros Hq. rewrite found_total_view. unfold boundary.
  destruct (decide (t ∈ targets)) as [Ht|Ht].
  - pose proof (exact_after ord q targets (take n (all_chunks files)) t Hq Ht) as He.
    destruct (view_of _ t) as [o b]. unfold exact in He. cbn [fst snd] in *.
    destruct b.
    + destruct He as [[-> _]|[-> [_ Hlt]]]; cbn [default from_option id]; [|lia].
      rewrite size_empty. lia.
    + destruct He as (s & -> & Hsz & _). cbn [default from_option id]. lia.
  - rewrite untargeted_after by done. cbn [fst default from_option id].
    rewrite size_empty. lia.
Qed.
End discovery_properties.

(** C1 (quota invariant).  For a target type with at least [quota] distinct
    flight identifiers in the input files, the set returned by
    [find_target_flight_ids] for it has exactly [quota] elements; for a
    target type with fewer, the set is the set of all its distinct flight
    identifiers in the files.  The set of a type without an entry is the
    empty set; the quota is a count, so it is not negative. *)
Theorem quota_invariant (ord : SetOrder) (q : Z) (files : list csv_file)
    (targets : list string) (t : string) :
  0 ≤ q → t ∈ targets →
  let discovered := (find_target_flight_ids ord q files targets).1 !!! t in
  (q ≤ Z.of_nat (size (available t files)) → Z.of_nat (size discovered) = q)
  ∧ (Z.of_nat (size (available t files)) < q → discovered = available t files).
Proof.
  intros Hq Ht. cbv zeta.
  rewrite find_target_flight_ids_found, found_total_view.
  pose proof (exact_after ord q targets (all_chunks files) t Hq Ht) as He.
  rewrite available_stream in He.
  destruct (view_of _ t) as [o b]. unfold exact in He. cbn [fst snd] in *.
  destruct b.
  - destruct He as [[-> Hnone]|[-> [_ Hlt]]]; cbn [default from_option id].
    + rewrite Hnone, size_empty. split; [lia|done].
    + split; [lia|done].
  - destruct He as (s & -> & Hsz & Hsub). cbn [default from_option id]. split; [done|].
    intros Hlt. apply subseteq_size in Hsub. lia.
Qed.

Lemma discovered_row ord q files targets t s i :
  (find_target_flight_ids ord q files targets).1 !! t = Some s → i ∈ s →
  ∃ f c r, f ∈ files ∧ c ∈ chunks f ∧ r ∈ c ∧ type r = Some t ∧ flight_id r = i.
Proof.
  rewrite find_target_flight_ids_found. intros Hs Hi.
  pose proof (sound_after ord q targets (all_chunks files) t s) as Hsub.
  unfold view_of in Hsub. simpl in Hsub. specialize (Hsub Hs).
  apply Hsub, elem_of_chunk_ids in Hi as (r & Hr & Hty & Hid).
  rewrite <- all_rows_concat in Hr.
  apply elem_of_all_rows in Hr as (f & c & Hf & Hc & Hr).
  by exists f, c, r.
Qed.

Lemma discovered_target ord q files targets t s :
  (find_target_flight_ids ord q files targets).1 !! t = Some s → t ∈ targets.
Proof.
  rewrite find_target_flight_ids_found. intros Hs.
  destruct (decide (t ∈ targets)) as [Ht|Ht]; [done|].
  pose proof (untargeted_after ord q targets (all_chunks files) t Ht) as Hv.
  unfold view_of in Hv. rewrite Hs in Hv. discriminate.
Qed.

(** C10 (soundness of discovery).  Every key of the map returned by
    [find_target_flight_ids] is one of the caller's target types, and every
    identifier in the set of a type is the [flight_id] of a row of that type
    in a chunk some input file delivered. *)
Theorem discovery_sound (ord : SetOrder) (q : Z) (files : list csv_file)
    (targets : list string) (t : string) (s : gset cell) :
  (find_target_flight_ids ord q files targets).1 !! t = Some s →
  t ∈ targets
  ∧ ∀ i, i ∈ s →
      ∃ f c r, f ∈ files ∧ c ∈ chunks f ∧ r ∈ c
               ∧ type r = Some t ∧ flight_id r = i.
Proof.
  intros Hs. split.
  - by eapply discovered_target.
  - intros i Hi. by eapply discovered_row.
Qed.

(** C7 (quota bound during the scan).  At every chunk boundary of pass 1
    the set stored for a type has at most [quota] elements, and a set that
    has reached [quota] elements is the same at every later boundary.  The
    last boundary is the state [find_target_flight_ids] returns. *)
Theorem quota_never_exceeded (ord : SetOrder) (q : Z) (files : list csv_file)
    (targets : list string) (n m : nat) (t : string) :
  0 ≤ q → (n ≤ m)%nat →
  let at_n := found_flights (boundary ord q files targets n) !!! t in
  let at_m := found_flights (boundary ord q files targets m) !!! t in
  Z.of_nat (size at_n) ≤ q
  ∧ (Z.of_nat (size at_n) = q → at_m = at_n)
  ∧ (find_target_flight_ids ord q files targets).1
    = found_flights (boundary ord q files targets (length (all_chunks files))).
Proof.
  intros Hq Hnm. cbv zeta. split; [by apply boundary_bounded|]. split.
  - intros Hfull.
    pose proof (boundary_bounded ord q files targets m t Hq) as Hm.
    revert Hfull Hm. rewrite (boundary_split ord q files targets n m Hnm).
    rewrite !found_total_view, foldl_scan_chunk_view.
    unfold boundary at 1 2 3 4.
    destruct (decide (t ∈ targets)) as [Ht|Ht].
    + pose proof (exact_after ord q targets (take n (all_chunks files)) t Hq Ht) as He.
      destruct (view_of _ t) as [o b]. unfold exact in He. cbn [fst snd] in *.
      destruct b.
      * destruct He as [[-> _]|[-> [_ Hlt]]]; cbn [default from_option id]; [|lia].
        rewrite size_empty. intros <- Hm.
        apply size_zero_empty. lia.
      * by rewrite chunk_step_done.
    + rewrite untargeted_after by done. by rewrite chunk_step_done.
  - rewrite find_target_flight_ids_found. unfold boundary. by rewrite take_ge.
Qed.

(** ** The order of the sort *)

#[global] Instance string_compare_spec : CompareSpec String.compare.
Proof.
  split.
  - apply String_as_OT.cmp_eq.
  - apply String_as_OT.cmp_antisym.
  - intros a b c H1%String_as_OT.cmp_lt H2%String_as_OT.cmp_lt.
    apply String_as_OT.cmp_lt. by eapply String_as_OT.lt_trans.
Qed.

#[global] Instance cell_compare_spec : CompareSpec cell_compare.
Proof.
  split.
  - intros [x|] [y|]; simpl; try (split; done).
    rewrite (cmp_eq (cmp := String.compare)). split; congruence.
  - intros [x|] [y|]; simpl; try done. apply cmp_antisym.
  - intros [x|] [y|] [z|]; simpl; try done. apply cmp_lt_trans.
Qed.

#[global] Instance key_compare_spec : CompareSpec key_compare.
Proof.
  split.
  - intros [a1 a2] [b1 b2]. unfold key_compare. simpl.
    destruct (cell_compare a1 b1) eqn:E1.
    + apply cmp_eq in E1 as ->. rewrite (cmp_eq (cmp := cell_compare)).
      split; congruence.
    + split; [done|]. intros [= -> ->].
      rewrite (proj2 (cmp_eq (cmp := cell_compare) b1 b1) eq_refl) in E1. done.
    + split; [done|]. intros [= -> ->].
      rewrite (proj2 (cmp_eq (cmp := cell_compare) b1 b1) eq_refl) in E1. done.
  - intros [a1 a2] [b1 b2]. unfold key_compare. simpl.
    rewrite (cmp_antisym (cmp := cell_compare) a1 b1).
    destruct (cell_compare b1 a1); simpl; try done. apply cmp_antisym.
  - intros [a1 a2] [b1 b2] [c1 c2]. unfold key_compare. simpl.
    destruct (cell_compare a1 b1) eqn:E1; try done;
      destruct (cell_compare b1 c1) eqn:E2; try done.
    + apply cmp_eq in E1 as ->. apply cmp_eq in E2 as ->.
      rewrite (proj2 (cmp_eq (cmp := cell_compare) c1 c1) eq_refl).
      apply cmp_lt_trans.
    + apply cmp_eq in E1 as ->. by rewrite E2.
    + apply cmp_eq in E2 as ->. by rewrite E1.
    + by rewrite (cmp_lt_trans (cmp := cell_compare) _ _ _ E1 E2).
Qed.

Lemma row_compare_key r1 r2 : row_compare r1 r2 = key_compare (sort_key r1) (sort_key r2).
Proof. done. Qed.

Lemma row_compare_eq r1 r2 : row_compare r1 r2 = Eq ↔ sort_key r1 = sort_key r2.
Proof. rewrite row_compare_key. apply cmp_eq. Qed.

Lemma row_le_total r1 r2 : ¬ row_le r1 r2 → row_le r2 r1.
Proof.
  unfold row_le, row_leb. rewrite !row_compare_key.
  rewrite (cmp_antisym (cmp := key_compare) (sort_key r2)).
  by destruct (key_compare (sort_key r1) (sort_key r2)).
Qed.

Lemma row_le_same_key r1 r2 : sort_key r1 = sort_key r2 → row_le r1 r2.
Proof.
  intros H%row_compare_eq. unfold row_le, row_leb. by rewrite H.
Qed.

#[global] Instance row_le_trans : Transitive row_le.
Proof.
  intros r1 r2 r3. unfold row_le, row_leb. rewrite !row_compare_key.
  destruct (key_compare (sort_key r1) (sort_key r2)) eqn:E1; try done;
    destruct (key_compare (sort_key r2) (sort_key r3)) eqn:E2; try done; intros _ _.
  - apply cmp_eq in E1. apply cmp_eq in E2. rewrite E1, E2.
    by rewrite (proj2 (cmp_eq (cmp := key_compare) _ _) eq_refl).
  - apply cmp_eq in E1. by rewrite E1, E2.
  - apply cmp_eq in E2. by rewrite <- E2, E1.
  - by rewrite (cmp_lt_trans (cmp := key_compare) _ _ _ E1 E2).
Qed.

(** ** sort_values *)

Lemma insert_row_perm r l : insert_row r l ≡ₚ r :: l.
Proof.
  induction l as [|y l IH]; simpl; [done|].
  case_match; [done|]. rewrite IH. apply Permutation_swap.
Qed.

Lemma sort_values_perm l : sort_values l ≡ₚ l.
Proof.
  induction l as [|r l IH]; simpl; [done|].
  unfold sort_values in *. simpl. by rewrite insert_row_perm, IH.
Qed.

Lemma insert_row_sorted r l :
  StronglySorted row_le l → StronglySorted row_le (insert_row r l).
Proof.
  induction 1 as [|y l Hs IH Hall]; simpl.
  - by repeat constructor.
  - destruct (row_leb r y) eqn:E.
    + constructor; [by constructor|].
      constructor; [done|].
      eapply Forall_impl; [exact Hall|]. intros z Hz. by trans y.
    + constructor; [done|].
      rewrite insert_row_perm. constructor; [|done].
      apply row_le_total. unfold row_le. by rewrite E.
Qed.

Lemma sort_values_sorted l : StronglySorted row_le (sort_values l).
Proof.
  induction l as [|r l IH]; [constructor|].
  by apply insert_row_sorted.
Qed.

(** A row goes in front of the rows that have its key. *)
Lemma insert_row_stable k r l :
  filter (λ x, sort_key x = k) (insert_row r l)
  = filter (λ x, sort_key x = k) (r :: l).
Proof.
  induction l as [|y l IH]; simpl; [done|].
  destruct (row_leb r y) eqn:E; [done|].
  rewrite filter_cons, IH, !filter_cons.
  destruct (decide (sort_key y = k)) as [Hy|Hy];
    destruct (decide (sort_key r = k)) as [Hr|Hr]; try done.
  exfalso. assert (row_le r y) as Hle by (apply row_le_same_key; congruence).
  unfold row_le in Hle. congruence.
Qed.

Lemma sort_values_stable k l :
  filter (λ x, sort_key x = k) (sort_values l) = filter (λ x, sort_key x = k) l.
Proof.
  induction l as [|r l IH]; [done|].
  unfold sort_values in *. simpl.
  by rewrite insert_row_stable, !filter_cons, IH.
Qed.

(** ** Pass 2 *)

Section collection_facts.
Context (ids : gset cell).

Lemma concat_collect_chunk acc c :
  concat (collect_chunk ids acc c)
  = concat acc ++ filter (λ r, isin_ids (flight_id r) ids = true) c.
Proof.
  unfold collect_chunk. destruct (filter _ c) as [|r rs].
  - by rewrite app_nil_r.
  - rewrite concat_app. simpl. by rewrite app_nil_r.
Qed.

Lemma concat_collect_chunks cs : ∀ acc,
  concat (foldl (collect_chunk ids) acc cs)
  = concat acc ++ filter (λ r, isin_ids (flight_id r) ids = true) (concat cs).
Proof.
  induction cs as [|c cs IH]; intros acc; simpl.
  - by rewrite app_nil_r.
  - by rewrite IH, concat_collect_chunk, filter_app, (assoc_L (++)).
Qed.

Lemma concat_collect_files files : ∀ acc,
  concat (collect_files ids acc files).1
  = concat acc ++ filter (λ r, isin_ids (flight_id r) ids = true) (all_rows files).
Proof.
  induction files as [|f files IH]; intros acc.
  - simpl. by rewrite app_nil_r.
  - change (all_rows (f :: files)) with (rows_of f ++ all_rows files).
    specialize (IH (foldl (collect_chunk ids) acc (chunks f))).
    cbn [collect_files collect_file].
    destruct (collect_files ids _ files) as [acc2 log2]. cbn [fst] in *.
    by rewrite IH, concat_collect_chunks, filter_app, (assoc_L (++)).
Qed.

(** Pass 2 hands every file to the reader, reports the ones that fail and
    goes on. *)
Lemma collect_files_log files : ∀ acc,
  (collect_files ids acc files).2 = files ≫= file_log.
Proof.
  induction files as [|f files IH]; intros acc; [done|].
  specialize (IH (foldl (collect_chunk ids) acc (chunks f))).
  cbn [collect_files collect_file].
  destruct (collect_files ids _ files) as [acc2 log2]. cbn [snd] in *.
  by rewrite IH, bind_cons.
Qed.
End collection_facts.

Lemma filter_no_ids (l : list row) :
  filter (λ r, isin_ids (flight_id r) ∅ = true) l = [].
Proof.
  induction l as [|r l IH]; [done|].
  rewrite filter_cons, IH. case_decide as H; [|done].
  apply bool_decide_eq_true in H. set_solver.
Qed.

Lemma concat_collected_batches files m :
  concat (collected_batches files m)
  = filter (λ r, isin_ids (flight_id r) (all_target_ids m) = true) (all_rows files).
Proof.
  unfold collected_batches. case_decide as He.
  - by rewrite He, filter_no_ids.
  - by rewrite concat_collect_files.
Qed.

(** The frame pass 2 returns is the sorted concatenation of its batches. *)
Lemma collect_flight_data_result files m :
  (collect_flight_data files m).1 = sort_values (concat (collected_batches files m)).
Proof.
  unfold collect_flight_data, collected_batches. case_decide as He; [done|].
  destruct (collect_files _ [] files) as [[|b bs] log]; done.
Qed.

Lemma elem_of_all_target_ids (m : gmap string (gset cell)) i :
  i ∈ all_target_ids m ↔ ∃ t s, m !! t = Some s ∧ i ∈ s.
Proof.
  unfold all_target_ids. rewrite elem_of_union_list. split.
  - intros (s & Hs & Hi). apply list_elem_of_fmap in Hs as ([t s'] & -> & Hts).
    apply elem_of_map_to_list in Hts. by exists t, s'.
  - intros (t & s & Hts & Hi). exists s. split; [|done].
    apply list_elem_of_fmap. exists (t, s). split; [done|].
    by apply elem_of_map_to_list.
Qed.

Lemma elem_of_collect_result files m r :
  r ∈ (collect_flight_data files m).1
  ↔ r ∈ all_rows files ∧ flight_id r ∈ all_target_ids m.
Proof.
  rewrite collect_flight_data_result, sort_values_perm, concat_collected_batches.
  rewrite list_elem_of_filter. unfold isin_ids. rewrite bool_decide_eq_true. tauto.
Qed.

(** C2 (containment).  Every row of the result of [collect_flight_data] has
    a flight identifier in some set of the discovered map; every identifier
    of the discovered map is the flight identifier of a row of the result,
    the files being the same in both passes; and every row of every input
    file whose flight identifier is in some set of the map is in the
    result. *)
Theorem containment (ord : SetOrder) (q : Z) (files : list csv_file)
    (targets : list string) :
  let discovered := (find_target_flight_ids ord q files targets).1 in
  let result := (collect_flight_data files discovered).1 in
  (∀ r, r ∈ result → ∃ t s, discovered !! t = Some s ∧ flight_id r ∈ s)
  ∧ (∀ t s i, discovered !! t = Some s → i ∈ s →
       ∃ r, r ∈ result ∧ flight_id r = i)
  ∧ (∀ f c r t s, f ∈ files → c ∈ chunks f → r ∈ c →
       discovered !! t = Some s → flight_id r ∈ s → r ∈ result).
Proof.
  cbv zeta. split; [|split].
  - intros r [_ Hr]%elem_of_collect_result. by apply elem_of_all_target_ids.
  - intros t s i Hs Hi.
    destruct (discovered_row ord q files targets t s i Hs Hi)
      as (f & c & r & Hf & Hc & Hr & _ & Hid).
    exists r. split; [|done]. apply elem_of_collect_result. split.
    + apply elem_of_all_rows. by exists f, c.
    + apply elem_of_all_target_ids. exists t, s. by rewrite Hid.
  - intros f c r t s Hf Hc Hr Hs Hi. apply elem_of_collect_result. split.
    + apply elem_of_all_rows. by exists f, c.
    + apply elem_of_all_target_ids. by exists t, s.
Qed.

(** C3 (sort order).  The result of [collect_flight_data] is non-decreasing
    in the lexicographic order of (type, flight_id): each row is at most
    every row after it.  It is a rearrangement of the concatenation of the
    batches of pass 2, and the sort is stable: the rows of one key are in
    the result in the order they have in that concatenation. *)
Theorem result_sorted_stable (files : list csv_file) (m : gmap string (gset cell)) :
  let result := (collect_flight_data files m).1 in
  let batches := concat (collected_batches files m) in
  StronglySorted row_le result
  ∧ result ≡ₚ batches
  ∧ ∀ k, filter (λ r, sort_key r = k) result = filter (λ r, sort_key r = k) batches.
Proof.
  cbv zeta. rewrite collect_flight_data_result. split; [|split].
  - apply sort_values_sorted.
  - apply sort_values_perm.
  - intros k. apply sort_values_stable.
Qed.

(** ** The logs of the two passes *)

Lemma opened_app l1 l2 : opened (l1 ++ l2) = opened l1 ++ opened l2.
Proof. apply omap_app. Qed.

Lemma opened_file_log f : opened (file_log f) = [path f].
Proof. unfold file_log. by destruct (raises f). Qed.

Lemma opened_files_log files : opened (files ≫= file_log) = path <$> files.
Proof.
  induction files as [|f files IH]; [done|].
  by rewrite bind_cons, opened_app, opened_file_log, IH.
Qed.

Section log_facts.
Context (ord : SetOrder) (q : Z).

Lemma find_target_flight_ids_unfold files targets :
  find_target_flight_ids ord q files targets
  = (found_flights (scan_files ord q (initial_state targets) files).1,
     (scan_files ord q (initial_state targets) files).2).
Proof. unfold find_target_flight_ids. by destruct (scan_files _ _ _ files). Qed.

(** After the [break] nothing is read. *)
Lemma scan_files_exhausted st files :
  types_needed st = ∅ → scan_files ord q st files = (st, []).
Proof. intros He. destruct files; simpl; [done|]. by case_decide. Qed.

Lemma scan_files_app pre : ∀ st post,
  scan_files ord q st (pre ++ post)
  = let '(st1, l1) := scan_files ord q st pre in
    let '(st2, l2) := scan_files ord q st1 post in
    (st2, l1 ++ l2).
Proof.
  induction pre as [|f pre IH]; intros st post.
  - simpl. by destruct (scan_files ord q st post).
  - cbn [app scan_files scan_file]. case_decide as He.
    + by rewrite scan_files_exhausted.
    + rewrite IH.
      destruct (scan_files ord q _ pre) as [st1 l1].
      destruct (scan_files ord q st1 post) as [st2 l2].
      by rewrite (assoc_L (++)).
Qed.

Lemma scan_files_opened_prefix files : ∀ st,
  opened (scan_files ord q st files).2 `prefix_of` path <$> files.
Proof.
  induction files as [|f files IH]; intros st; [done|].
  cbn [scan_files scan_file]. case_decide as He; [apply prefix_nil|].
  specialize (IH (foldl (scan_chunk ord q) st (chunks f))).
  destruct (scan_files ord q _ files) as [st2 l2]. cbn [snd] in *.
  rewrite opened_app, opened_file_log, fmap_cons. by apply prefix_cons.
Qed.

(** With a positive quota the types still needed are those whose set is
    below the quota. *)
Lemma all_reached_exhausted targets cs :
  0 < q →
  let st := foldl (scan_chunk ord q) (initial_state targets) cs in
  (∀ t, t ∈ targets → Z.of_nat (size (found_flights st !!! t)) = q) →
  types_needed st = ∅.
Proof.
  intros Hq st Hall. apply set_eq. intros t. split; [|set_solver].
  intros Hin. exfalso.
  assert (Hb : (view_of st t).2 = true) by (by apply bool_decide_eq_true).
  destruct (decide (t ∈ targets)) as [Ht|Ht].
  - specialize (Hall t Ht). rewrite found_total_view in Hall.
    pose proof (exact_after ord q targets cs t ltac:(lia) Ht) as He.
    fold st in He. destruct (view_of st t) as [o b]. cbn [fst snd] in *.
    subst b. unfold exact in He. cbn [fst snd] in He.
    destruct He as [[-> _]|[-> [_ Hlt]]]; cbn [default from_option id] in Hall.
    + rewrite size_empty in Hall. lia.
    + lia.
  - unfold st in Hb. by rewrite untargeted_after in Hb.
Qed.
End log_facts.

Lemma collect_flight_data_log files m :
  all_target_ids m ≠ ∅ → (collect_flight_data files m).2 = files ≫= file_log.
Proof.
  intros Hne. unfold collect_flight_data. case_decide; [done|].
  rewrite <- (collect_files_log (all_target_ids m) files []).
  by destruct (collect_files _ [] files) as [[|b bs] log].
Qed.

(** C4 (early exit).  When every target type has reached its quota after
    the first [k] files ([pre]), pass 1 hands no later file ([post]) to the
    reader: the files it opens are the ones it opens on [pre] alone, an
    initial part of [pre].  Pass 2, given the discovered map, opens every
    file of the list.  The quota is positive and there is a target type. *)
Theorem early_exit (ord : SetOrder) (q : Z) (pre post : list csv_file)
    (targets : list string) :
  0 < q → targets ≠ [] →
  (∀ t, t ∈ targets →
     Z.of_nat (size ((find_target_flight_ids ord q pre targets).1 !!! t)) = q) →
  let files := pre ++ post in
  let discovery := find_target_flight_ids ord q files targets in
  opened discovery.2 = opened (find_target_flight_ids ord q pre targets).2
  ∧ opened discovery.2 `prefix_of` path <$> pre
  ∧ opened (collect_flight_data files discovery.1).2 = path <$> files.
Proof.
  intros Hq Hne Hall. cbv zeta.
  rewrite !find_target_flight_ids_unfold in *. cbn [fst snd] in *.
  assert (He : types_needed (scan_files ord q (initial_state targets) pre).1 = ∅).
  { rewrite scan_files_state in *. by apply all_reached_exhausted. }
  rewrite scan_files_app.
  destruct (scan_files ord q (initial_state targets) pre) as [st1 l1] eqn:E1.
  cbn [fst snd] in *.
  rewrite (scan_files_exhausted ord q st1 post He), app_nil_r. cbn [fst snd].
  split; [done|]. split.
  - pose proof (scan_files_opened_prefix ord q pre (initial_state targets)) as Hp.
    by rewrite E1 in Hp.
  - rewrite collect_flight_data_log; [apply opened_files_log|].
    destruct targets as [|t ts]; [done|].
    specialize (Hall t ltac:(set_solver)).
    rewrite lookup_total_default in Hall.
    destruct (found_flights st1 !! t) as [s|] eqn:Hs; cbn [default from_option id] in Hall.
    + destruct (set_choose_or_empty s) as [[i Hi]|Hemp].
      * intros Hnone. assert (i ∈ all_target_ids (found_flights st1)) as Hin.
        { apply elem_of_all_target_ids. by exists t, s. }
        rewrite Hnone in Hin. set_solver.
      * apply leibniz_equiv in Hemp. subst s. rewrite size_empty in Hall. lia.
    + rewrite size_empty in Hall. lia.
Qed.

(** ** Failing files *)

Lemma all_chunks_app l1 l2 : all_chunks (l1 ++ l2) = all_chunks l1 ++ all_chunks l2.
Proof. apply bind_app. Qed.

Lemma all_chunks_without_failure pre f post :
  all_chunks (pre ++ without_failure f :: post) = all_chunks (pre ++ f :: post).
Proof. by rewrite !all_chunks_app. Qed.

Lemma all_chunks_unopened pre f post :
  chunks f = [] → all_chunks (pre ++ f :: post) = all_chunks (pre ++ post).
Proof.
  intros Hf. rewrite !all_chunks_app. f_equal.
  unfold all_chunks. by rewrite bind_cons, Hf.
Qed.

(** Pass 2 returns a function of the rows the readers deliver. *)
Lemma collect_flight_data_rows files1 files2 m :
  all_chunks files1 = all_chunks files2 →
  (collect_flight_data files1 m).1 = (collect_flight_data files2 m).1.
Proof.
  intros H. by rewrite !collect_flight_data_result, !concat_collected_batches,
    !all_rows_concat, H.
Qed.

(** Pass 1 returns a function of the chunks the readers deliver. *)
Lemma find_target_flight_ids_chunks ord q files1 files2 targets :
  all_chunks files1 = all_chunks files2 →
  (find_target_flight_ids ord q files1 targets).1
  = (find_target_flight_ids ord q files2 targets).1.
Proof. intros H. by rewrite !find_target_flight_ids_found, H. Qed.

(** C6 as stated is false: the reader of [interrupted_file] fails after its
    first chunk, and the identifier and the rows of that chunk are kept by
    pass 1 and by pass 2. *)
Lemma failed_file_data_retained :
  let discovered := (find_target_flight_ids forward 1 [interrupted_file] ["A"%string]).1 in
  raises interrupted_file ≠ None
  ∧ discovered = {[ "A"%string := {[ Some "FL0001"%string ]} ]}
  ∧ collected_batches [interrupted_file] discovered = [flight "FL0001" "A"]
  ∧ ¬ (discovered = ∅ ∧ collected_batches [interrupted_file] discovered = []).
Proof.
  cbv zeta. split; [done|]. split; [by vm_compute|]. split; [by vm_compute|].
  intros [_ H]. vm_compute in H. discriminate.
Qed.

(** C6 (failure semantics), amended.  A file whose reader raises, when it is
    opened or in the middle of its stream, is reported and the next file is
    read; both passes return a value.  What the chunks delivered before the
    exception contributed is kept, and only that: both passes return what
    they return when the stream of the file simply ends there, and a file
    that delivers no chunk leaves no trace in the results. *)
Theorem failed_file_abandoned (ord : SetOrder) (q : Z) (pre post : list csv_file)
    (f : csv_file) (e : string) (targets : list string) (m : gmap string (gset cell)) :
  raises f = Some e →
  let files := pre ++ f :: post in
  let as_delivered := pre ++ without_failure f :: post in
  let before := (scan_files ord q (initial_state targets) pre).1 in
  (find_target_flight_ids ord q files targets).1
    = (find_target_flight_ids ord q as_delivered targets).1
  ∧ (collect_flight_data files m).1 = (collect_flight_data as_delivered m).1
  ∧ (chunks f = [] →
       (find_target_flight_ids ord q files targets).1
         = (find_target_flight_ids ord q (pre ++ post) targets).1
       ∧ (collect_flight_data files m).1 = (collect_flight_data (pre ++ post) m).1)
  ∧ (types_needed before ≠ ∅ →
       (find_target_flight_ids ord q files targets).2
       = (find_target_flight_ids ord q pre targets).2
         ++ [Reading (path f); ErrorReading (path f) e]
         ++ (scan_files ord q (foldl (scan_chunk ord q) before (chunks f)) post).2)
  ∧ (all_target_ids m ≠ ∅ →
       (collect_flight_data files m).2
       = (collect_flight_data pre m).2
         ++ [Reading (path f); ErrorReading (path f) e]
         ++ (collect_flight_data post m).2).
Proof.
  intros He. cbv zeta. repeat split.
  - apply find_target_flight_ids_chunks. by rewrite all_chunks_without_failure.
  - apply collect_flight_data_rows. by rewrite all_chunks_without_failure.
  - apply find_target_flight_ids_chunks. by apply all_chunks_unopened.
  - apply collect_flight_data_rows. by apply all_chunks_unopened.
  - intros Hne. rewrite !find_target_flight_ids_unfold. cbn [snd].
    rewrite scan_files_app.
    destruct (scan_files ord q (initial_state targets) pre) as [st1 l1].
    cbn [fst snd scan_files scan_file] in *.
    rewrite decide_False by done.
    destruct (scan_files ord q _ post) as [st2 l2]. cbn [snd].
    unfold file_log. by rewrite He.
  - intros Hne. rewrite !collect_flight_data_log by done.
    rewrite bind_app, bind_cons. unfold file_log at 2. by rewrite He.
Qed.

(** ** Dependence on the iteration order *)

Section order_independence.
Context (ord1 ord2 : SetOrder) (q : Z) (avail : string → gset cell).

Lemma chunk_step_order t v c :
  sound (avail t) v → chunk_ids t c ⊆ avail t → Z.of_nat (size (avail t)) ≤ q →
  chunk_step ord1 q t v c = chunk_step ord2 q t v c.
Proof.
  intros Hs Hc Hq. destruct v as [o b]. unfold chunk_step, type_step.
  cbn [fst snd]. destruct b; [|done].
  destruct (filter _ c) as [|r rs]; [done|].
  assert (Hsub : default ∅ o ∪ chunk_ids t c ⊆ avail t).
  { destruct o as [s|]; cbn [default from_option id]; [|set_solver].
    specialize (Hs s eq_refl). set_solver. }
  destruct (Z.leb_spec q (Z.of_nat (size (default ∅ o ∪ chunk_ids t c)))) as [Hle|Hlt];
    [|done].
  apply subseteq_size in Hsub.
  by rewrite !truncated_all by lia.
Qed.

Lemma scan_chunk_order st c :
  within avail q st → (∀ t, chunk_ids t c ⊆ avail t) →
  scan_chunk ord1 q st c = scan_chunk ord2 q st c.
Proof.
  intros Hw Hc. apply scan_state_ext. intros t. rewrite !scan_chunk_view.
  destruct (decide (t ∈ types_needed st)) as [Ht|Ht].
  - destruct (Hw t Ht) as [Hs Hq]. by apply chunk_step_order.
  - unfold chunk_step, view_of. cbn [fst snd].
    by rewrite bool_decide_eq_false_2 by done.
Qed.

Lemma scan_chunk_needed st c t :
  t ∈ types_needed (scan_chunk ord1 q st c) → t ∈ types_needed st.
Proof.
  intros Ht. apply (bool_decide_eq_true_2 (t ∈ _)) in Ht.
  change (bool_decide _) with (view_of (scan_chunk ord1 q st c) t).2 in Ht.
  rewrite scan_chunk_view in Ht. unfold chunk_step, view_of in Ht.
  cbn [fst snd] in Ht.
  destruct (decide (t ∈ types_needed st)) as [|Hn]; [done|].
  rewrite (bool_decide_eq_false_2 _ Hn) in Ht. by cbn [snd] in Ht.
Qed.

Lemma scan_chunk_within st c :
  within avail q st → (∀ t, chunk_ids t c ⊆ avail t) →
  within avail q (scan_chunk ord1 q st c).
Proof.
  intros Hw Hc t Ht. apply scan_chunk_needed in Ht.
  destruct (Hw t Ht) as [Hs Hq]. split; [|done].
  rewrite scan_chunk_view.
  replace (avail t) with (avail t ∪ chunk_ids t c) by (specialize (Hc t); set_solver).
  by apply chunk_step_sound.
Qed.

Lemma scan_chunks_order cs : ∀ st,
  within avail q st → (∀ c t, c ∈ cs → chunk_ids t c ⊆ avail t) →
  foldl (scan_chunk ord1 q) st cs = foldl (scan_chunk ord2 q) st cs
  ∧ within avail q (foldl (scan_chunk ord1 q) st cs).
Proof.
  induction cs as [|c cs IH]; intros st Hw Hc; simpl; [done|].
  rewrite <- (scan_chunk_order st c) by (try done; intros t; apply Hc; set_solver).
  apply IH; [|intros c' t Hin; apply Hc; set_solver].
  apply scan_chunk_within; [done|]. intros t. apply Hc. set_solver.
Qed.

Lemma scan_files_order files : ∀ st,
  within avail q st →
  (∀ f c t, f ∈ files → c ∈ chunks f → chunk_ids t c ⊆ avail t) →
  scan_files ord1 q st files = scan_files ord2 q st files.
Proof.
  induction files as [|f files IH]; intros st Hw Hc; [done|].
  cbn [scan_files scan_file]. case_decide as He; [done|].
  destruct (scan_chunks_order (chunks f) st Hw) as [Heq Hw'].
  { intros c t Hin. apply (Hc f); [set_solver|done]. }
  rewrite <- Heq, IH; [done|exact Hw'|].
  intros f' c t Hf'. apply Hc. set_solver.
Qed.
End order_independence.

Lemma chunk_ids_available t f c files :
  f ∈ files → c ∈ chunks f → chunk_ids t c ⊆ available t files.
Proof.
  intros Hf Hc i (r & Hr & Hty & Hid)%elem_of_chunk_ids.
  apply elem_of_chunk_ids. exists r. split; [|done].
  apply elem_of_all_rows. by exists f, c.
Qed.

(** C5 as stated is false: with two flights of the type in the chunk that
    fills a quota of one, the flight that is kept, and with it the file that
    is written, depends on the order in which the set is iterated. *)
Lemma output_depends_on_set_order :
  written (process_flight_csvs forward [two_flights_file] ["A"%string] 1 "filtered_flights.csv")
  ≠ written (process_flight_csvs backward [two_flights_file] ["A"%string] 1 "filtered_flights.csv").
Proof. vm_compute. discriminate. Qed.

(** C5 (idempotence), amended.  When no target type has more than [quota]
    distinct flight identifiers in the input files, two runs on the same
    files with the same configuration return the same frame, write the same
    output and print the same log, whatever the order in which each run
    iterates its sets. *)
Theorem deterministic_within_quota (ord1 ord2 : SetOrder) (files : list csv_file)
    (targets : list string) (q : Z) (output_file : string) :
  (∀ t, t ∈ targets → Z.of_nat (size (available t files)) ≤ q) →
  process_flight_csvs ord1 files targets q output_file
  = process_flight_csvs ord2 files targets q output_file.
Proof.
  intros Hq.
  assert (Heq : find_target_flight_ids ord1 q files targets
                = find_target_flight_ids ord2 q files targets).
  { rewrite !find_target_flight_ids_unfold.
    rewrite (scan_files_order ord1 ord2 q (λ t, available t files)); [done| |].
    - intros t Ht. split; [by intros s [=]|]. apply Hq.
      unfold initial_state in Ht. set_solver.
    - intros f c t. apply chunk_ids_available. }
  unfold process_flight_csvs. by rewrite Heq.
Qed.

(** ** Null fields *)

Lemma filter_mask_typed (s : gset string) (c : chunk) :
  filter (λ r, isin_types (type r) s = true) (filter (λ r, type r ≠ None) c)
  = filter (λ r, isin_types (type r) s = true) c.
Proof.
  induction c as [|r c IH]; [done|].
  rewrite (filter_cons (λ r, type r ≠ None)), (filter_cons (λ r, isin_types _ _ = true)).
  destruct (decide (type r ≠ None)) as [Hty|Hty].
  - rewrite filter_cons, IH. done.
  - rewrite IH. destruct (type r) as [ty|] eqn:E; [by destruct Hty|].
    by rewrite decide_False.
Qed.

(** Pass 1 scans a chunk as if it had no row with a null [type]. *)
Lemma scan_chunk_untyped ord q st c :
  scan_chunk ord q st c = scan_chunk ord q st (filter (λ r, type r ≠ None) c).
Proof. unfold scan_chunk. by rewrite filter_mask_typed. Qed.

(** ** The scenario of three daily files *)

Lemma all_target_ids_singleton (t : string) (s : gset cell) :
  all_target_ids {[ t := s ]} = s.
Proof.
  apply set_eq. intros i. rewrite elem_of_all_target_ids. split.
  - intros (t' & s' & Hl & Hi). apply lookup_singleton_Some in Hl as [_ <-]. done.
  - intros Hi. exists t, s. by rewrite lookup_singleton_eq.
Qed.

Lemma filter_Forall_iff {A} (P Q : A → Prop) `{∀ x, Decision (P x)}
    `{∀ x, Decision (Q x)} (l : list A) :
  Forall (λ x, P x ↔ Q x) l → filter P l = filter Q l.
Proof.
  induction 1 as [|x l Hx _ IH]; [done|].
  rewrite !filter_cons, IH.
  destruct (decide (P x)), (decide (Q x)); tauto.
Qed.

Lemma StronglySorted_refine {A} (R R' : relation A) (P : A → Prop) (l : list A) :
  (∀ x y, P x → P y → R x y → R' x y) →
  Forall P l → StronglySorted R l → StronglySorted R' l.
Proof.
  intros HR HP Hs. induction Hs as [|x l Hs IH Hall]; [constructor|].
  apply Forall_cons in HP as [Hx HP]. constructor; [by apply IH|].
  rewrite Forall_forall in *. intros y Hy. apply HR; auto.
Qed.

Lemma row_le_same_type r1 r2 t :
  type r1 = Some t → type r2 = Some t → row_le r1 r2 → flight_id_le r1 r2.
Proof.
  unfold row_le, row_leb, row_compare, flight_id_le. intros -> ->.
  cbn [cell_compare].
  rewrite (proj2 (cmp_eq (cmp := String.compare) t t) eq_refl).
  by destruct (cell_compare (flight_id r1) (flight_id r2)).
Qed.

Section scenario_facts.
Context (ord : SetOrder) (files : list csv_file).
Hypothesis Hsc : scenario files.

Lemma scenario_types r :
  r ∈ all_rows files → type r = Some "A"%string ∨ type r = Some "B"%string.
Proof.
  destruct Hsc as [_ Hall]. unfold all_rows. intros (f & Hr & Hf)%list_elem_of_bind.
  rewrite Forall_forall in Hall. destruct (Hall f Hf) as (_ & _ & Hty).
  rewrite Forall_forall in Hty. by apply Hty.
Qed.

Lemma scenario_available : (5 ≤ size (available "A" files))%nat.
Proof.
  destruct Hsc as [Hlen Hall]. destruct files as [|f fs]; [done|].
  apply Forall_cons in Hall as [(Ha & _) _]. rewrite <- Ha.
  apply subseteq_size. unfold available.
  change (all_rows (f :: fs)) with (rows_of f ++ all_rows fs).
  rewrite chunk_ids_app. set_solver.
Qed.

Lemma scenario_discovered :
  ∃ s, (find_target_flight_ids ord 2 files ["A"%string]).1 = {[ "A"%string := s ]}
       ∧ size s = 2%nat.
Proof.
  pose proof scenario_available as Hav.
  pose proof (exact_after ord 2 ["A"%string] (all_chunks files) "A"
                ltac:(lia) ltac:(set_solver)) as He.
  rewrite available_stream in He. unfold view_of, exact in He. cbn [fst snd] in He.
  case_bool_decide as Hn.
  { destruct He as [[_ Hemp]|(_ & _ & Hlt)]; [|lia].
    rewrite Hemp, size_empty in Hav. lia. }
  destruct He as (s & Hs & Hsz & _). exists s. split; [|lia].
  rewrite find_target_flight_ids_found. apply map_eq. intros t.
  destruct (decide (t = "A"%string)) as [->|Hne].
  - by rewrite lookup_singleton_eq.
  - rewrite lookup_singleton_ne by done.
    pose proof (untargeted_after ord 2 ["A"%string] (all_chunks files) t
                  ltac:(set_solver)) as Hv.
    by inversion Hv.
Qed.
End scenario_facts.

(** C9 as stated is false: flight identifiers are unique within a type only,
    and when a flight of type B carries the identifier of a selected flight
    of type A its rows are in the result. *)
Lemma shared_identifier_rows_collected :
  let files := three_days_shared_ids in
  let discovered := (find_target_flight_ids forward 2 files ["A"%string]).1 in
  scenario files
  ∧ ¬ Forall (λ r, type r ≠ Some "B"%string) (collect_flight_data files discovered).1.
Proof. cbv zeta. unfold scenario. split; compute_done. Qed.

(** C9 (concrete scenario), amended.  Three files, each with five flights of
    type A and five of type B, quota 2, target types [["A"]]: the discovered
    map has the single key "A", with two flight identifiers.  When no row of
    type B carries one of these two identifiers, the result is exactly the
    rows of type A of these two flights, it is sorted by flight_id, and it
    has no row of type B. *)
Theorem scenario_result (ord : SetOrder) (files : list csv_file) :
  scenario files →
  let discovered := (find_target_flight_ids ord 2 files ["A"%string]).1 in
  let selected := discovered !!! "A"%string in
  let result := (collect_flight_data files discovered).1 in
  (discovered = {[ "A"%string := selected ]} ∧ size selected = 2%nat)
  ∧ (available "B" files ∩ selected = ∅ →
       result ≡ₚ filter (λ r, type r = Some "A"%string ∧ flight_id r ∈ selected)
                        (all_rows files)
       ∧ StronglySorted flight_id_le result
       ∧ Forall (λ r, type r ≠ Some "B"%string) result).
Proof.
  intros Hsc. cbv zeta.
  destruct (scenario_discovered ord files Hsc) as (s & Hd & Hsz).
  rewrite Hd, lookup_total_singleton. split; [done|]. intros Hdisj.
  assert (Hrows : Forall (λ r, flight_id r ∈ s
                    ↔ type r = Some "A"%string ∧ flight_id r ∈ s) (all_rows files)).
  { apply Forall_forall. intros r Hr. split; [|tauto]. intros Hi. split; [|done].
    destruct (scenario_types files Hsc r Hr) as [Ha|Hb]; [done|].
    exfalso. assert (flight_id r ∈ available "B" files ∩ s) as Hin; [|set_solver].
    apply elem_of_intersection. split; [|done].
    apply elem_of_chunk_ids. by exists r. }
  assert (Hres : (collect_flight_data files {[ "A"%string := s ]}).1
                 ≡ₚ filter (λ r, type r = Some "A"%string ∧ flight_id r ∈ s)
                          (all_rows files)).
  { rewrite collect_flight_data_result, sort_values_perm, concat_collected_batches.
    rewrite all_target_ids_singleton, <- (filter_Forall_iff _ _ _ Hrows).
    rewrite (list_filter_iff _ (λ r, flight_id r ∈ s)); [done|].
    intros r. unfold isin_ids. by rewrite bool_decide_eq_true. }
  assert (Hty : Forall (λ r, type r = Some "A"%string)
                  (collect_flight_data files {[ "A"%string := s ]}).1).
  { rewrite Hres. apply Forall_forall. by intros r [[? _] _]%list_elem_of_filter. }
  split; [done|]. split.
  - apply (StronglySorted_refine row_le flight_id_le (λ r, type r = Some "A"%string)).
    + intros x y Hx Hy. by apply (row_le_same_type x y "A"%string).
    + exact Hty.
    + rewrite collect_flight_data_result. apply sort_values_sorted.
  - eapply Forall_impl; [exact Hty|]. by intros r ->.
Qed.

(** ** The theorems at sample inputs *)

(** C1 on the three days: a quota of 2 is filled exactly, and under a quota
    of 20 all fifteen flights of type A are returned. *)
Lemma quota_invariant_witness :
  (0 ≤ 2 ∧ "A"%string ∈ ["A"%string])
  ∧ Z.of_nat (size ((find_target_flight_ids forward 2 three_days ["A"%string]).1
                      !!! "A"%string)) = 2
  ∧ (find_target_flight_ids forward 20 three_days ["A"%string]).1 !!! "A"%string
    = available "A" three_days.
Proof.
  split; [split; compute_done|]. split.
  - apply (proj1 (quota_invariant forward 2 three_days ["A"%string] "A"%string
                    ltac:(compute_done) ltac:(compute_done))).
    compute_done.
  - apply (proj2 (quota_invariant forward 20 three_days ["A"%string] "A"%string
                    ltac:(compute_done) ltac:(compute_done))).
    compute_done.
Defined.

(** C2 on the three days, for a selected flight and one of its rows. *)
Lemma containment_witness :
  let discovered := (find_target_flight_ids forward 2 three_days ["A"%string]).1 in
  let result := (collect_flight_data three_days discovered).1 in
  (∃ r, r ∈ result ∧ flight_id r = Some "FL010003"%string)
  ∧ track "FL010005" "A" "p2" ∈ result.
Proof.
  cbv zeta.
  pose proof (containment forward 2 three_days ["A"%string]) as H.
  cbv zeta in H. destruct H as (_ & H2 & H3). split.
  - apply (H2 "A"%string {[ Some "FL010003"%string; Some "FL010005"%string ]});
      compute_done.
  - apply (H3 day1 (hd [] (chunks day1)) _ "A"%string
              {[ Some "FL010003"%string; Some "FL010005"%string ]}); compute_done.
Defined.

(** C4 on the three days: the first day fills the quota, pass 1 reads that
    file only, pass 2 reads the three. *)
Lemma early_exit_witness :
  (0 < 2 ∧ ["A"%string] ≠ [])
  ∧ opened (find_target_flight_ids forward 2 three_days ["A"%string]).2
    = ["flights_2024_01_01.csv"%string]
  ∧ opened (collect_flight_data three_days
              (find_target_flight_ids forward 2 three_days ["A"%string]).1).2
    = path <$> three_days.
Proof.
  split; [split; compute_done|].
  assert (Hall : ∀ t, t ∈ ["A"%string] →
            Z.of_nat (size ((find_target_flight_ids forward 2 [day1] ["A"%string]).1
                              !!! t)) = 2).
  { intros t ->%list_elem_of_singleton. compute_done. }
  pose proof (early_exit forward 2 [day1] [day2; day3] ["A"%string]
                ltac:(compute_done) ltac:(compute_done) Hall) as H.
  cbv zeta in H. destruct H as (H1 & _ & H3). split.
  - change three_days with ([day1] ++ [day2; day3]). rewrite H1. compute_done.
  - exact H3.
Defined.

(** C5, amended, on the three days with a quota no type exceeds. *)
Lemma deterministic_within_quota_witness :
  process_flight_csvs forward three_days ["A"%string] 20 "filtered_flights.csv"
  = process_flight_csvs backward three_days ["A"%string] 20 "filtered_flights.csv".
Proof.
  apply deterministic_within_quota.
  intros t ->%list_elem_of_singleton. compute_done.
Defined.

(** C6, amended, with a file that cannot be opened between two days. *)
Lemma failed_file_abandoned_witness :
  let files := [day1; unreadable_file; day2] in
  let m : gmap string (gset cell) := {[ "A"%string := {[ Some "FL020001"%string ]} ]} in
  raises unreadable_file = Some "Permission denied"%string
  ∧ (find_target_flight_ids forward 20 files ["A"%string]).1
    = (find_target_flight_ids forward 20 [day1; day2] ["A"%string]).1
  ∧ (collect_flight_data files m).1 = (collect_flight_data [day1; day2] m).1
  ∧ (find_target_flight_ids forward 20 files ["A"%string]).2
    = [Reading "flights_2024_01_01.csv";
       Reading "flights_2024_01_03.csv";
       ErrorReading "flights_2024_01_03.csv" "Permission denied";
       Reading "flights_2024_01_02.csv"]%string
  ∧ (collect_flight_data files m).2
    = [Reading "flights_2024_01_01.csv";
       Reading "flights_2024_01_03.csv";
       ErrorReading "flights_2024_01_03.csv" "Permission denied";
       Reading "flights_2024_01_02.csv"]%string.
Proof.
  cbv zeta. split; [done|].
  pose proof (failed_file_abandoned forward 20 [day1] [day2] unreadable_file
                "Permission denied"%string ["A"%string]
                {[ "A"%string := {[ Some "FL020001"%string ]} ]} eq_refl) as H.
  cbv zeta in H. destruct H as (_ & _ & H3 & H4 & H5).
  destruct (H3 eq_refl) as [H3a H3b].
  split; [exact H3a|]. split; [exact H3b|]. split.
  - etrans; [exact (H4 ltac:(compute_done))|compute_done].
  - etrans; [exact (H5 ltac:(compute_done))|compute_done].
Defined.

(** C7 on the three days, between the first and the fourth chunk boundary. *)
Lemma quota_never_exceeded_witness :
  (0 ≤ 2 ∧ (1 ≤ 4)%nat)
  ∧ let at_n := found_flights (boundary forward 2 three_days ["A"%string] 1)
                  !!! "A"%string in
    let at_m := found_flights (boundary forward 2 three_days ["A"%string] 4)
                  !!! "A"%string in
    Z.of_nat (size at_n) ≤ 2 ∧ at_m = at_n.
Proof.
  split; [split; compute_done|]. cbv zeta.
  pose proof (quota_never_exceeded forward 2 three_days ["A"%string] 1 4 "A"%string
                ltac:(compute_done) ltac:(compute_done)) as H.
  cbv zeta in H. destruct H as (H1 & H2 & _).
  split; [exact H1|]. apply H2. compute_done.
Defined.

(** C9, amended, on the three days. *)
Lemma scenario_result_witness :
  let discovered := (find_target_flight_ids forward 2 three_days ["A"%string]).1 in
  let selected := discovered !!! "A"%string in
  let result := (collect_flight_data three_days discovered).1 in
  scenario three_days
  ∧ available "B" three_days ∩ selected = ∅
  ∧ discovered = {[ "A"%string := selected ]} ∧ size selected = 2%nat
  ∧ result ≡ₚ filter (λ r, type r = Some "A"%string ∧ flight_id r ∈ selected)
                     (all_rows three_days)
  ∧ StronglySorted flight_id_le result
  ∧ Forall (λ r, type r ≠ Some "B"%string) result.
Proof.
  cbv zeta.
  assert (Hsc : scenario three_days) by (unfold scenario; compute_done).
  pose proof (scenario_result forward three_days Hsc) as H.
  cbv zeta in H. destruct H as ((H1 & H2) & H3).
  split; [exact Hsc|]. split; [compute_done|].
  split; [exact H1|]. split; [exact H2|].
  apply H3. compute_done.
Defined.

(** C10 on the three days, for the set found for type A. *)
Lemma discovery_sound_witness :
  (find_target_flight_ids forward 2 three_days ["A"%string]).1 !! "A"%string
  = Some {[ Some "FL010003"%string; Some "FL010005"%string ]}
  ∧ "A"%string ∈ ["A"%string]
  ∧ ∃ f c r, f ∈ three_days ∧ c ∈ chunks f ∧ r ∈ c
             ∧ type r = Some "A"%string ∧ flight_id r = Some "FL010003"%string.
Proof.
  assert (Hs : (find_target_flight_ids forward 2 three_days ["A"%string]).1 !! "A"%string
               = Some {[ Some "FL010003"%string; Some "FL010005"%string ]})
    by compute_done.
  split; [exact Hs|].
  destruct (discovery_sound forward 2 three_days ["A"%string] "A"%string _ Hs)
    as [Ht Hrows].
  split; [exact Ht|]. apply Hrows. compute_done.
Defined.

(** * Further properties of the code *)

(** ** Which types get an entry *)

Section presence.
Context (ord : SetOrder) (q : Z).

Lemma chunk_step_present t seen v c :
  present seen v → present (seen ∪ chunk_ids t c) (chunk_step ord q t v c).
Proof.
  destruct v as [o b]. unfold present, chunk_step, type_step. cbn [fst snd].
  intros [Hiff Hb]. destruct b.
  - destruct (filter _ c) as [|r rs] eqn:E.
    + by rewrite (chunk_ids_no_rows _ _ E), (right_id_L ∅ (∪)).
    + apply chunk_ids_some_rows in E.
      case_match; cbn [fst snd]; (split; [split; [done|set_solver]|done]).
  - cbn [fst snd]. split; [|done]. split; [intros Ho; by specialize (Hb Ho)|].
    intros Hemp. apply Hiff. set_solver.
Qed.

Lemma foldl_chunk_step_present t cs : ∀ seen v,
  present seen v →
  present (seen ∪ chunk_ids t (concat cs)) (foldl (chunk_step ord q t) v cs).
Proof.
  induction cs as [|c cs IH]; intros seen v Hp; simpl.
  - unfold chunk_ids. simpl. by rewrite (right_id_L ∅ (∪)).
  - rewrite chunk_ids_app, (assoc_L (∪)). by apply IH, chunk_step_present.
Qed.

Lemma present_after targets cs t :
  t ∈ targets →
  present (chunk_ids t (concat cs))
          (view_of (foldl (scan_chunk ord q) (initial_state targets) cs) t).
Proof.
  intros Ht.
  rewrite view_after, <- (left_id_L ∅ (∪) (chunk_ids t (concat cs))).
  apply foldl_chunk_step_present. unfold present. cbn [fst snd].
  by rewrite bool_decide_eq_true_2.
Qed.

(** A type still needed at the end means no [break]: every file was read. *)
Lemma scan_files_log_all files : ∀ st,
  types_needed (scan_files ord q st files).1 ≠ ∅ →
  (scan_files ord q st files).2 = files ≫= file_log.
Proof.
  induction files as [|f files IH]; intros st; [done|].
  cbn [scan_files scan_file]. case_decide as He; [done|].
  specialize (IH (foldl (scan_chunk ord q) st (chunks f))).
  destruct (scan_files ord q _ files) as [st2 l2]. cbn [fst snd] in *.
  intros Hne. by rewrite IH, bind_cons.
Qed.
End presence.

(** X1.  The map returned by [find_target_flight_ids] has an entry for a type
    exactly when the type is a target type and some delivered row has it:
    target types without a row are absent, whatever the quota. *)
Theorem discovered_keys (ord : SetOrder) (q : Z) (files : list csv_file)
    (targets : list string) (t : string) :
  is_Some ((find_target_flight_ids ord q files targets).1 !! t)
  ↔ t ∈ targets ∧ available t files ≠ ∅.
Proof.
  rewrite find_target_flight_ids_found, <- not_eq_None_Some.
  destruct (decide (t ∈ targets)) as [Ht|Ht].
  - pose proof (present_after ord q targets (all_chunks files) t Ht) as [Hiff _].
    rewrite available_stream in Hiff. unfold view_of in Hiff. cbn [fst] in Hiff.
    rewrite Hiff. tauto.
  - pose proof (untargeted_after ord q targets (all_chunks files) t Ht) as Hv.
    inversion Hv as [[Hnone Hb]]. rewrite Hnone. tauto.
Qed.

(** X2.  When a target type has fewer distinct flights in the files than the
    quota, pass 1 never breaks out of the file loop: it reads every file of
    the list, in order, and reports each failing one. *)
Theorem short_type_forces_full_scan (ord : SetOrder) (q : Z) (files : list csv_file)
    (targets : list string) (t : string) :
  t ∈ targets → Z.of_nat (size (available t files)) < q →
  (find_target_flight_ids ord q files targets).2 = files ≫= file_log
  ∧ opened (find_target_flight_ids ord q files targets).2 = path <$> files.
Proof.
  intros Ht Hlt.
  assert (Hlog : (find_target_flight_ids ord q files targets).2 = files ≫= file_log).
  { rewrite find_target_flight_ids_unfold. cbn [snd]. apply scan_files_log_all.
    rewrite scan_files_state.
    pose proof (exact_after ord q targets (all_chunks files) t ltac:(lia) Ht) as He.
    rewrite available_stream in He. unfold view_of, exact in He. cbn [fst snd] in He.
    case_bool_decide as Hin; [set_solver|].
    destruct He as (s & _ & Hsz & Hsub). apply subseteq_size in Hsub. lia. }
  split; [done|]. rewrite Hlog. apply opened_files_log.
Qed.

(** ** More on pass 2 *)

(** X3.  [collect_flight_data] returns, with their multiplicities, the
    delivered rows whose [flight_id] cell is in a set of the map: a row that
    occurs twice in the files occurs twice in the frame, and no row is added
    or dropped. *)
Theorem collected_rows_exact (files : list csv_file) (m : gmap string (gset cell)) :
  (collect_flight_data files m).1
  ≡ₚ filter (λ r, flight_id r ∈ all_target_ids m) (all_rows files).
Proof.
  rewrite collect_flight_data_result, sort_values_perm, concat_collected_batches.
  rewrite (list_filter_iff _ (λ r, flight_id r ∈ all_target_ids m)); [done|].
  intros r. unfold isin_ids. by rewrite bool_decide_eq_true.
Qed.

(** X4.  The frame [collect_flight_data] returns depends on the sequence of
    delivered rows only: cutting the same rows into other chunks or other
    files gives the same frame, in the same order. *)
Theorem collect_ignores_chunking (files1 files2 : list csv_file)
    (m : gmap string (gset cell)) :
  all_rows files1 = all_rows files2 →
  (collect_flight_data files1 m).1 = (collect_flight_data files2 m).1.
Proof.
  intros H. by rewrite !collect_flight_data_result, !concat_collected_batches, H.
Qed.

(** X5.  [collect_flight_data] returns before the file loop exactly when the
    map holds no identifier: then it reads no file and returns the empty
    frame; otherwise it reads every file of the list once, in order, and
    reports each failing one. *)
Theorem collect_reads (files : list csv_file) (m : gmap string (gset cell)) :
  ((∀ t s, m !! t = Some s → s = ∅) → collect_flight_data files m = ([], []))
  ∧ ((∃ t s i, m !! t = Some s ∧ i ∈ s) →
       (collect_flight_data files m).2 = files ≫= file_log
       ∧ opened (collect_flight_data files m).2 = path <$> files).
Proof.
  split.
  - intros Hall. unfold collect_flight_data. rewrite decide_True; [done|].
    apply set_eq. intros i. rewrite elem_of_all_target_ids. split; [|set_solver].
    intros (t & s & Hs & Hi). rewrite (Hall t s Hs) in Hi. set_solver.
  - intros (t & s & i & Hs & Hi).
    assert (Hne : all_target_ids m ≠ ∅).
    { intros He. assert (i ∈ all_target_ids m) as Hin; [|set_solver].
      apply elem_of_all_target_ids. by exists t, s. }
    rewrite collect_flight_data_log by done. split; [done|apply opened_files_log].
Qed.

Lemma StronglySorted_app_inv_cons {A} (R : relation A) l1 x l2 y l3 :
  StronglySorted R (l1 ++ x :: l2 ++ y :: l3) → R x y.
Proof.
  intros Hs. apply StronglySorted_app_1_r in Hs.
  apply StronglySorted_inv in Hs as [_ Hall].
  rewrite Forall_forall in Hall. apply Hall. set_solver.
Qed.

(** X6.  In the frame [collect_flight_data] returns the rows whose [type] is
    null come last: after such a row every row has a null type; and within
    one type the rows whose [flight_id] is null come last. *)
Theorem nulls_sorted_last (files : list csv_file) (m : gmap string (gset cell))
    (l1 l2 l3 : list row) (r1 r2 : row) :
  (collect_flight_data files m).1 = l1 ++ r1 :: l2 ++ r2 :: l3 →
  (type r1 = None → type r2 = None)
  ∧ (type r1 = type r2 → flight_id r1 = None → flight_id r2 = None).
Proof.
  intros Hres.
  pose proof (sort_values_sorted (concat (collected_batches files m))) as Hs.
  rewrite <- collect_flight_data_result, Hres in Hs.
  apply StronglySorted_app_inv_cons in Hs.
  unfold row_le, row_leb, row_compare in Hs. split.
  - intros Hn. rewrite Hn in Hs. by destruct (type r2).
  - intros Hty Hn. rewrite Hty, Hn in Hs.
    rewrite (proj2 (cmp_eq (cmp := cell_compare) (type r2) (type r2)) eq_refl) in Hs.
    by destruct (flight_id r2).
Qed.

(** ** The orchestrator *)

Lemma process_result_df ord files targets q out :
  result_df (process_flight_csvs ord files targets q out)
  = (collect_flight_data files (find_target_flight_ids ord q files targets).1).1.
Proof.
  unfold process_flight_csvs. destruct files as [|f fs].
  - unfold collect_flight_data. case_decide; done.
  - destruct (find_target_flight_ids ord q (f :: fs) targets) as [ids log1].
    cbn [fst]. by destruct (collect_flight_data (f :: fs) ids).
Qed.

Lemma process_written ord files targets q out :
  written (process_flight_csvs ord files targets q out)
  = if decide (result_df (process_flight_csvs ord files targets q out) ≠ []
               ∧ out ≠ ""%string)
    then Some (result_df (process_flight_csvs ord files targets q out))
    else None.
Proof.
  unfold process_flight_csvs. destruct files as [|f fs].
  - cbn [written result_df]. rewrite decide_False; [done|]. by intros [? _].
  - destruct (find_target_flight_ids ord q (f :: fs) targets) as [ids log1].
    destruct (collect_flight_data (f :: fs) ids) as [[|r rs] log2];
      cbn [written result_df].
    + rewrite decide_False; [done|]. by intros [? _].
    + destruct out; [rewrite decide_False; [done|]; by intros [_ ?]|].
      by rewrite decide_True.
Qed.

Lemma discovered_total_Some ord q files targets t i :
  i ∈ (find_target_flight_ids ord q files targets).1 !!! t →
  ∃ s, (find_target_flight_ids ord q files targets).1 !! t = Some s ∧ i ∈ s.
Proof.
  rewrite lookup_total_default.
  destruct (_ !! t) as [s|]; cbn [default from_option id]; [by exists s|set_solver].
Qed.

(** A discovered identifier of a type has a row of that type in the frame. *)
Lemma discovered_row_collected ord q files targets t i :
  i ∈ (find_target_flight_ids ord q files targets).1 !!! t →
  ∃ r, r ∈ (collect_flight_data files (find_target_flight_ids ord q files targets).1).1
       ∧ type r = Some t ∧ flight_id r = i.
Proof.
  intros (s & Hs & Hi)%discovered_total_Some.
  destruct (discovered_row ord q files targets t s i Hs Hi)
    as (f & c & r & Hf & Hc & Hr & Hty & Hid).
  exists r. split; [|done]. apply elem_of_collect_result. split.
  - apply elem_of_all_rows. by exists f, c.
  - apply elem_of_all_target_ids. exists t, s. by rewrite Hid.
Qed.

(** A row of the frame carries an identifier discovered with some target
    type on a row of the files. *)
Lemma collected_row_origin ord q files targets r :
  r ∈ (collect_flight_data files (find_target_flight_ids ord q files targets).1).1 →
  r ∈ all_rows files
  ∧ ∃ t r', t ∈ targets ∧ r' ∈ all_rows files ∧ type r' = Some t
            ∧ flight_id r' = flight_id r
            ∧ flight_id r ∈ (find_target_flight_ids ord q files targets).1 !!! t.
Proof.
  intros [Hr (t & s & Hs & Hi)%elem_of_all_target_ids]%elem_of_collect_result.
  split; [done|].
  destruct (discovered_row ord q files targets t s _ Hs Hi)
    as (f & c & r' & Hf & Hc & Hr' & Hty & Hid).
  exists t, r'. split; [by eapply discovered_target|].
  split; [apply elem_of_all_rows; by exists f, c|].
  split; [done|]. split; [done|].
  by rewrite lookup_total_default, Hs.
Qed.

(** X7.  With a positive quota the pipeline returns rows exactly when some
    target type has a row in the files, and it writes the output file, with
    the returned frame, exactly when it returns rows and [output_file] is
    not empty. *)
Theorem pipeline_nonempty (ord : SetOrder) (q : Z) (files : list csv_file)
    (targets : list string) (output_file : string) :
  0 < q →
  let r := process_flight_csvs ord files targets q output_file in
  (result_df r ≠ [] ↔ ∃ t, t ∈ targets ∧ available t files ≠ ∅)
  ∧ (is_Some (written r)
     ↔ (∃ t, t ∈ targets ∧ available t files ≠ ∅) ∧ output_file ≠ ""%string)
  ∧ (∀ rows, written r = Some rows → rows = result_df r).
Proof.
  intros Hq. cbv zeta.
  assert (Hiff : result_df (process_flight_csvs ord files targets q output_file) ≠ []
                 ↔ ∃ t, t ∈ targets ∧ available t files ≠ ∅).
  { rewrite process_result_df. split.
    - intros Hne.
      destruct (collect_flight_data files _).1 as [|r rs] eqn:E; [done|].
      assert (Hin : r ∈ (collect_flight_data files
                           (find_target_flight_ids ord q files targets).1).1)
        by (rewrite E; set_solver).
      apply collected_row_origin in Hin as (_ & t & r' & Ht & Hr' & Hty & _ & _).
      exists t. split; [done|].
      assert (flight_id r' ∈ available t files) as Hav; [|set_solver].
      apply elem_of_chunk_ids. by exists r'.
    - intros (t & Ht & Hav).
      assert (∃ i, i ∈ (find_target_flight_ids ord q files targets).1 !!! t) as [i Hi].
      { rewrite find_target_flight_ids_found, found_total_view.
        pose proof (exact_after ord q targets (all_chunks files) t ltac:(lia) Ht) as He.
        rewrite available_stream in He. unfold exact in He.
        destruct (view_of _ t) as [o b]. cbn [fst snd] in *. destruct b.
        - destruct He as [[_ Hemp]|(-> & Hne & _)]; [done|].
          cbn [default from_option id].
          destruct (set_choose_or_empty (available t files)) as [|Hemp]; [done|].
          by apply leibniz_equiv in Hemp.
        - destruct He as (s & -> & Hsz & _). cbn [default from_option id].
          destruct (set_choose_or_empty s) as [|Hemp]; [done|].
          apply leibniz_equiv in Hemp. subst s. rewrite size_empty in Hsz. lia. }
      apply discovered_row_collected in Hi as (r & Hr & _). intros Hnil.
      rewrite Hnil in Hr. set_solver. }
  split; [done|]. rewrite process_written, <- Hiff. split.
  - case_decide as Hd; [|by rewrite <- not_eq_None_Some]. split; [done|by eexists].
  - intros rows. case_decide; [|done]. by intros [= <-].
Qed.

(** X8.  With a quota of zero every discovered set is truncated to nothing:
    the pipeline returns the empty frame, writes no file and prints no
    summary, whatever the files hold. *)
Theorem quota_zero_collects_nothing (ord : SetOrder) (files : list csv_file)
    (targets : list string) (output_file : string) :
  result_df (process_flight_csvs ord files targets 0 output_file) = []
  ∧ written (process_flight_csvs ord files targets 0 output_file) = None
  ∧ printed_summary ord files targets 0 output_file = None.
Proof.
  assert (Hres : result_df (process_flight_csvs ord files targets 0 output_file) = []).
  { rewrite process_result_df.
    destruct (collect_flight_data files _).1 as [|r rs] eqn:E; [done|]. exfalso.
    assert (Hin : r ∈ (collect_flight_data files
                         (find_target_flight_ids ord 0 files targets).1).1)
      by (rewrite E; set_solver).
    apply collected_row_origin in Hin as (_ & t & _ & Ht & _ & _ & _ & Hi).
    revert Hi. rewrite find_target_flight_ids_found, found_total_view.
    pose proof (exact_after ord 0 targets (all_chunks files) t ltac:(lia) Ht) as He.
    unfold exact in He. destruct (view_of _ t) as [o b]. cbn [fst snd] in *.
    destruct b.
    - destruct He as [[-> _]|(_ & _ & Hlt)]; [|lia].
      cbn [default from_option id]. set_solver.
    - destruct He as (s & -> & Hsz & _). cbn [default from_option id].
      rewrite (size_zero_empty s) by lia. set_solver. }
  assert (Hw : written (process_flight_csvs ord files targets 0 output_file) = None).
  { rewrite process_written, Hres. rewrite decide_False; [done|]. by intros [? _]. }
  split; [done|]. split; [done|]. unfold printed_summary. by rewrite Hw.
Qed.

Lemma size_list_to_set_le (l : list cell) :
  (size (list_to_set (C := gset cell) l) ≤ length l)%nat.
Proof.
  unfold size, set_size. cbn [compose].
  apply submseteq_length, NoDup_submseteq; [apply NoDup_elements|].
  intros x Hx. by apply elem_of_elements, elem_of_list_to_set in Hx.
Qed.

Lemma nunique_le_length (cells : list cell) : (nunique cells ≤ length cells)%nat.
Proof.
  unfold nunique. etrans; [|apply size_list_to_set_le].
  apply subseteq_size. set_solver.
Qed.

Lemma elem_of_type_data result t r :
  r ∈ type_data result t ↔ r ∈ result ∧ type r = Some t.
Proof.
  unfold type_data, cell_is. rewrite list_elem_of_filter, bool_decide_eq_true. tauto.
Qed.

(** X9.  A line of the summary never reports fewer flights of a type than
    pass 1 selected for it (null identifiers apart, which [nunique] does not
    count), and never more flights than track points; the type of a line is
    one of the target types. *)
Theorem summary_counts (ord : SetOrder) (q : Z) (files : list csv_file)
    (targets : list string) (output_file : string) (t : string) (n_flights n_rows : nat) :
  (t, n_flights, n_rows)
    ∈ summary_by_type targets
        (result_df (process_flight_csvs ord files targets q output_file)) →
  t ∈ targets
  ∧ (size ((find_target_flight_ids ord q files targets).1 !!! t ∖ {[ None ]})
     ≤ n_flights)%nat
  ∧ (n_flights ≤ n_rows)%nat.
Proof.
  unfold summary_by_type. intros (t' & [= -> -> ->] & Ht)%list_elem_of_fmap.
  split; [done|]. split.
  - unfold nunique. apply subseteq_size. intros i [Hi Hnn]%elem_of_difference.
    apply elem_of_difference. split; [|done].
    rewrite process_result_df.
    apply discovered_row_collected in Hi as (r & Hr & Hty & Hid).
    apply elem_of_list_to_set, list_elem_of_fmap. exists r. split; [done|].
    by apply elem_of_type_data.
  - etrans; [apply nunique_le_length|]. by rewrite length_fmap.
Qed.

Lemma single_typed_row_type ord q files targets x :
  single_typed (all_rows files) →
  x ∈ (collect_flight_data files (find_target_flight_ids ord q files targets).1).1 →
  ∃ t, t ∈ targets ∧ type x = Some t.
Proof.
  intros Hsingle Hx.
  apply collected_row_origin in Hx as (Hx & t & r' & Ht & Hr' & Hty & Hid & _).
  exists t. split; [done|]. rewrite <- Hty. symmetry. by apply Hsingle.
Qed.

(** X10.  When no flight identifier occurs with two types in the files,
    every row the pipeline returns has a target type, and the summary
    reports for each target type exactly the flights pass 1 selected for it,
    hence at most [quota] of them. *)
Theorem single_typed_result (ord : SetOrder) (q : Z) (files : list csv_file)
    (targets : list string) (output_file : string) :
  0 ≤ q → single_typed (all_rows files) →
  let r := process_flight_csvs ord files targets q output_file in
  (∀ x, x ∈ result_df r → ∃ t, t ∈ targets ∧ type x = Some t)
  ∧ (∀ t, t ∈ targets →
       nunique (flight_id <$> type_data (result_df r) t)
       = size ((find_target_flight_ids ord q files targets).1 !!! t ∖ {[ None ]})
       ∧ Z.of_nat (nunique (flight_id <$> type_data (result_df r) t)) ≤ q).
Proof.
  intros Hq Hsingle. cbv zeta. rewrite process_result_df. split.
  - intros x Hx. by eapply single_typed_row_type.
  - intros t Ht.
    assert (Heq : list_to_set (C := gset cell)
                    (flight_id <$> type_data
                       (collect_flight_data files
                          (find_target_flight_ids ord q files targets).1).1 t)
                  = (find_target_flight_ids ord q files targets).1 !!! t).
    { apply set_eq. intros i. rewrite elem_of_list_to_set, list_elem_of_fmap. split.
      - intros (x & -> & [Hx Hxt]%elem_of_type_data).
        apply collected_row_origin in Hx as (Hx & t' & r' & _ & Hr' & Hty & Hid & Hi).
        assert (type r' = type x) as Hsame by (by apply Hsingle).
        rewrite Hty, Hxt in Hsame. by inversion Hsame; subst.
      - intros Hi. apply discovered_row_collected in Hi as (r & Hr & Hty & Hid).
        exists r. split; [done|]. by apply elem_of_type_data. }
    unfold nunique. rewrite Heq. split; [done|].
    pose proof (boundary_bounded ord q files targets (length (all_chunks files)) t Hq)
      as Hb.
    unfold boundary in Hb. rewrite take_ge in Hb by done.
    rewrite find_target_flight_ids_found.
    etrans; [|exact Hb]. apply inj_le, subseteq_size. set_solver.
Qed.

(** ** The generator of test data *)

Lemma string_app_cons a (s1 s2 : string) : String a s1 +:+ s2 = String a (s1 +:+ s2).
Proof. done. Qed.

Lemma string_app_nil (s : string) : "" +:+ s = s.
Proof. done. Qed.

Lemma uint_of_string_zeros k (s : string) :
  NilEmpty.uint_of_string (zeros k +:+ s)
  = Nat.iter k Decimal.D0 <$> NilEmpty.uint_of_string s.
Proof.
  induction k as [|k IH].
  - cbn [zeros Nat.iter nat_rect]. rewrite string_app_nil.
    by destruct (NilEmpty.uint_of_string s).
  - cbn [zeros]. rewrite string_app_cons. cbn [NilEmpty.uint_of_string].
    rewrite IH. by destruct (NilEmpty.uint_of_string s).
Qed.

Lemma of_uint_leading_zeros k d : Nat.of_uint (Nat.iter k Decimal.D0 d) = Nat.of_uint d.
Proof. induction k as [|k IH]; [done|]. cbn [Nat.iter]. by rewrite <- IH. Qed.

(** Reading the digits back gives the number: the padding loses nothing. *)
Lemma format_04d_read n :
  Nat.of_uint <$> NilEmpty.uint_of_string (format_04d n) = Some n.
Proof.
  unfold format_04d. rewrite uint_of_string_zeros, NilEmpty.usu. cbn [fmap option_fmap option_map].
  by rewrite of_uint_leading_zeros, Unsigned.of_to.
Qed.

#[global] Instance format_04d_inj : Inj (=) (=) format_04d.
Proof.
  intros n1 n2 H. apply (inj Some).
  by rewrite <- (format_04d_read n1), <- (format_04d_read n2), H.
Qed.

#[global] Instance new_flight_id_inj ymd : Inj (=) (=) (new_flight_id ymd).
Proof.
  intros n1 n2 H. unfold new_flight_id in H.
  by apply (inj (String.app "FL")), (inj (String.app ymd)), (inj format_04d) in H.
Qed.

Lemma fmap_seq_from {A} (g : nat → A) n : ∀ k,
  (λ j, g (k + j)%nat) <$> seq 0 n = g <$> seq k n.
Proof.
  induction n as [|n IH]; intros k; [done|].
  cbn [seq fmap list_fmap]. rewrite Nat.add_0_r. f_equal.
  rewrite <- fmap_S_seq, <- list_fmap_compose, <- IH.
  apply list_fmap_ext. intros _ j _. cbn [compose]. f_equal. lia.
Qed.

(** The identifiers of the plan are those of consecutive counters. *)
Lemma plan_flights_ids ymd types : ∀ k,
  (plan_flights ymd types k).*1
  = new_flight_id ymd <$> seq k (length (plan_flights ymd types k)).
Proof.
  induction types as [|[t c] types IH]; intros k; [done|].
  cbn [plan_flights]. rewrite fmap_app, length_app, length_fmap, length_seq.
  rewrite seq_app, fmap_app, IH. f_equal.
  rewrite <- list_fmap_compose. apply fmap_seq_from.
Qed.

Lemma plan_flights_NoDup ymd types k : NoDup (plan_flights ymd types k).*1.
Proof.
  rewrite plan_flights_ids. apply (NoDup_fmap_2 _), NoDup_seq.
Qed.

Lemma NoDup_fst_functional {A B} (l : list (A * B)) a b1 b2 :
  NoDup l.*1 → (a, b1) ∈ l → (a, b2) ∈ l → b1 = b2.
Proof.
  induction l as [|[a' b'] l IH]; [by intros _ ?%elem_of_nil|].
  rewrite fmap_cons, NoDup_cons. cbn [fst].
  intros [Hnin Hnd] [[= -> ->]|H1]%elem_of_cons [[= ->]|H2]%elem_of_cons; try done.
  - destruct Hnin. apply list_elem_of_fmap. by exists (a', b2).
  - destruct Hnin. apply list_elem_of_fmap. by exists (a', b1).
  - by apply IH.
Qed.

Lemma plan_flights_types ymd types : ∀ k id t,
  (id, t) ∈ plan_flights ymd types k → ∃ c, (t, c) ∈ types.
Proof.
  induction types as [|[t' c'] types IH]; intros k id t; [by intros ?%elem_of_nil|].
  cbn [plan_flights]. intros [Hin|Hin]%elem_of_app.
  - apply list_elem_of_fmap in Hin as (j & [= -> ->] & _). exists c'. set_solver.
  - destruct (IH _ _ _ Hin) as [c Hc]. exists c. set_solver.
Qed.

(** The rows of a day come from the planned flights. *)
Lemma elem_of_generate_daily_csv d ymd types rows r :
  generate_daily_csv d ymd types = Some rows →
  r ∈ rows ↔ ∃ id t, (id, t) ∈ plan_flights ymd types 1
                     ∧ flight_id r = Some id ∧ type r = Some t
                     ∧ telemetry r ∈ track_points d id.
Proof.
  unfold generate_daily_csv. intros Hgen.
  assert (Hrows : rows ≡ₚ concat ((λ f, generate_flight_track f.1 f.2 (track_points d f.1))
                                    <$> plan_flights ymd types 1)).
  { destruct (_ <$> plan_flights ymd types 1) as [|x xs]; [done|].
    rewrite <- (shuffle_perm d (concat (x :: xs))).
    destruct (shuffle d (concat (x :: xs))) as [|y ys]; [done|].
    by injection Hgen as <-. }
  rewrite Hrows, elem_of_concat. unfold generate_flight_track. split.
  - intros (l & ([id t] & -> & Hin)%list_elem_of_fmap & (p & -> & Hp)%list_elem_of_fmap).
    by exists id, t.
  - intros (id & t & Hin & Hid & Hty & Hp).
    exists ((λ p, Row (Some id) (Some t) p) <$> track_points d id). split.
    + apply list_elem_of_fmap. by exists (id, t).
    + apply list_elem_of_fmap. exists (telemetry r). split; [|done].
      destruct r. simpl in *. by subst.
Qed.

(** X11.  The flights [generate_daily_csv] plans for a day get pairwise
    distinct identifiers, across all types and whatever the counter starts
    at: the zero-padded counter is read back unchanged, also beyond 9999. *)
Theorem generated_ids_distinct (ymd : string) (types : list (string * Z))
    (flight_counter : nat) :
  NoDup (plan_flights ymd types flight_counter).*1
  ∧ ∀ n, Nat.of_uint <$> NilEmpty.uint_of_string (format_04d n) = Some n.
Proof. split; [apply plan_flights_NoDup|apply format_04d_read]. Qed.

Lemma generate_daily_csv_single_typed d ymd types rows :
  generate_daily_csv d ymd types = Some rows → single_typed rows.
Proof.
  intros Hgen r1 r2 Hr1 Hr2 Hid.
  apply (elem_of_generate_daily_csv d ymd types rows r1 Hgen) in Hr1
    as (id1 & t1 & Hin1 & Hid1 & Hty1 & _).
  apply (elem_of_generate_daily_csv d ymd types rows r2 Hgen) in Hr2
    as (id2 & t2 & Hin2 & Hid2 & Hty2 & _).
  rewrite Hid1, Hid2 in Hid. injection Hid as ->.
  rewrite Hty1, Hty2. f_equal.
  eapply NoDup_fst_functional; [apply plan_flights_NoDup|done..].
Qed.

(** X12.  In the file [generate_daily_csv] writes for a day no flight
    identifier occurs with two types; every row has an identifier and one of
    the types of the dict. *)
Theorem generated_day_single_typed (d : Draws) (ymd : string)
    (types : list (string * Z)) (rows : list row) :
  generate_daily_csv d ymd types = Some rows →
  single_typed rows
  ∧ ∀ r, r ∈ rows →
      (∃ id, flight_id r = Some id) ∧ (∃ t c, type r = Some t ∧ (t, c) ∈ types).
Proof.
  intros Hgen. split.
  - by eapply generate_daily_csv_single_typed.
  - intros r Hr.
    apply (elem_of_generate_daily_csv d ymd types rows r Hgen) in Hr
      as (id & t & Hin & Hid & Hty & _).
    split; [by exists id|].
    destruct (plan_flights_types _ _ _ _ _ Hin) as [c Hc]. by exists t, c.
Qed.

Lemma generate_flight_track_nil id t points :
  generate_flight_track id t points = [] ↔ points = [].
Proof. unfold generate_flight_track. by destruct points. Qed.

Lemma concat_nil_Forall {A} (ls : list (list A)) : concat ls = [] ↔ Forall (λ l, l = []) ls.
Proof.
  induction ls as [|l ls IH]; simpl; [by split|].
  rewrite Forall_cons, <- IH. split.
  - by intros [-> ->]%app_eq_nil.
  - by intros [-> ->].
Qed.

Lemma plan_flights_no_count ymd types : ∀ k,
  Forall (λ tc : string * Z, tc.2 ≤ 0) types → plan_flights ymd types k = [].
Proof.
  induction types as [|[t c] types IH]; intros k; [done|].
  intros [Hc Hall]%Forall_cons. cbn [plan_flights snd] in *.
  rewrite (IH _ Hall). by replace (Z.to_nat c) with 0%nat by lia.
Qed.

(** X13.  [generate_daily_csv] raises exactly when the day has no track
    point at all: no flight is planned ([pd.concat] of an empty list), or
    every planned flight has zero points (the frame has no [flight_id]
    column).  In particular it raises when no count of the dict is
    positive. *)
Theorem generated_day_raises (d : Draws) (ymd : string) (types : list (string * Z)) :
  (generate_daily_csv d ymd types = None
   ↔ Forall (λ f, track_points d f.1 = []) (plan_flights ymd types 1))
  ∧ (Forall (λ tc : string * Z, tc.2 ≤ 0) types → generate_daily_csv d ymd types = None).
Proof.
  assert (Hiff : generate_daily_csv d ymd types = None
                 ↔ Forall (λ f, track_points d f.1 = []) (plan_flights ymd types 1)).
  { unfold generate_daily_csv.
    destruct (plan_flights ymd types 1) as [|f fs] eqn:E; [done|].
    rewrite <- E. clear E.
    destruct (_ <$> plan_flights ymd types 1) as [|x xs] eqn:E.
    { apply fmap_nil_inv in E. by rewrite E. }
    rewrite <- E. clear E.
    assert (shuffle d (concat ((λ f, generate_flight_track f.1 f.2 (track_points d f.1))
                                 <$> plan_flights ymd types 1)) = []
            ↔ Forall (λ f, track_points d f.1 = []) (plan_flights ymd types 1)) as <-.
    { rewrite <- (Permutation_nil_r (shuffle d _)), (shuffle_perm d).
      rewrite (Permutation_nil_r (concat _)), concat_nil_Forall, Forall_fmap.
      apply Forall_iff. intros [id t]. cbn [compose fst snd].
      rewrite generate_flight_track_nil. tauto. }
    destruct (shuffle d _); [done|]. by split. }
  split; [done|]. intros Hall. apply Hiff.
  by rewrite plan_flights_no_count.
Qed.

Lemma filter_all {A} (P : A → Prop) `{∀ x, Decision (P x)} (l : list A) :
  Forall P l → filter P l = l.
Proof.
  induction 1 as [|x l Hx _ IH]; [done|]. by rewrite filter_cons_True, IH.
Qed.

Lemma filter_none {A} (P : A → Prop) `{∀ x, Decision (P x)} (l : list A) :
  Forall (λ x, ¬ P x) l → filter P l = [].
Proof.
  induction 1 as [|x l Hx _ IH]; [done|]. by rewrite filter_cons_False.
Qed.

Lemma fmap_sublist {A B} (f : A → B) (l k : list A) :
  l `sublist_of` k → f <$> l `sublist_of` f <$> k.
Proof. induction 1; simpl; by constructor. Qed.

Lemma plan_flights_absent ymd types t : ∀ k,
  t ∉ types.*1 → filter (λ f : string * string, f.2 = t) (plan_flights ymd types k) = [].
Proof.
  intros k Hnin.
  destruct (filter _ (plan_flights ymd types k)) as [|[id t'] fs] eqn:E; [done|].
  exfalso. assert ((id, t') ∈ filter (λ f : string * string, f.2 = t)
                               (plan_flights ymd types k)) as Hin
    by (rewrite E; set_solver).
  apply list_elem_of_filter in Hin as [Ht Hin]. cbn [snd] in Ht. subst t'.
  destruct (plan_flights_types _ _ _ _ _ Hin) as [c Hc].
  apply Hnin, list_elem_of_fmap. by exists (t, c).
Qed.

Lemma plan_flights_count ymd types t c : ∀ k,
  NoDup types.*1 → (t, c) ∈ types →
  length (filter (λ f : string * string, f.2 = t) (plan_flights ymd types k))
  = Z.to_nat c.
Proof.
  induction types as [|[t' c'] types IH]; intros k; [by intros _ ?%elem_of_nil|].
  rewrite fmap_cons, NoDup_cons. cbn [fst plan_flights].
  intros [Hnin Hnd] Hin. rewrite filter_app, length_app.
  destruct (decide (t' = t)) as [->|Hne].
  - assert (c' = c) as ->.
    { apply elem_of_cons in Hin as [[= ->]|Hin]; [done|].
      destruct Hnin. apply list_elem_of_fmap. by exists (t, c). }
    rewrite plan_flights_absent by done.
    rewrite filter_all.
    + rewrite length_fmap, length_seq. simpl. lia.
    + apply Forall_fmap, Forall_forall. by intros j _.
  - apply elem_of_cons in Hin as [[= -> ->]|Hin]; [done|].
    rewrite (IH _ Hnd Hin).
    rewrite filter_none; [done|].
    apply Forall_fmap, Forall_forall. intros j _. cbn [compose snd]. congruence.
Qed.

(** X14.  When every flight has at least one track point, the file of a day
    holds, for each type of the dict, as many distinct flight identifiers as
    the count of the type (none for a count below one). *)
Theorem generated_day_flights (d : Draws) (ymd : string) (types : list (string * Z))
    (rows : list row) (t : string) (c : Z) :
  generate_daily_csv d ymd types = Some rows →
  NoDup types.*1 → (t, c) ∈ types → (∀ id, track_points d id ≠ []) →
  size (chunk_ids t rows) = Z.to_nat c.
Proof.
  intros Hgen Hnd Hin Hpts.
  assert (Heq : chunk_ids t rows
                = list_to_set (Some <$> (filter (λ f : string * string, f.2 = t)
                                           (plan_flights ymd types 1)).*1)).
  { apply set_eq. intros i.
    rewrite elem_of_chunk_ids, elem_of_list_to_set, list_elem_of_fmap. split.
    - intros (r & Hr & Hty & Hid).
      apply (elem_of_generate_daily_csv d ymd types rows r Hgen) in Hr
        as (id & t' & Hp & Hid' & Hty' & _).
      exists id. split; [congruence|]. apply list_elem_of_fmap. exists (id, t').
      split; [done|]. apply list_elem_of_filter. split; [|done].
      cbn [snd]. congruence.
    - intros (id & -> & ([id' t'] & -> & [Ht Hp]%list_elem_of_filter)%list_elem_of_fmap).
      cbn [fst snd] in *. subst t'.
      destruct (track_points d id') as [|p ps] eqn:E; [by destruct (Hpts id')|].
      exists (Row (Some id') (Some t) p). split; [|done].
      apply (elem_of_generate_daily_csv d ymd types rows _ Hgen).
      exists id', t. cbn [flight_id type telemetry]. rewrite E.
      repeat split; [done|set_solver]. }
  rewrite Heq, size_list_to_set.
  - by rewrite !length_fmap, (plan_flights_count ymd types t c).
  - apply (NoDup_fmap_2 _).
    eapply sublist_NoDup; [apply (plan_flights_NoDup ymd types 1)|].
    apply fmap_sublist, sublist_filter.
Qed.

(** X15.  [generate_test_dataset] plans [target_types_count] flights a day
    for each of the two target types and [other_types_count // 4] for each
    of the four other types: [4 * (other_types_count // 4)] other flights a
    day, which is [other_types_count] only when that is a multiple of
    four. *)
Theorem generated_flights_per_day (ymd : string) (c o : Z) (flight_counter : nat) :
  0 ≤ c → 0 ≤ o →
  Z.of_nat (length (plan_flights ymd (all_types c o) flight_counter))
  = 2 * c + 4 * (o / 4)
  ∧ 4 * (o / 4) = o - o mod 4
  ∧ (4 * (o / 4) = o ↔ o mod 4 = 0).
Proof.
  intros Hc Ho. split; [|split].
  - unfold all_types. cbn [plan_flights].
    rewrite !length_app, !length_fmap, !length_seq. cbn [length].
    assert (0 ≤ o / 4) by (apply Z.div_pos; lia). lia.
  - pose proof (Z.div_mod o 4 ltac:(lia)). lia.
  - pose proof (Z.div_mod o 4 ltac:(lia)). lia.
Qed.

Lemma string_app_same_length (s1 s2 a b : string) :
  String.length s1 = String.length s2 → s1 +:+ a = s2 +:+ b → s1 = s2 ∧ a = b.
Proof.
  revert s2. induction s1 as [|c1 s1 IH]; intros [|c2 s2] Hlen Heq; try done.
  rewrite !string_app_cons in Heq. injection Heq as -> Heq.
  destruct (IH s2) as [-> ->]; [by injection Hlen|done|done].
Qed.

Lemma Forall2_elem_of_r {A B} (P : A → B → Prop) l k y :
  Forall2 P l k → y ∈ k → ∃ x, x ∈ l ∧ P x y.
Proof.
  induction 1 as [|x y' l k Hxy _ IH]; [by intros ?%elem_of_nil|].
  intros [->|Hin]%elem_of_cons; [exists x; set_solver|].
  destruct (IH Hin) as (x' & Hx' & HP). exists x'. set_solver.
Qed.

Lemma generated_row_id d ymd types rows r :
  generate_daily_csv d ymd types = Some rows → r ∈ rows →
  ∃ k, flight_id r = Some (new_flight_id ymd k).
Proof.
  intros Hgen Hr.
  apply (elem_of_generate_daily_csv d ymd types rows r Hgen) in Hr
    as (id & t & Hin & Hid & _).
  assert (id ∈ (plan_flights ymd types 1).*1) as Hfst
    by (apply list_elem_of_fmap; by exists (id, t)).
  rewrite plan_flights_ids in Hfst.
  apply list_elem_of_fmap in Hfst as (k & -> & _). by exists k.
Qed.

(** X16.  [generate_test_dataset] returns one file for each day, and when
    the formatted dates of the days are pairwise different and of one length
    no flight identifier of the dataset occurs with two types, across days
    as within one: run on these files, however their rows are chunked, the
    pipeline returns rows of target types only. *)
Theorem generated_dataset_single_typed (d : Draws) (ymd_of_day : nat → string)
    (n_days c o : Z) (days : list (list row)) :
  generate_test_dataset d ymd_of_day n_days c o = Some days →
  (∀ i j, (i < Z.to_nat n_days)%nat → (j < Z.to_nat n_days)%nat →
     String.length (ymd_of_day i) = String.length (ymd_of_day j)
     ∧ (ymd_of_day i = ymd_of_day j → i = j)) →
  length days = Z.to_nat n_days
  ∧ single_typed (concat days)
  ∧ ∀ ord q files targets x,
      all_rows files = concat days →
      x ∈ (collect_flight_data files (find_target_flight_ids ord q files targets).1).1 →
      ∃ t, t ∈ targets ∧ type x = Some t.
Proof.
  unfold generate_test_dataset. intros Hgen Hymd.
  assert (Hlen : length days = Z.to_nat n_days).
  { apply length_mapM in Hgen. by rewrite length_seq in Hgen. }
  assert (Hsingle : single_typed (concat days)).
  { apply mapM_Some_1 in Hgen. intros r1 r2 Hr1 Hr2 Hid.
    apply elem_of_concat in Hr1 as (day1 & Hd1 & Hr1).
    apply elem_of_concat in Hr2 as (day2 & Hd2 & Hr2).
    destruct (Forall2_elem_of_r _ _ _ _ Hgen Hd1) as (i & Hi & Hgi).
    destruct (Forall2_elem_of_r _ _ _ _ Hgen Hd2) as (j & Hj & Hgj).
    apply elem_of_seq in Hi, Hj.
    destruct (generated_row_id _ _ _ _ _ Hgi Hr1) as [k1 Hk1].
    destruct (generated_row_id _ _ _ _ _ Hgj Hr2) as [k2 Hk2].
    pose proof Hid as Hsame_id.
    rewrite Hk1, Hk2 in Hid. apply (inj Some) in Hid. unfold new_flight_id in Hid.
    apply (inj (String.app "FL")) in Hid.
    destruct (Hymd i j ltac:(lia) ltac:(lia)) as [Hl Hinj].
    apply (string_app_same_length _ _ _ _ Hl) in Hid as [Hsame _].
    apply Hinj in Hsame. subst j.
    rewrite Hgi in Hgj. injection Hgj as <-.
    by apply (generate_daily_csv_single_typed _ _ _ _ Hgi r1 r2). }
  split; [done|]. split; [done|].
  intros ord q files targets x Hrows Hx.
  eapply single_typed_row_type; [|done]. by rewrite Hrows.
Qed.

(** ** The analysis of the examples *)

Lemma elem_of_unique (l : list cell) x : x ∈ unique l ↔ x ∈ l.
Proof.
  induction l as [|c l IH]; [done|]. cbn [unique].
  rewrite !elem_of_cons, list_elem_of_filter, IH.
  destruct (decide (x = c)); naive_solver.
Qed.

Lemma unique_NoDup (l : list cell) : NoDup (unique l).
Proof.
  induction l as [|c l IH]; [constructor|]. cbn [unique].
  apply NoDup_cons. split; [|by apply NoDup_filter].
  by intros [? _]%list_elem_of_filter.
Qed.

(** How many cells of a column are equal to a value. *)
Lemma sum_count_split (g : cell → nat) (k : cell) (u : list cell) :
  NoDup u →
  sum_list (g <$> u)
  = ((if decide (k ∈ u) then g k else 0) + sum_list (g <$> filter (λ x, x ≠ k) u))%nat.
Proof.
  induction 1 as [|x u Hx Hnd IH]; [done|].
  rewrite fmap_cons, filter_cons. cbn [sum_list_with id]. rewrite IH.
  destruct (decide (x = k)) as [->|Hne].
  - rewrite (decide_False (P := k ≠ k)) by (intros H; by apply H).
    rewrite (decide_True (P := k ∈ k :: u)) by set_solver.
    rewrite (decide_False (P := k ∈ u)) by done. lia.
  - rewrite (decide_True (P := x ≠ k)) by done. rewrite fmap_cons. cbn [sum_list_with id].
    destruct (decide (k ∈ u)).
    + rewrite (decide_True (P := k ∈ x :: u)) by set_solver. lia.
    + rewrite (decide_False (P := k ∈ x :: u)) by set_solver. lia.
Qed.

Lemma sum_counts_unique (l : list cell) :
  sum_list ((λ c, length (filter (λ x, x = c) l)) <$> unique l) = length l.
Proof.
  induction l as [|k l IH]; [done|].
  cbn [unique]. rewrite fmap_cons. cbn [sum_list_with id length].
  rewrite filter_cons_True by done. cbn [length].
  pose proof (sum_count_split (λ c, length (filter (λ x, x = c) l)) k (unique l)
                (unique_NoDup l)) as Hsplit.
  assert (Hk : (if decide (k ∈ unique l) then length (filter (λ x, x = k) l) else 0%nat)
               = length (filter (λ x, x = k) l)).
  { case_decide as Hin; [done|]. rewrite filter_none; [done|].
    apply Forall_forall. intros x Hx ->. by apply Hin, elem_of_unique. }
  assert (Hrest : (λ c, length (filter (λ x, x = c) (k :: l)))
                    <$> filter (λ x, x ≠ k) (unique l)
                  = (λ c, length (filter (λ x, x = c) l))
                    <$> filter (λ x, x ≠ k) (unique l)).
  { apply list_fmap_ext. intros i c Hc.
    apply list_elem_of_lookup_2, list_elem_of_filter in Hc as [Hc _].
    rewrite filter_cons_False; [done|]. by intros ->. }
  rewrite Hrest. cbv beta in Hsplit. rewrite Hk, IH in Hsplit. lia.
Qed.

Lemma cell_eq_true c v : cell_eq c v = true ↔ c = v ∧ v ≠ None.
Proof.
  destruct c as [a|], v as [b|]; simpl; try (split; [done|by intros [? ?]]).
  rewrite bool_decide_eq_true. split; [by intros ->|by intros [[= ->] _]].
Qed.

Lemma flight_data_length (result : list row) (v : cell) :
  v ≠ None →
  length (filter (λ r, cell_eq (flight_id r) v = true) result)
  = length (filter (λ x, x = v) (flight_id <$> result)).
Proof.
  intros Hv. induction result as [|r result IH]; [done|].
  rewrite fmap_cons, !filter_cons.
  destruct (decide (cell_eq (flight_id r) v = true)) as [He|He].
  - apply cell_eq_true in He as [He _]. rewrite decide_True by done.
    cbn [length]. by rewrite IH.
  - rewrite decide_False; [done|]. intros Heq. apply He, cell_eq_true. done.
Qed.

Lemma flight_line_Some result id line :
  flight_line result id = Some line →
  line.1.1 = id
  ∧ line.2 = length (filter (λ r, cell_eq (flight_id r) id = true) result)
  ∧ (1 ≤ line.2)%nat
  ∧ ∃ r, head (filter (λ r, cell_eq (flight_id r) id = true) result) = Some r
         ∧ line.1.2 = type r.
Proof.
  unfold flight_line. destruct (filter _ result) as [|r rs] eqn:E; [done|].
  intros [= <-]. cbn [fst snd length head]. repeat split; [lia|]. by exists r.
Qed.

Lemma flight_line_None result id :
  id ∈ flight_id <$> result → flight_line result id = None ↔ id = None.
Proof.
  intros (r & -> & Hr)%list_elem_of_fmap. unfold flight_line.
  destruct (filter _ result) as [|x xs] eqn:E.
  - split; [intros _|done].
    destruct (flight_id r) as [a|] eqn:Hid; [|done]. exfalso.
    assert (r ∈ filter (λ r', cell_eq (flight_id r') (Some a) = true) result) as Hin.
    { apply list_elem_of_filter. split; [|done]. apply cell_eq_true. by rewrite Hid. }
    rewrite E in Hin. set_solver.
  - split; [done|]. intros Hnone.
    assert (x ∈ filter (λ r', cell_eq (flight_id r') (flight_id r) = true) result) as Hin
      by (rewrite E; set_solver).
    apply list_elem_of_filter in Hin as [[_ Hne]%cell_eq_true _]. done.
Qed.

Lemma flight_lines_Some result ids lines :
  Forall2 (λ id line, flight_line result id = Some line) ids lines →
  lines.*1.*1 = ids
  ∧ Forall (λ id, flight_line result id ≠ None) ids
  ∧ lines.*2
    = (λ id, length (filter (λ r, cell_eq (flight_id r) id = true) result)) <$> ids
  ∧ Forall (λ line,
      (1 ≤ line.2)%nat
      ∧ ∃ r, head (filter (λ r, cell_eq (flight_id r) line.1.1 = true) result) = Some r
             ∧ line.1.2 = type r) lines.
Proof.
  induction 1 as [|id line ids lines Hline _ (IH1 & IH2 & IH3 & IH4)];
    [by repeat split|].
  pose proof (flight_line_Some _ _ _ Hline) as (Hid & Hn & Hpos & Hr).
  rewrite !fmap_cons, IH1, IH3, Hid, Hn. repeat split.
  - constructor; [congruence|done].
  - constructor; [|done]. rewrite Hid. split; [lia|done].
Qed.

(** X17.  The loop "Track Points per Flight" of [example_with_analysis]
    raises exactly when a row of the frame has a null [flight_id].
    Otherwise it prints one line for each distinct flight identifier, in the
    order of first appearance, with the type of the first row of the flight;
    every flight has at least one track point and the numbers of track
    points add up to the number of rows of the frame. *)
Theorem analysis_track_points (result : list row) :
  (track_points_per_flight result = None ↔ ∃ r, r ∈ result ∧ flight_id r = None)
  ∧ ∀ lines, track_points_per_flight result = Some lines →
      lines.*1.*1 = unique (flight_id <$> result)
      ∧ NoDup lines.*1.*1
      ∧ sum_list lines.*2 = length result
      ∧ Forall (λ line,
          (1 ≤ line.2)%nat
          ∧ ∃ r, head (filter (λ r, cell_eq (flight_id r) line.1.1 = true) result)
                   = Some r
                 ∧ line.1.2 = type r) lines.
Proof.
  unfold track_points_per_flight. split.
  - split.
    + intros (id & Hid & Hnone)%mapM_None_1%Exists_exists.
      apply (proj1 (elem_of_unique _ _)) in Hid.
      apply (flight_line_None result id Hid) in Hnone. subst id.
      apply list_elem_of_fmap in Hid as (r & Hr & Hin). by exists r.
    + intros (r & Hr & Hnone). apply mapM_None_2, Exists_exists.
      exists None. split.
      * apply (proj2 (elem_of_unique _ _)), list_elem_of_fmap. by exists r.
      * apply flight_line_None; [|done]. apply list_elem_of_fmap. by exists r.
  - intros lines Hlines. apply mapM_Some_1, flight_lines_Some in Hlines
      as (Hids & Hsome & Hcounts & Hfirst).
    assert (Hnn : Forall (λ id, id ≠ None) (unique (flight_id <$> result))).
    { apply Forall_forall. intros id Hid ->.
      rewrite Forall_forall in Hsome. apply (Hsome None Hid).
      apply flight_line_None; [by apply (proj1 (elem_of_unique _ _))|done]. }
    split; [done|]. split; [rewrite Hids; apply unique_NoDup|]. split; [|done].
    rewrite Hcounts, <- (length_fmap flight_id result), <- sum_counts_unique.
    f_equal. apply Forall_fmap_ext. eapply Forall_impl; [exact Hnn|].
    intros id Hid. by apply flight_data_length.
Qed.

(** ** More on pass 1 *)

Lemma py_slice_to_length_neg {A} (l : list A) n :
  n < 0 → length (py_slice_to l n) = Z.to_nat (Z.of_nat (length l) + n).
Proof.
  intros Hn. unfold py_slice_to.
  rewrite (proj2 (Z.leb_gt 0 n)) by done. rewrite length_take. lia.
Qed.

(** X18.  A negative quota is not refused: the first chunk that has rows of
    a needed type closes the type, and [list(...)[:quota]] keeps of the
    identifiers gathered so far all but [-quota] (none when there are no
    more than that). *)
Theorem negative_quota_step (ord : SetOrder) (q : Z) (st : scan_state)
    (c : chunk) (t : string) :
  q < 0 → t ∈ types_needed st → chunk_ids t c ≠ ∅ →
  (t ∉ types_needed (scan_chunk ord q st c))
  ∧ size (found_flights (scan_chunk ord q st c) !!! t)
    = Z.to_nat (Z.of_nat (size (found_flights st !!! t ∪ chunk_ids t c)) + q)
  ∧ found_flights (scan_chunk ord q st c) !!! t
    ⊆ found_flights st !!! t ∪ chunk_ids t c.
Proof.
  intros Hq Ht Hrows.
  pose proof (scan_chunk_view ord q st c t) as Hv.
  unfold chunk_step, view_of in Hv. cbn [fst snd] in Hv.
  rewrite (bool_decide_eq_true_2 _ Ht) in Hv. unfold type_step in Hv.
  destruct (filter _ c) as [|r rs] eqn:E; [by apply chunk_ids_no_rows in E|].
  cbn [fst] in Hv. rewrite (proj2 (Z.leb_le _ _)) in Hv by lia.
  injection Hv as Hfound Hneeded.
  rewrite !lookup_total_default, Hfound. cbn [default from_option id].
  split; [by apply bool_decide_eq_false in Hneeded|]. split.
  - rewrite size_list_to_set by (apply py_slice_to_NoDup, iter_ids_NoDup).
    by rewrite py_slice_to_length_neg, iter_ids_length.
  - apply truncated_subseteq.
Qed.

(** X19.  As long as a type is on the needed list nothing seen of it is
    lost: at a chunk boundary the set of a needed type is the set of all
    its identifiers in the chunks read so far.  A needed type is a target
    type, and it was needed at every earlier boundary: no type is put back
    on the list. *)
Theorem needed_type_keeps_all (ord : SetOrder) (q : Z) (files : list csv_file)
    (targets : list string) (n m : nat) (t : string) :
  0 ≤ q → (m ≤ n)%nat →
  t ∈ types_needed (boundary ord q files targets n) →
  t ∈ targets
  ∧ found_flights (boundary ord q files targets n) !!! t
    = chunk_ids t (concat (take n (all_chunks files)))
  ∧ t ∈ types_needed (boundary ord q files targets m).
Proof.
  intros Hq Hmn Hin.
  assert (Ht : t ∈ targets).
  { destruct (decide (t ∈ targets)) as [|Hn]; [done|]. exfalso.
    pose proof (untargeted_after ord q targets (take n (all_chunks files)) t Hn) as Hv.
    unfold boundary in Hin. inversion Hv as [[Hnone Hb]].
    by apply bool_decide_eq_false in Hb. }
  split; [done|]. split.
  - rewrite found_total_view. unfold boundary in *.
    pose proof (exact_after ord q targets (take n (all_chunks files)) t Hq Ht) as He.
    unfold exact, view_of in *. cbn [fst snd] in *.
    rewrite (bool_decide_eq_true_2 _ Hin) in He.
    by destruct He as [[-> ->]|(-> & _)].
  - destruct (decide (t ∈ types_needed (boundary ord q files targets m)))
      as [|Hout]; [done|]. exfalso.
    rewrite (boundary_split ord q files targets m n Hmn) in Hin.
    apply (bool_decide_eq_true_2 _) in Hin.
    change (bool_decide _) with
      (view_of (foldl (scan_chunk ord q) (boundary ord q files targets m)
                  (drop m (take n (all_chunks files)))) t).2 in Hin.
    rewrite foldl_scan_chunk_view in Hin. unfold view_of in Hin at 1.
    rewrite (bool_decide_eq_false_2 _ Hout), chunk_step_done in Hin. done.
Qed.

(** ** The further properties at sample inputs *)

(** X2 on the three days: fifteen flights of type A under a quota of
    twenty. *)
Lemma short_type_forces_full_scan_witness :
  ("A"%string ∈ ["A"%string] ∧ Z.of_nat (size (available "A" three_days)) < 20)
  ∧ opened (find_target_flight_ids forward 20 three_days ["A"%string]).2
    = path <$> three_days.
Proof.
  split; [split; compute_done|].
  apply (short_type_forces_full_scan forward 20 three_days ["A"%string] "A"%string);
    compute_done.
Defined.

(** X4: the three days read as one file of one chunk. *)
Lemma collect_ignores_chunking_witness :
  all_rows three_days = all_rows [three_days_one_chunk]
  ∧ (collect_flight_data three_days {[ "A"%string := {[ Some "FL020001"%string ]} ]}).1
    = (collect_flight_data [three_days_one_chunk]
         {[ "A"%string := {[ Some "FL020001"%string ]} ]}).1.
Proof.
  split; [compute_done|].
  apply (collect_ignores_chunking three_days [three_days_one_chunk]). compute_done.
Defined.

(** X5 with a map of one identifier, and with a map of one empty set. *)
Lemma collect_reads_witness :
  opened (collect_flight_data three_days
            {[ "A"%string := {[ Some "FL020001"%string ]} ]}).2
  = path <$> three_days
  ∧ collect_flight_data three_days {[ "A"%string := ∅ ]} = ([], []).
Proof.
  split.
  - apply (proj2 (collect_reads three_days
                    {[ "A"%string := {[ Some "FL020001"%string ]} ]})).
    exists "A"%string, {[ Some "FL020001"%string ]}, (Some "FL020001"%string).
    split; compute_done.
  - apply (proj1 (collect_reads three_days {[ "A"%string := ∅ ]})).
    intros t s [_ <-]%lookup_singleton_Some. done.
Defined.

(** X6 on a frame with null cells in both columns: the two rows without
    type are at the end, and among the rows of type A the two without
    identifier come after the one that has it. *)
Lemma nulls_sorted_last_witness :
  let frame :=
    (collect_flight_data [null_cells_file]
       {[ "A"%string := {[ Some "FL0001"%string; None ]} ]}).1 in
  (frame = [track "FL0001" "A" "p1"; anonymous_row "p4"; anonymous_row "p5"]
           ++ untyped_row :: [] ++ untyped_row2 :: []
   ∧ type untyped_row = None)
  ∧ type untyped_row2 = None
  ∧ (frame = [track "FL0001" "A" "p1"]
             ++ anonymous_row "p4" :: [] ++ anonymous_row "p5" :: [untyped_row; untyped_row2]
     ∧ type (anonymous_row "p4") = type (anonymous_row "p5")
     ∧ flight_id (anonymous_row "p4") = None)
  ∧ flight_id (anonymous_row "p5") = None.
Proof.
  cbv zeta.
  assert (H1 : (collect_flight_data [null_cells_file]
                  {[ "A"%string := {[ Some "FL0001"%string; None ]} ]}).1
               = [track "FL0001" "A" "p1"; anonymous_row "p4"; anonymous_row "p5"]
                 ++ untyped_row :: [] ++ untyped_row2 :: []) by compute_done.
  assert (H2 : (collect_flight_data [null_cells_file]
                  {[ "A"%string := {[ Some "FL0001"%string; None ]} ]}).1
               = [track "FL0001" "A" "p1"]
                 ++ anonymous_row "p4" :: []
                 ++ anonymous_row "p5" :: [untyped_row; untyped_row2]) by compute_done.
  split; [split; [exact H1|reflexivity]|].
  split; [exact (proj1 (nulls_sorted_last _ _ _ _ _ _ _ H1) eq_refl)|].
  split; [split; [exact H2|split; reflexivity]|].
  exact (proj2 (nulls_sorted_last _ _ _ _ _ _ _ H2) eq_refl eq_refl).
Defined.

(** X7 on the three days. *)
Lemma pipeline_nonempty_witness :
  0 < 2
  ∧ (sample_frame ≠ [] ↔ ∃ t, t ∈ ["A"%string] ∧ available t three_days ≠ ∅).
Proof.
  split; [compute_done|].
  exact (proj1 (pipeline_nonempty forward 2 three_days ["A"%string]
                  "filtered_flights.csv" ltac:(compute_done))).
Defined.

(** X9 on the three days: two flights, four track points. *)
Lemma summary_counts_witness :
  ("A"%string, 2%nat, 4%nat) ∈ summary_by_type ["A"%string] sample_frame
  ∧ (size ((find_target_flight_ids forward 2 three_days ["A"%string]).1 !!! "A"%string
             ∖ {[ None ]}) ≤ 2)%nat.
Proof.
  assert (H : ("A"%string, 2%nat, 4%nat) ∈ summary_by_type ["A"%string] sample_frame)
    by compute_done.
  split; [exact H|].
  exact (proj1 (proj2 (summary_counts forward 2 three_days ["A"%string]
                         "filtered_flights.csv" "A"%string 2 4 H))).
Defined.

Lemma single_typed_Forall (rows : list row) :
  Forall (λ r1, Forall (λ r2, flight_id r1 = flight_id r2 → type r1 = type r2) rows) rows
  → single_typed rows.
Proof.
  intros H r1 r2 H1 H2. rewrite Forall_forall in H. specialize (H r1 H1).
  rewrite Forall_forall in H. by apply H.
Qed.

(** X10 on the three days. *)
Lemma single_typed_result_witness :
  (0 ≤ 2 ∧ single_typed (all_rows three_days))
  ∧ ∀ x, x ∈ sample_frame → ∃ t, t ∈ ["A"%string] ∧ type x = Some t.
Proof.
  assert (Hs : single_typed (all_rows three_days))
    by (apply single_typed_Forall; compute_done).
  split; [split; [compute_done|exact Hs]|].
  exact (proj1 (single_typed_result forward 2 three_days ["A"%string]
                  "filtered_flights.csv" ltac:(compute_done) Hs)).
Defined.

(** X12 and X14 on a generated day: one flight of each target type, one of
    each other type. *)
Lemma generated_day_single_typed_witness :
  generate_daily_csv sample_draws "20240101" (all_types 1 4) = Some sample_day
  ∧ single_typed sample_day.
Proof.
  assert (H : generate_daily_csv sample_draws "20240101" (all_types 1 4)
              = Some sample_day) by compute_done.
  split; [exact H|].
  exact (proj1 (generated_day_single_typed sample_draws "20240101" (all_types 1 4)
                  sample_day H)).
Defined.

Lemma generated_day_flights_witness :
  (generate_daily_csv sample_draws "20240101" (all_types 1 4) = Some sample_day
   ∧ NoDup (all_types 1 4).*1
   ∧ ("Type3"%string, 1) ∈ all_types 1 4)
  ∧ size (chunk_ids "Type3" sample_day) = 1%nat.
Proof.
  assert (H : generate_daily_csv sample_draws "20240101" (all_types 1 4)
              = Some sample_day) by compute_done.
  assert (Hnd : NoDup (all_types 1 4).*1) by compute_done.
  assert (Hin : ("Type3"%string, 1) ∈ all_types 1 4) by compute_done.
  split; [done|].
  apply (generated_day_flights sample_draws "20240101" (all_types 1 4) sample_day
           "Type3"%string 1 H Hnd Hin).
  intros id. done.
Defined.

(** X13: with no target flight and three other flights asked for, every
    count of the dict is zero and the day raises. *)
Lemma generated_day_raises_witness :
  Forall (λ tc : string * Z, tc.2 ≤ 0) (all_types 0 3)
  ∧ generate_daily_csv sample_draws "20240101" (all_types 0 3) = None.
Proof.
  assert (H : Forall (λ tc : string * Z, tc.2 ≤ 0) (all_types 0 3)) by compute_done.
  split; [exact H|].
  exact (proj2 (generated_day_raises sample_draws "20240101" (all_types 0 3)) H).
Defined.

(** X15 with the counts of [generate_small_test]: eight other flights for
    the ten asked for. *)
Lemma generated_flights_per_day_witness :
  (0 ≤ 5 ∧ 0 ≤ 10)
  ∧ Z.of_nat (length (plan_flights "20240101" (all_types 5 10) 1)) = 2 * 5 + 4 * (10 / 4).
Proof.
  split; [split; compute_done|].
  exact (proj1 (generated_flights_per_day "20240101" 5 10 1
                  ltac:(compute_done) ltac:(compute_done))).
Defined.

(** X16 on a dataset of two days. *)
Lemma generated_dataset_single_typed_witness :
  generate_test_dataset sample_draws sample_ymd 2 1 4 = Some sample_dataset
  ∧ length sample_dataset = 2%nat
  ∧ single_typed (concat sample_dataset).
Proof.
  assert (H : generate_test_dataset sample_draws sample_ymd 2 1 4 = Some sample_dataset)
    by compute_done.
  split; [exact H|].
  assert (Hymd : ∀ i j, (i < Z.to_nat 2)%nat → (j < Z.to_nat 2)%nat →
            String.length (sample_ymd i) = String.length (sample_ymd j)
            ∧ (sample_ymd i = sample_ymd j → i = j)).
  { intros [|[|i]] [|[|j]] Hi Hj; try (exfalso; revert Hi Hj; simpl; lia);
      (split; [done|]); simpl; intros Heq; done. }
  destruct (generated_dataset_single_typed sample_draws sample_ymd 2 1 4
              sample_dataset H Hymd) as (Hlen & Hs & _).
  split; [exact Hlen|exact Hs].
Defined.

(** X17 on the frame of the three days: two flights of two track points. *)
Lemma analysis_track_points_witness :
  track_points_per_flight sample_frame
  = Some [(Some "FL010003"%string, Some "A"%string, 2%nat);
          (Some "FL010005"%string, Some "A"%string, 2%nat)]
  ∧ sum_list [2%nat; 2%nat] = length sample_frame.
Proof.
  assert (H : track_points_per_flight sample_frame
              = Some [(Some "FL010003"%string, Some "A"%string, 2%nat);
                      (Some "FL010005"%string, Some "A"%string, 2%nat)])
    by compute_done.
  split; [exact H|].
  exact (proj1 (proj2 (proj2 (proj2 (analysis_track_points sample_frame) _ H)))).
Defined.

(** X18 with a quota of minus one and two flights in the chunk: one is
    kept. *)
Lemma negative_quota_step_witness :
  (-1 < 0
   ∧ "A"%string ∈ types_needed (initial_state ["A"%string])
   ∧ chunk_ids "A" (flight "FL0001" "A" ++ flight "FL0002" "A") ≠ ∅)
  ∧ size (found_flights
            (scan_chunk forward (-1) (initial_state ["A"%string])
               (flight "FL0001" "A" ++ flight "FL0002" "A")) !!! "A"%string)
    = 1%nat.
Proof.
  split; [repeat split; compute_done|].
  etrans; [exact (proj1 (proj2 (negative_quota_step forward (-1)
                     (initial_state ["A"%string])
                     (flight "FL0001" "A" ++ flight "FL0002" "A") "A"%string
                     ltac:(compute_done) ltac:(compute_done) ltac:(compute_done))))|].
  compute_done.
Defined.

(** X19 on the three days under a quota of twenty, after two chunks. *)
Lemma needed_type_keeps_all_witness :
  (0 ≤ 20 ∧ (1 ≤ 2)%nat
   ∧ "A"%string ∈ types_needed (boundary forward 20 three_days ["A"%string] 2))
  ∧ found_flights (boundary forward 20 three_days ["A"%string] 2) !!! "A"%string
    = chunk_ids "A" (concat (take 2 (all_chunks three_days))).
Proof.
  split; [repeat split; compute_done|].
  exact (proj1 (proj2 (needed_type_keeps_all forward 20 three_days ["A"%string] 2 1
                         "A"%string ltac:(compute_done) ltac:(compute_done)
                         ltac:(compute_done)))).
Defined.

(** ** Files with other headers *)

Lemma blank_full h r : full h = true → blank h r = r.
Proof. unfold full, blank. intros [-> ->]%andb_true_iff. by destruct r. Qed.

Lemma delivered_full tb : full (columns tb) = true → delivered tb = chunks (source tb).
Proof.
  intros Hf. unfold delivered.
  rewrite <- (list_fmap_id (chunks (source tb))) at 2.
  apply list_fmap_ext. intros _ c _. simpl.
  rewrite <- (list_fmap_id c) at 2.
  apply list_fmap_ext. intros _ r _. by apply blank_full.
Qed.

Lemma filter_nil_existsb {A} (f : A → bool) (l : list A) :
  filter (λ x, f x = true) l = [] ↔ existsb f l = false.
Proof.
  induction l as [|x l IH]; [done|].
  rewrite filter_cons. cbn [existsb]. case_decide as Hx.
  - rewrite Hx. done.
  - destruct (f x); [done|exact IH].
Qed.

Lemma existsb_elem_of {A} (f : A → bool) (l : list A) :
  existsb f l = true ↔ ∃ x, x ∈ l ∧ f x = true.
Proof.
  rewrite existsb_exists. split; intros (x & Hx & Hf); exists x; split; try done;
    by apply list_elem_of_In.
Qed.

Section header_discovery.
Context (ord : SetOrder) (q : Z).

Lemma scan_type_h_full h fc st t :
  has_flight_id h = true →
  scan_type_h ord q h fc st t = (scan_type ord q fc st t, None).
Proof.
  intros Hh. unfold scan_type_h, scan_type. rewrite Hh.
  by destruct (filter _ fc).
Qed.

Lemma scan_types_h_full h fc ts : ∀ st,
  has_flight_id h = true →
  scan_types_h ord q h fc st ts = (foldl (scan_type ord q fc) st ts, None).
Proof.
  induction ts as [|t ts IH]; intros st Hh; [done|].
  cbn [scan_types_h foldl]. rewrite scan_type_h_full by done. by apply IH.
Qed.

Lemma scan_chunk_h_full h st c :
  full h = true → scan_chunk_h ord q h st c = (scan_chunk ord q st c, None).
Proof.
  unfold full. intros [Ht Hi]%andb_true_iff.
  unfold scan_chunk_h, scan_chunk. rewrite Ht.
  destruct (filter _ c) as [|r fc]; [done|]. by apply scan_types_h_full.
Qed.

Lemma scan_chunks_h_full h cs : ∀ st,
  full h = true →
  scan_chunks_h ord q h st cs = (foldl (scan_chunk ord q) st cs, None).
Proof.
  induction cs as [|c cs IH]; intros st Hf; [done|].
  cbn [scan_chunks_h foldl]. rewrite scan_chunk_h_full by done. by apply IH.
Qed.

Lemma scan_types_h_no_id h fc st ts :
  has_flight_id h = false →
  scan_types_h ord q h fc st ts
  = (st, if existsb (λ t, existsb (λ r, cell_is (type r) t) fc) ts
         then Some key_error_flight_id else None).
Proof.
  intros Hh. induction ts as [|t ts IH]; [done|].
  cbn [scan_types_h existsb]. unfold scan_type_h at 1. rewrite Hh.
  destruct (filter (λ r, cell_is (type r) t = true) fc) as [|r rs] eqn:E.
  - apply filter_nil_existsb in E. rewrite E. exact IH.
  - destruct (existsb (λ r, cell_is (type r) t) fc) eqn:E2; [done|].
    apply filter_nil_existsb in E2. by rewrite E2 in E.
Qed.

Lemma scan_chunk_h_no_id h st c :
  has_type h = true → has_flight_id h = false →
  scan_chunk_h ord q h st c
  = (st, if existsb (λ r, isin_types (type r) (types_needed st)) c
         then Some key_error_flight_id else None).
Proof.
  intros Ht Hi. unfold scan_chunk_h. rewrite Ht.
  destruct (filter _ c) as [|r fc] eqn:E.
  - apply filter_nil_existsb in E. by rewrite E.
  - rewrite scan_types_h_no_id by done.
    assert (Hr : r ∈ filter (λ r, isin_types (type r) (types_needed st) = true) c)
      by (rewrite E; left).
    apply list_elem_of_filter in Hr as [Hm Hr].
    rewrite (proj2 (existsb_elem_of _ c)) by (by exists r).
    rewrite (proj2 (existsb_elem_of _ (iter_types ord (types_needed st)))); [done|].
    unfold isin_types in Hm. destruct (type r) as [t|] eqn:Et; [|done].
    apply bool_decide_eq_true in Hm. exists t. split.
    + rewrite iter_types_perm. by apply elem_of_elements.
    + apply existsb_elem_of. exists r. split; [left|].
      unfold cell_is. by rewrite Et, bool_decide_eq_true.
Qed.

Lemma scan_chunks_h_no_id h st cs :
  has_type h = true → has_flight_id h = false →
  scan_chunks_h ord q h st cs
  = (st, if mentions (types_needed st) cs then Some key_error_flight_id else None).
Proof.
  intros Ht Hi. induction cs as [|c cs IH]; [done|].
  cbn [scan_chunks_h]. rewrite scan_chunk_h_no_id by done.
  unfold mentions. cbn [existsb]. destruct (existsb _ c); [done|exact IH].
Qed.

Lemma scan_chunks_h_no_type h st cs :
  has_type h = false →
  scan_chunks_h ord q h st cs
  = (st, match cs with [] => None | _ :: _ => Some key_error_type end).
Proof.
  intros Ht. destruct cs as [|c cs]; [done|].
  cbn [scan_chunks_h]. unfold scan_chunk_h. by rewrite Ht.
Qed.

Lemma scan_table_state st tb :
  (scan_table ord q st tb).1 = foldl (scan_chunk ord q) st (chunks (seen_by_pass1 tb)).
Proof.
  unfold scan_table, seen_by_pass1, full. cbn [chunks].
  destruct (has_type (columns tb)) eqn:Ht.
  - destruct (has_flight_id (columns tb)) eqn:Hi.
    + rewrite scan_chunks_h_full by (unfold full; by rewrite Ht, Hi). done.
    + by rewrite scan_chunks_h_no_id.
  - by rewrite scan_chunks_h_no_type.
Qed.

Lemma scan_tables_state tables : ∀ st,
  (scan_tables ord q st tables).1
  = foldl (scan_chunk ord q) st (all_chunks (seen_by_pass1 <$> tables)).
Proof.
  induction tables as [|tb tables IH]; intros st; [done|].
  rewrite fmap_cons. unfold all_chunks. rewrite bind_cons.
  fold (all_chunks (seen_by_pass1 <$> tables)).
  rewrite foldl_app. cbn [scan_tables].
  destruct (decide (types_needed st = ∅)) as [He|Hne].
  - cbn [fst]. rewrite (scan_chunks_exhausted ord q st (chunks _)) by done.
    by rewrite scan_chunks_exhausted.
  - rewrite <- scan_table_state.
    destruct (scan_table ord q st tb) as [st1 log1]. cbn [fst].
    specialize (IH st1).
    destruct (scan_tables ord q st1 tables) as [st2 log2]. done.
Qed.

Lemma find_target_flight_ids_h_unfold tables targets :
  find_target_flight_ids_h ord q tables targets
  = (found_flights (scan_tables ord q (initial_state targets) tables).1,
     (scan_tables ord q (initial_state targets) tables).2).
Proof. unfold find_target_flight_ids_h. by destruct (scan_tables _ _ _ tables). Qed.

Lemma find_target_flight_ids_h_found tables targets :
  (find_target_flight_ids_h ord q tables targets).1
  = (find_target_flight_ids ord q (seen_by_pass1 <$> tables) targets).1.
Proof.
  rewrite find_target_flight_ids_found, find_target_flight_ids_h_unfold.
  cbn [fst]. by rewrite scan_tables_state.
Qed.

Lemma scan_chunks_untyped cs : ∀ st,
  foldl (scan_chunk ord q) st (filter (λ r, type r ≠ None) <$> cs)
  = foldl (scan_chunk ord q) st cs.
Proof.
  induction cs as [|c cs IH]; intros st; [done|].
  rewrite fmap_cons. cbn [foldl]. by rewrite <- scan_chunk_untyped, IH.
Qed.

Lemma seen_by_pass1_untyped tables :
  all_chunks (seen_by_pass1 <$> (without_untyped_rows <$> tables))
  = filter (λ r, type r ≠ None) <$> all_chunks (seen_by_pass1 <$> tables).
Proof.
  unfold all_chunks. induction tables as [|tb tables IH]; [done|].
  rewrite !fmap_cons, !bind_cons, fmap_app, IH. f_equal.
  unfold seen_by_pass1, without_untyped_rows. cbn [chunks columns source].
  destruct (full (columns tb)) eqn:Hf; [|done].
  rewrite !delivered_full by done. done.
Qed.

Lemma scan_tables_exhausted st tables :
  types_needed st = ∅ → scan_tables ord q st tables = (st, []).
Proof. intros He. destruct tables; simpl; [done|]. by case_decide. Qed.

Lemma scan_tables_app pre : ∀ st post,
  scan_tables ord q st (pre ++ post)
  = let '(st1, l1) := scan_tables ord q st pre in
    let '(st2, l2) := scan_tables ord q st1 post in
    (st2, l1 ++ l2).
Proof.
  induction pre as [|tb pre IH]; intros st post.
  - simpl. by destruct (scan_tables ord q st post).
  - cbn [app scan_tables]. case_decide as He.
    + by rewrite scan_tables_exhausted.
    + destruct (scan_table ord q st tb) as [st1 l1]. rewrite IH.
      destruct (scan_tables ord q st1 pre) as [st2 l2].
      destruct (scan_tables ord q st2 post) as [st3 l3].
      by rewrite (assoc_L (++)).
Qed.

(** The log of pass 1 around a table that raises. *)
Lemma scan_tables_raising pre tb post targets e :
  let before := (scan_tables ord q (initial_state targets) pre).1 in
  types_needed before ≠ ∅ →
  scan_chunks_h ord q (columns tb) before (delivered tb) = (before, Some e) →
  (find_target_flight_ids_h ord q (pre ++ tb :: post) targets).2
  = (find_target_flight_ids_h ord q pre targets).2
    ++ [Reading (path (source tb)); ErrorReading (path (source tb)) e]
    ++ (scan_tables ord q before post).2.
Proof.
  cbv zeta. intros Hne Hr. rewrite !find_target_flight_ids_h_unfold. cbn [snd].
  rewrite scan_tables_app.
  destruct (scan_tables ord q (initial_state targets) pre) as [st1 l1].
  cbn [fst snd scan_tables] in *. rewrite decide_False by done.
  unfold scan_table. rewrite Hr.
  by destruct (scan_tables ord q st1 post) as [st2 l2].
Qed.
End header_discovery.

(** Pass 2 on tables. *)
Lemma collect_chunk_app ids acc c :
  collect_chunk ids acc c = acc ++ collect_chunk ids [] c.
Proof. unfold collect_chunk. destruct (filter _ c); [by rewrite app_nil_r|done]. Qed.

Lemma foldl_collect_chunk_app ids cs : ∀ acc,
  foldl (collect_chunk ids) acc cs = acc ++ foldl (collect_chunk ids) [] cs.
Proof.
  induction cs as [|c cs IH]; intros acc; cbn [foldl]; [by rewrite app_nil_r|].
  rewrite IH, (IH (collect_chunk ids [] c)), (collect_chunk_app ids acc).
  by rewrite (assoc_L (++)).
Qed.

Lemma elem_of_foldl_collect_chunk ids cs c : ∀ acc,
  c ∈ cs → filter (λ r, isin_ids (flight_id r) ids = true) c ≠ [] →
  filter (λ r, isin_ids (flight_id r) ids = true) c ∈ foldl (collect_chunk ids) acc cs.
Proof.
  induction cs as [|c' cs IH]; intros acc Hc Hne; [by apply elem_of_nil in Hc|].
  cbn [foldl]. apply elem_of_cons in Hc as [<-|Hc]; [|by apply IH].
  rewrite foldl_collect_chunk_app. apply elem_of_app. left.
  unfold collect_chunk. destruct (filter _ c) as [|r rs]; [done|].
  apply elem_of_app. right. left.
Qed.

Lemma collect_chunks_h_id h ids cs : ∀ acc,
  has_flight_id h = true →
  collect_chunks_h h ids acc cs
  = (acc ++ (pair (has_type h) <$> foldl (collect_chunk ids) [] cs), None).
Proof.
  induction cs as [|c cs IH]; intros acc Hh; cbn [collect_chunks_h foldl].
  - by rewrite app_nil_r.
  - unfold collect_chunk_h at 1. rewrite Hh, IH by done.
    rewrite (foldl_collect_chunk_app ids cs (collect_chunk ids [] c)), fmap_app.
    rewrite (assoc_L (++)). do 2 f_equal.
    unfold collect_chunk. destruct (filter _ c); [by rewrite app_nil_r|done].
Qed.

Lemma collect_chunks_h_no_id h ids acc cs :
  has_flight_id h = false →
  collect_chunks_h h ids acc cs
  = (acc, match cs with [] => None | _ :: _ => Some key_error_flight_id end).
Proof.
  intros Hh. destruct cs as [|c cs]; [done|].
  cbn [collect_chunks_h]. unfold collect_chunk_h. by rewrite Hh.
Qed.

Lemma collect_table_eq ids acc tb :
  collect_table ids acc tb = (acc ++ batches_of ids tb, pass2_log tb).
Proof.
  unfold collect_table, batches_of, pass2_log, seen_by_pass2. cbn [chunks].
  destruct (has_flight_id (columns tb)) eqn:Hh.
  - by rewrite collect_chunks_h_id.
  - rewrite collect_chunks_h_no_id by done. rewrite app_nil_r.
    unfold delivered. by destruct (chunks (source tb)).
Qed.

Lemma collect_tables_eq ids tables : ∀ acc,
  collect_tables ids acc tables
  = (acc ++ tables ≫= batches_of ids, tables ≫= pass2_log).
Proof.
  induction tables as [|tb tables IH]; intros acc; cbn [collect_tables].
  - by rewrite app_nil_r.
  - rewrite collect_table_eq, IH, !bind_cons. by rewrite (assoc_L (++)).
Qed.

Lemma fmap_snd_pair {A B} (a : A) (l : list B) : (pair a <$> l).*2 = l.
Proof. induction l as [|x l IH]; [done|]. rewrite !fmap_cons. by rewrite IH. Qed.

Lemma concat_batches ids tables :
  concat ((tables ≫= batches_of ids).*2)
  = filter (λ r, isin_ids (flight_id r) ids = true) (all_rows (seen_by_pass2 <$> tables)).
Proof.
  unfold all_rows. induction tables as [|tb tables IH]; [done|].
  rewrite fmap_cons, !bind_cons, fmap_app, concat_app, filter_app, IH. f_equal.
  unfold batches_of, rows_of. by rewrite fmap_snd_pair, concat_collect_chunks.
Qed.

Lemma collect_flight_data_h_log tables m :
  all_target_ids m ≠ ∅ → (collect_flight_data_h tables m).2 = tables ≫= pass2_log.
Proof.
  intros Hne. unfold collect_flight_data_h. rewrite decide_False by done.
  rewrite collect_tables_eq. cbn [app].
  destruct (tables ≫= batches_of _) as [|b bs]; [done|].
  by destruct (existsb fst (b :: bs)).
Qed.

(** When [collect_flight_data] returns, it returns what it returns on the
    tables that have the column [flight_id]. *)
Lemma collect_flight_data_h_result tables m rows :
  (collect_flight_data_h tables m).1 = Some rows →
  rows = (collect_flight_data (seen_by_pass2 <$> tables) m).1.
Proof.
  rewrite collect_flight_data_result, concat_collected_batches.
  unfold collect_flight_data_h. case_decide as He.
  - intros [= <-]. by rewrite He, filter_no_ids.
  - rewrite collect_tables_eq. cbn [app]. rewrite <- concat_batches.
    destruct (tables ≫= batches_of _) as [|b bs]; [by intros [= <-]|].
    destruct (existsb fst (b :: bs)); [by intros [= <-]|done].
Qed.

(** A batch of a table with both columns makes [sort_values] return. *)
Lemma collect_flight_data_h_returns tables m tb c r :
  tb ∈ tables → full (columns tb) = true → c ∈ delivered tb → r ∈ c →
  flight_id r ∈ all_target_ids m →
  is_Some (collect_flight_data_h tables m).1.
Proof.
  intros Htb [Ht Hi]%andb_true_iff Hc Hr Hid.
  unfold collect_flight_data_h. case_decide as He; [by eexists|].
  rewrite collect_tables_eq. cbn [app].
  destruct (tables ≫= batches_of _) as [|b bs] eqn:E; [by eexists|].
  rewrite (proj2 (existsb_elem_of fst (b :: bs))); [by eexists|].
  exists (true, filter (λ r, isin_ids (flight_id r) (all_target_ids m) = true) c).
  split; [|done]. rewrite <- E. apply list_elem_of_bind. exists tb. split; [|done].
  unfold batches_of, seen_by_pass2. cbn [chunks]. rewrite Ht, Hi.
  apply list_elem_of_fmap. eexists. split; [done|].
  apply elem_of_foldl_collect_chunk; [done|].
  intros Hnil.
  assert (Hin : r ∈ filter (λ r, isin_ids (flight_id r) (all_target_ids m) = true) c).
  { apply list_elem_of_filter. split; [|done]. unfold isin_ids.
    by apply bool_decide_eq_true. }
  rewrite Hnil in Hin. by apply elem_of_nil in Hin.
Qed.

(** The identifiers pass 1 discovers are in rows pass 2 collects with their
    [type] column: on the map of pass 1, pass 2 returns. *)
Lemma pipeline_returns ord q tables targets :
  is_Some (collect_flight_data_h tables
             (find_target_flight_ids_h ord q tables targets).1).1.
Proof.
  destruct (decide (all_target_ids (find_target_flight_ids_h ord q tables targets).1 = ∅))
    as [He|Hne].
  - unfold collect_flight_data_h. rewrite decide_True by done. by eexists.
  - apply set_choose_L in Hne as [i Hi].
    pose proof Hi as Hi'.
    apply elem_of_all_target_ids in Hi' as (t & s & Hs & His).
    rewrite find_target_flight_ids_h_found in Hs.
    destruct (discovered_row ord q _ targets t s i Hs His)
      as (f & c & r & Hf & Hc & Hr & Hty & Hid).
    apply list_elem_of_fmap in Hf as (tb & -> & Htb).
    unfold seen_by_pass1 in Hc. cbn [chunks] in Hc.
    destruct (full (columns tb)) eqn:Hfull; [|by apply elem_of_nil in Hc].
    apply (collect_flight_data_h_returns tables _ tb c r); try done.
    by rewrite Hid.
Qed.

Lemma process_flight_csvs_h_returns ord q tables targets out :
  ∃ r, process_flight_csvs_h ord tables targets q out = Some r
       ∧ result_df r
         = (collect_flight_data (seen_by_pass2 <$> tables)
              (find_target_flight_ids_h ord q tables targets).1).1.
Proof.
  unfold process_flight_csvs_h. destruct tables as [|tb tables].
  - eexists. split; [done|]. cbn [result_df]. unfold collect_flight_data.
    by case_decide.
  - pose proof (pipeline_returns ord q (tb :: tables) targets) as [rows Hrows].
    pose proof (collect_flight_data_h_result _ _ _ Hrows) as Heq.
    destruct (find_target_flight_ids_h ord q (tb :: tables) targets) as [found log1].
    cbn [fst] in *.
    destruct (collect_flight_data_h (tb :: tables) found) as [returned log2].
    cbn [fst] in Hrows. subst returned. eexists. split; [done|]. done.
Qed.

(** With both columns in every header nothing is raised: the functions
    return what they return on the files. *)
Lemma seen_by_pass1_full f : seen_by_pass1 (with_all_columns f) = f.
Proof.
  unfold seen_by_pass1. cbn [columns source with_all_columns full has_type has_flight_id andb].
  rewrite delivered_full by done. by destruct f.
Qed.

Lemma seen_by_pass2_full f : seen_by_pass2 (with_all_columns f) = f.
Proof.
  unfold seen_by_pass2. cbn [columns source with_all_columns has_flight_id].
  rewrite delivered_full by done. by destruct f.
Qed.

Lemma scan_tables_full ord q files : ∀ st,
  scan_tables ord q st (with_all_columns <$> files) = scan_files ord q st files.
Proof.
  induction files as [|f files IH]; intros st; [done|].
  rewrite fmap_cons. cbn [scan_tables scan_files]. case_decide; [done|].
  unfold scan_table, scan_file.
  rewrite scan_chunks_h_full, delivered_full by done.
  cbn [source with_all_columns]. by rewrite IH.
Qed.

Lemma pass2_log_full files : (with_all_columns <$> files) ≫= pass2_log = files ≫= file_log.
Proof.
  induction files as [|f files IH]; [done|].
  by rewrite fmap_cons, !bind_cons, IH.
Qed.

Lemma batches_full ids files :
  ((with_all_columns <$> files) ≫= batches_of ids)
  = pair true <$> (collect_files ids [] files).1.
Proof.
  assert (H : ∀ acc, (collect_files ids acc files).1
                = acc ++ files ≫= (λ f, foldl (collect_chunk ids) [] (chunks f))).
  { induction files as [|f files IH]; intros acc; cbn [collect_files collect_file].
    - by rewrite app_nil_r.
    - specialize (IH (foldl (collect_chunk ids) acc (chunks f))).
      destruct (collect_files ids _ files) as [acc2 log2]. cbn [fst] in *.
      rewrite IH, bind_cons, (foldl_collect_chunk_app ids (chunks f) acc).
      by rewrite (assoc_L (++)). }
  rewrite H. cbn [app]. clear H.
  induction files as [|f files IH]; [done|].
  rewrite fmap_cons, !bind_cons, fmap_app, IH. f_equal.
  unfold batches_of. by rewrite seen_by_pass2_full.
Qed.

Lemma collect_flight_data_h_full files m :
  collect_flight_data_h (with_all_columns <$> files) m
  = (Some (collect_flight_data files m).1, (collect_flight_data files m).2).
Proof.
  unfold collect_flight_data_h, collect_flight_data. case_decide as He; [done|].
  rewrite collect_tables_eq, batches_full, pass2_log_full. cbn [app].
  rewrite <- (collect_files_log (all_target_ids m) files []).
  destruct (collect_files _ [] files) as [[|b bs] log]; [done|].
  cbn [fst snd]. rewrite fmap_cons. cbn [fst snd existsb orb]. rewrite <- fmap_cons.
  by rewrite fmap_snd_pair.
Qed.

Lemma foldl_collect_chunk_inv ids cs b :
  b ∈ foldl (collect_chunk ids) [] cs →
  ∃ c, c ∈ cs ∧ b = filter (λ r, isin_ids (flight_id r) ids = true) c ∧ b ≠ [].
Proof.
  induction cs as [|c cs IH]; cbn [foldl]; [by intros ?%elem_of_nil|].
  rewrite foldl_collect_chunk_app. intros [Hb|Hb]%elem_of_app.
  - exists c. split; [left|]. unfold collect_chunk in Hb.
    destruct (filter _ c) as [|r rs] eqn:E; [by apply elem_of_nil in Hb|].
    apply list_elem_of_singleton in Hb as ->. done.
  - destruct (IH Hb) as (c' & Hc' & Heq & Hne). exists c'. split; [by right|done].
Qed.

(** A batch pass 2 collects is a non-empty selection from a chunk of a table
    with the column [flight_id]. *)
Lemma elem_of_batches ids tables flag b :
  (flag, b) ∈ tables ≫= batches_of ids →
  ∃ tb c r, tb ∈ tables ∧ has_flight_id (columns tb) = true
            ∧ has_type (columns tb) = flag ∧ c ∈ delivered tb ∧ r ∈ c
            ∧ flight_id r ∈ ids.
Proof.
  intros (tb & Hb & Htb)%list_elem_of_bind. unfold batches_of in Hb.
  apply list_elem_of_fmap in Hb as (b' & [= -> ->] & Hb).
  apply foldl_collect_chunk_inv in Hb as (c & Hc & -> & Hne).
  unfold seen_by_pass2 in Hc. cbn [chunks] in Hc.
  destruct (has_flight_id (columns tb)) eqn:Hi; [|by apply elem_of_nil in Hc].
  destruct (filter _ c) as [|r rs] eqn:E; [done|].
  assert (Hr : r ∈ filter (λ r, isin_ids (flight_id r) ids = true) c) by (rewrite E; left).
  apply list_elem_of_filter in Hr as [Hr1 Hr2]. unfold isin_ids in Hr1.
  apply bool_decide_eq_true in Hr1. by exists tb, c, r.
Qed.

Lemma batches_nonempty ids tables tb c r :
  tb ∈ tables → has_flight_id (columns tb) = true → c ∈ delivered tb → r ∈ c →
  flight_id r ∈ ids →
  (has_type (columns tb), filter (λ r, isin_ids (flight_id r) ids = true) c)
    ∈ tables ≫= batches_of ids.
Proof.
  intros Htb Hi Hc Hr Hid. apply list_elem_of_bind. exists tb. split; [|done].
  unfold batches_of, seen_by_pass2. cbn [chunks]. rewrite Hi.
  apply list_elem_of_fmap. eexists. split; [done|].
  apply elem_of_foldl_collect_chunk; [done|].
  intros Hnil.
  assert (Hin : r ∈ filter (λ r, isin_ids (flight_id r) ids = true) c).
  { apply list_elem_of_filter. split; [|done]. unfold isin_ids.
    by apply bool_decide_eq_true. }
  rewrite Hnil in Hin. by apply elem_of_nil in Hin.
Qed.

(** [collect_flight_data] raises exactly when it has collected rows and none
    of them from a table with the column [type]. *)
Lemma collect_flight_data_h_raises tables m :
  (collect_flight_data_h tables m).1 = None
  ↔ (∃ tb c r, tb ∈ tables ∧ has_flight_id (columns tb) = true ∧ c ∈ delivered tb
               ∧ r ∈ c ∧ flight_id r ∈ all_target_ids m)
    ∧ (∀ tb c r, tb ∈ tables → full (columns tb) = true → c ∈ delivered tb → r ∈ c →
                 flight_id r ∉ all_target_ids m).
Proof.
  split.
  - intros Hnone. split.
    + unfold collect_flight_data_h in Hnone. case_decide as He; [done|].
      rewrite collect_tables_eq in Hnone. cbn [app] in Hnone.
      destruct (tables ≫= batches_of _) as [|[flag b] bs] eqn:E; [done|].
      destruct (elem_of_batches (all_target_ids m) tables flag b)
        as (tb & c & r & H1 & H2 & _ & H4 & H5 & H6); [rewrite E; left|].
      by exists tb, c, r.
    + intros tb c r Htb Hf Hc Hr Hid.
      destruct (collect_flight_data_h_returns tables m tb c r Htb Hf Hc Hr Hid)
        as [rows Hrows].
      by rewrite Hnone in Hrows.
  - intros [(tb & c & r & Htb & Hi & Hc & Hr & Hid) Hall].
    unfold collect_flight_data_h. rewrite decide_False by set_solver.
    rewrite collect_tables_eq. cbn [app].
    pose proof (batches_nonempty _ tables tb c r Htb Hi Hc Hr Hid) as Hin.
    destruct (tables ≫= batches_of _) as [|b0 bs] eqn:E; [by apply elem_of_nil in Hin|].
    destruct (existsb fst (b0 :: bs)) eqn:Hex; [|done].
    apply existsb_elem_of in Hex as ([flag b] & Hb & Hflag). cbn [fst] in Hflag.
    subst flag. rewrite <- E in Hb.
    apply elem_of_batches in Hb as (tb' & c' & r' & H1 & H2 & H3 & H4 & H5 & H6).
    exfalso. apply (Hall tb' c' r'); try done. unfold full. by rewrite H2, H3.
Qed.

Lemma elem_of_seen_by_pass2 tables (x : row) :
  x ∈ all_rows (seen_by_pass2 <$> tables)
  ↔ ∃ tb, tb ∈ tables ∧ has_flight_id (columns tb) = true ∧ x ∈ concat (delivered tb).
Proof.
  rewrite elem_of_all_rows. split.
  - intros (f & c & (tb & -> & Htb)%list_elem_of_fmap & Hc & Hx).
    unfold seen_by_pass2 in Hc. cbn [chunks] in Hc.
    destruct (has_flight_id (columns tb)) eqn:Hi; [|by apply elem_of_nil in Hc].
    exists tb. split; [done|]. split; [done|]. apply elem_of_concat. by exists c.
  - intros (tb & Htb & Hi & (c & Hc & Hx)%elem_of_concat).
    exists (seen_by_pass2 tb), c. split; [by apply list_elem_of_fmap_2|].
    split; [|done]. unfold seen_by_pass2. cbn [chunks]. by rewrite Hi.
Qed.

(** The log of pass 2 around a table without the column [flight_id]. *)
Lemma collect_flight_data_h_raising pre tb post m :
  all_target_ids m ≠ ∅ → has_flight_id (columns tb) = false →
  chunks (source tb) ≠ [] →
  (collect_flight_data_h (pre ++ tb :: post) m).2
  = (collect_flight_data_h pre m).2
    ++ [Reading (path (source tb));
        ErrorReading (path (source tb)) key_error_flight_id]
    ++ (collect_flight_data_h post m).2.
Proof.
  intros Hne Hi Hcs. rewrite !collect_flight_data_h_log by done.
  rewrite bind_app, bind_cons. unfold pass2_log at 2. rewrite Hi.
  by destruct (chunks (source tb)).
Qed.

(** C8 as stated is false, for null fields and for missing columns.  A row
    whose [type] is null passes the filter of pass 2 and is in the output; a
    null [flight_id] is discovered by pass 1 as one of the two identifiers
    of type A, and the rows that have it are in the output.  A file whose
    header lacks [type] or [flight_id] makes pass 1 raise; the file is
    reported and left, and a file without the column [flight_id] is not a
    file whose [flight_id] fields are null: of the second the null is
    discovered, of the first nothing.  Called on a file without the column
    [type] alone, [collect_flight_data] raises to its caller. *)
Lemma missing_column_raises :
  (type untyped_row = None
   ∧ result_df <$> process_flight_csvs_h forward [with_all_columns partial_schema_file]
                     ["A"%string] 1 "filtered_flights.csv"
     = Some [track "FL0001" "A" "p1"; track "FL0001" "A" "p2"; untyped_row])
  ∧ (flight_id (anonymous_row "p4") = None
     ∧ (find_target_flight_ids_h forward 2 [with_all_columns null_cells_file]
          ["A"%string]).1
       = {[ "A"%string := {[ Some "FL0001"%string; None ]} ]}
     ∧ result_df <$> process_flight_csvs_h forward [with_all_columns null_cells_file]
                       ["A"%string] 2 "filtered_flights.csv"
       = Some [track "FL0001" "A" "p1"; anonymous_row "p4"; anonymous_row "p5";
               untyped_row; untyped_row2])
  ∧ find_target_flight_ids_h forward 2 mixed_headers ["A"%string]
    = ({[ "A"%string := {[ Some "FL0001"%string ]} ]},
       [Reading "flights_2024_01_01.csv";
        Reading "flights_2024_01_05.csv";
        ErrorReading "flights_2024_01_05.csv" "'type'";
        Reading "flights_2024_01_06.csv";
        ErrorReading "flights_2024_01_06.csv" "'flight_id'"]%string)
  ∧ ((find_target_flight_ids_h forward 2 [with_all_columns unidentified_file]
        ["A"%string]).1
     = {[ "A"%string := {[ None ]} ]}
     ∧ find_target_flight_ids_h forward 2 [without_flight_id_column unidentified_file]
         ["A"%string]
       = (∅, [Reading "flights_2024_01_06.csv";
              ErrorReading "flights_2024_01_06.csv" "'flight_id'"]%string))
  ∧ (collect_flight_data_h [without_type_column typeless_file]
       {[ "A"%string := {[ Some "FL0001"%string ]} ]}).1 = None.
Proof. repeat split; compute_done. Qed.

(** C8 (rows with missing fields, files with missing columns), amended.

    Null fields raise nothing: on files whose headers have both columns the
    two passes and the orchestrator return what they return in the model
    without exceptions, log included.  Pass 1 excludes the rows whose [type]
    is null: it discovers the same map without them.  Pass 2 tests
    [flight_id] alone: the rows of the result are the rows whose
    [flight_id] cell is in the discovered union, whatever their [type], and
    a null [flight_id] is an identifier like another.

    A file whose header lacks a column is not read row by row by a pass that
    needs the column.  Pass 1 uses nothing of a file without [type] or
    without [flight_id]: it discovers what it discovers on the files that
    have both.  A file without [type] that delivers a chunk raises KeyError
    on it, and a file without [flight_id] raises on the first row of a type
    still needed; the file is reported and the scan goes on.  Pass 2 raises
    on the first chunk of a file without [flight_id], reports it and goes
    on; a file without [type] it does read row by row, and its rows have a
    null [type].

    [process_flight_csvs] returns for every list of files.
    [collect_flight_data] on a map of its caller raises exactly when it has
    collected rows and none comes from a file with the column [type]. *)
Theorem missing_fields_and_columns (ord : SetOrder) (q : Z) (files : list csv_file)
    (pre post : list table) (tb : table) (targets : list string)
    (m : gmap string (gset cell)) (out : string) :
  let tables := pre ++ tb :: post in
  let p := path (source tb) in
  let found := (find_target_flight_ids_h ord q tables targets).1 in
  let before := (scan_tables ord q (initial_state targets) pre).1 in
  (find_target_flight_ids_h ord q (with_all_columns <$> files) targets
     = find_target_flight_ids ord q files targets
   ∧ collect_flight_data_h (with_all_columns <$> files) m
     = (Some (collect_flight_data files m).1, (collect_flight_data files m).2)
   ∧ process_flight_csvs_h ord (with_all_columns <$> files) targets q out
     = Some (process_flight_csvs ord files targets q out))
  ∧ found = (find_target_flight_ids_h ord q (without_untyped_rows <$> tables) targets).1
  ∧ found = (find_target_flight_ids ord q (seen_by_pass1 <$> tables) targets).1
  ∧ (∃ r, process_flight_csvs_h ord tables targets q out = Some r
          ∧ result_df r = (collect_flight_data (seen_by_pass2 <$> tables) found).1
          ∧ ∀ x, x ∈ result_df r
                 ↔ (∃ tb', tb' ∈ tables ∧ has_flight_id (columns tb') = true
                           ∧ x ∈ concat (delivered tb'))
                   ∧ flight_id x ∈ all_target_ids found)
  ∧ (∀ rows, (collect_flight_data_h tables m).1 = Some rows →
       rows = (collect_flight_data (seen_by_pass2 <$> tables) m).1)
  ∧ ((collect_flight_data_h tables m).1 = None
     ↔ (∃ tb' c r, tb' ∈ tables ∧ has_flight_id (columns tb') = true
                   ∧ c ∈ delivered tb' ∧ r ∈ c ∧ flight_id r ∈ all_target_ids m)
       ∧ (∀ tb' c r, tb' ∈ tables → full (columns tb') = true → c ∈ delivered tb' →
                     r ∈ c → flight_id r ∉ all_target_ids m))
  ∧ (types_needed before ≠ ∅ → has_type (columns tb) = false →
     chunks (source tb) ≠ [] →
       (find_target_flight_ids_h ord q tables targets).2
       = (find_target_flight_ids_h ord q pre targets).2
         ++ [Reading p; ErrorReading p key_error_type]
         ++ (scan_tables ord q before post).2)
  ∧ (has_type (columns tb) = true → has_flight_id (columns tb) = false →
     mentions (types_needed before) (delivered tb) = true →
       (find_target_flight_ids_h ord q tables targets).2
       = (find_target_flight_ids_h ord q pre targets).2
         ++ [Reading p; ErrorReading p key_error_flight_id]
         ++ (scan_tables ord q before post).2)
  ∧ (all_target_ids m ≠ ∅ → has_flight_id (columns tb) = false →
     chunks (source tb) ≠ [] →
       (collect_flight_data_h tables m).2
       = (collect_flight_data_h pre m).2
         ++ [Reading p; ErrorReading p key_error_flight_id]
         ++ (collect_flight_data_h post m).2).
Proof.
  cbv zeta. split; [split; [|split]|].
  - rewrite find_target_flight_ids_h_unfold, find_target_flight_ids_unfold.
    by rewrite scan_tables_full.
  - apply collect_flight_data_h_full.
  - unfold process_flight_csvs_h, process_flight_csvs.
    destruct files as [|f files]; [done|]. rewrite fmap_cons, <- fmap_cons.
    rewrite find_target_flight_ids_h_unfold, find_target_flight_ids_unfold.
    rewrite scan_tables_full, collect_flight_data_h_full.
    by destruct (collect_flight_data (f :: files) _).
  - split; [|split; [|split; [|split; [|split; [|split; [|split]]]]]].
    + rewrite !find_target_flight_ids_h_found, !find_target_flight_ids_found.
      by rewrite seen_by_pass1_untyped, scan_chunks_untyped.
    + apply find_target_flight_ids_h_found.
    + destruct (process_flight_csvs_h_returns ord q (pre ++ tb :: post) targets out)
        as (r & Hr & Hres).
      exists r. split; [done|]. split; [done|]. intros x.
      by rewrite Hres, elem_of_collect_result, elem_of_seen_by_pass2.
    + apply collect_flight_data_h_result.
    + apply collect_flight_data_h_raises.
    + intros Hne Ht Hcs. apply scan_tables_raising; [done|].
      rewrite scan_chunks_h_no_type by done.
      unfold delivered. by destruct (chunks (source tb)).
    + intros Ht Hi Hm. apply scan_tables_raising.
      * intros He. rewrite He in Hm. unfold mentions in Hm.
        apply existsb_elem_of in Hm as (c & _ & (r & _ & Hr)%existsb_elem_of).
        unfold isin_types in Hr. destruct (type r); [|done].
        apply bool_decide_eq_true in Hr. set_solver.
      * rewrite scan_chunks_h_no_id by done. by rewrite Hm.
    + apply collect_flight_data_h_raising.
Qed.

(** C8, amended, on three files: one with both columns, one without [type],
    one without [flight_id]. *)
Lemma missing_fields_and_columns_witness :
  let m : gmap string (gset cell) := {[ "A"%string := {[ Some "FL0001"%string ]} ]} in
  let complete := with_all_columns partial_schema_file in
  let typeless := without_type_column typeless_file in
  let unidentified := without_flight_id_column unidentified_file in
  let before := (scan_tables forward 2 (initial_state ["A"%string]) [complete]).1 in
  (types_needed before ≠ ∅
   ∧ has_type (columns typeless) = false ∧ chunks (source typeless) ≠ []
   ∧ has_type (columns unidentified) = true
   ∧ has_flight_id (columns unidentified) = false
   ∧ chunks (source unidentified) ≠ []
   ∧ mentions (types_needed before) (delivered unidentified) = true
   ∧ all_target_ids m ≠ ∅)
  ∧ (find_target_flight_ids_h forward 2 [complete; typeless; unidentified]
       ["A"%string]).2
    = [Reading "flights_2024_01_01.csv";
       Reading "flights_2024_01_05.csv";
       ErrorReading "flights_2024_01_05.csv" "'type'";
       Reading "flights_2024_01_06.csv";
       ErrorReading "flights_2024_01_06.csv" "'flight_id'"]%string
  ∧ (find_target_flight_ids_h forward 2 [complete; unidentified; typeless]
       ["A"%string]).2
    = [Reading "flights_2024_01_01.csv";
       Reading "flights_2024_01_06.csv";
       ErrorReading "flights_2024_01_06.csv" "'flight_id'";
       Reading "flights_2024_01_05.csv";
       ErrorReading "flights_2024_01_05.csv" "'type'"]%string
  ∧ (collect_flight_data_h [complete; unidentified; typeless] m).2
    = [Reading "flights_2024_01_01.csv";
       Reading "flights_2024_01_06.csv";
       ErrorReading "flights_2024_01_06.csv" "'flight_id'";
       Reading "flights_2024_01_05.csv"]%string
  ∧ (find_target_flight_ids_h forward 2
       (without_untyped_rows <$> [complete; typeless; unidentified]) ["A"%string]).1
    = m
  ∧ result_df <$> process_flight_csvs_h forward [complete; typeless; unidentified]
                    ["A"%string] 2 "filtered_flights.csv"
    = Some [track "FL0001" "A" "p1"; track "FL0001" "A" "p2";
            untyped_row; untyped_row; untyped_row2]
  ∧ (collect_flight_data [seen_by_pass2 complete; seen_by_pass2 typeless;
                          seen_by_pass2 unidentified] m).1
    = [track "FL0001" "A" "p1"; track "FL0001" "A" "p2";
       untyped_row; untyped_row; untyped_row2]
  ∧ (collect_flight_data_h [typeless] m).1 = None.
Proof.
  cbv zeta.
  pose proof (missing_fields_and_columns forward 2 [partial_schema_file]
                [with_all_columns partial_schema_file]
                [without_flight_id_column unidentified_file]
                (without_type_column typeless_file) ["A"%string]
                {[ "A"%string := {[ Some "FL0001"%string ]} ]}
                "filtered_flights.csv") as H1.
  pose proof (missing_fields_and_columns forward 2 [partial_schema_file]
                [with_all_columns partial_schema_file]
                [without_type_column typeless_file]
                (without_flight_id_column unidentified_file) ["A"%string]
                {[ "A"%string := {[ Some "FL0001"%string ]} ]}
                "filtered_flights.csv") as H2.
  pose proof (missing_fields_and_columns forward 2 [partial_schema_file]
                [] [] (without_type_column typeless_file) ["A"%string]
                {[ "A"%string := {[ Some "FL0001"%string ]} ]}
                "filtered_flights.csv") as H3.
  cbv zeta in H1, H2, H3.
  destruct H1 as (_ & Huntyped & _ & (r & Hr & Hres & _) & Hrows & _ & Hlog1 & _ & _).
  destruct H2 as (_ & _ & _ & _ & _ & _ & _ & Hlog1' & Hlog2).
  destruct H3 as (_ & _ & _ & _ & _ & Hnone & _).
  assert (Hbefore : types_needed
            (scan_tables forward 2 (initial_state ["A"%string])
               [with_all_columns partial_schema_file]).1 ≠ ∅) by compute_done.
  assert (Hm : all_target_ids
            ({[ "A"%string := {[ Some "FL0001"%string ]} ]} : gmap string (gset cell))
            ≠ ∅) by compute_done.
  split.
  { split; [exact Hbefore|]. split; [reflexivity|]. split; [discriminate|].
    split; [reflexivity|]. split; [reflexivity|]. split; [discriminate|].
    split; [reflexivity|exact Hm]. }
  split.
  { etrans; [exact (Hlog1 Hbefore eq_refl ltac:(discriminate))|reflexivity]. }
  split.
  { etrans; [exact (Hlog1' eq_refl eq_refl eq_refl)|reflexivity]. }
  split.
  { etrans; [exact (Hlog2 Hm eq_refl ltac:(discriminate))|reflexivity]. }
  split.
  { etrans; [symmetry; exact Huntyped|compute_done]. }
  split.
  { cbn [app] in Hr. rewrite Hr. cbn [fmap option_fmap option_map]. f_equal.
    etrans; [exact Hres|compute_done]. }
  split.
  { symmetry. apply Hrows. compute_done. }
  apply Hnone. split.
  - exists (without_type_column typeless_file), [untyped_row; untyped_row2], untyped_row.
    split; [left|]. split; [reflexivity|]. split; [left|]. split; [left|].
    compute_done.
  - intros tb' c x ->%list_elem_of_singleton Hf. discriminate Hf.
Defined.
